(** * date-resolver: a shallow embedding of [scripts/dates.py]

    The development follows the layout of the script:
    - [Calendar] the proleptic Gregorian calendar of [datetime] and
                 [calendar], with the range [MINYEAR..MAXYEAR];
    - [Py]       what the script takes from Python itself: [str]
                 methods, [int], and the [re] patterns it uses;
    - [Dates]    the script: the name tables, the helpers
                 [_next_weekday], [_prev_weekday], [_add_months],
                 [resolve] with its chain of grammars, and
                 [get_weekday] and [relative_description] over a parser
                 and a clock that are given.

    A Python [str] is read as a Rocq [string] whose characters are the
    code points below 256 (Latin-1); the character classes of [re] and
    of [str.lower]/[str.strip] are written out on that range. *)

From Stdlib Require Import ZArith Lia Bool List String Ascii DecimalString.
Import ListNotations.
Open Scope Z_scope.

(** ** Exceptions and results *)

(** The exceptions the script can meet in [datetime] and [int]. *)
Inductive exn : Type :=
| ValueError
| OverflowError.

(** The outcome of running a piece of Python: a value, a raised
    exception, or [OutOfFuel] when the bound put on a [while] loop of
    the model is exhausted (shown below never to happen for the bounds
    the model uses). *)
Inductive outcome (A : Type) : Type :=
| Ret (a : A)
| Raise (e : exn)
| OutOfFuel.
Arguments Ret {A} a.
Arguments Raise {A} e.
Arguments OutOfFuel {A}.

Definition bind {A B : Type} (m : outcome A) (f : A -> outcome B) : outcome B :=
  match m with
  | Ret a => f a
  | Raise e => Raise e
  | OutOfFuel => OutOfFuel
  end.

Notation "x <- m ;; k" := (bind m (fun x => k))
  (at level 61, m at next level, right associativity).

(** [try: m except ValueError: pass], for a computation whose value is
    an optional match. *)
Definition except_ValueError_pass {A : Type} (m : outcome (option A)) : outcome (option A) :=
  match m with
  | Raise ValueError => Ret None
  | other => other
  end.

(** ** The calendar of [datetime] *)

Module Calendar.

Definition MINYEAR : Z := 1.
Definition MAXYEAR : Z := 9999.
(** [date.max.toordinal()], the ordinal of 9999-12-31. *)
Definition MAXORDINAL : Z := 3652059.

Record date : Type := mkDate { year : Z; month : Z; day : Z }.

(** A [datetime]: a calendar date and a time of day. *)
Record datetime : Type := mkDatetime {
  dt_date : date;
  hour : Z; minute : Z; second : Z; microsecond : Z
}.

(** [_is_leap] *)
Definition is_leap (y : Z) : bool :=
  (y mod 4 =? 0) && (negb (y mod 100 =? 0) || (y mod 400 =? 0)).

(** [_DAYS_IN_MONTH], index 1..12. *)
Definition DAYS_IN_MONTH (m : Z) : Z :=
  match m with
  | 1 => 31 | 2 => 28 | 3 => 31 | 4 => 30 | 5 => 31 | 6 => 30
  | 7 => 31 | 8 => 31 | 9 => 30 | 10 => 31 | 11 => 30 | 12 => 31
  | _ => 0
  end.

(** [_DAYS_BEFORE_MONTH], index 1..12. *)
Definition DAYS_BEFORE_MONTH (m : Z) : Z :=
  match m with
  | 1 => 0 | 2 => 31 | 3 => 59 | 4 => 90 | 5 => 120 | 6 => 151
  | 7 => 181 | 8 => 212 | 9 => 243 | 10 => 273 | 11 => 304 | 12 => 334
  | _ => 0
  end.

Definition b2z (b : bool) : Z := if b then 1 else 0.

(** [_days_before_year] *)
Definition days_before_year (y : Z) : Z :=
  let y := y - 1 in
  y * 365 + y / 4 - y / 100 + y / 400.

(** [_days_in_month] *)
Definition days_in_month (y m : Z) : Z :=
  if (m =? 2) && is_leap y then 29 else DAYS_IN_MONTH m.

(** [_days_before_month] *)
Definition days_before_month (y m : Z) : Z :=
  DAYS_BEFORE_MONTH m + b2z ((2 <? m) && is_leap y).

(** [_ymd2ord]: 0001-01-01 is day 1. *)
Definition ymd2ord (y m d : Z) : Z :=
  days_before_year y + days_before_month y m + d.

(** [_ord2ymd] *)
Definition ord2ymd (n : Z) : date :=
  let n := n - 1 in
  let n400 := n / 146097 in
  let n := n mod 146097 in
  let n100 := n / 36524 in
  let n := n mod 36524 in
  let n4 := n / 1461 in
  let n := n mod 1461 in
  let n1 := n / 365 in
  let n := n mod 365 in
  let y := n400 * 400 + 1 + n100 * 100 + n4 * 4 + n1 in
  if (n1 =? 4) || (n100 =? 4) then mkDate (y - 1) 12 31
  else
    let leapyear := (n1 =? 3) && (negb (n4 =? 24) || (n100 =? 3)) in
    let m := Z.shiftr (n + 50) 5 in
    let preceding := DAYS_BEFORE_MONTH m + b2z ((2 <? m) && leapyear) in
    if n <? preceding then
      let m := m - 1 in
      let preceding := preceding - (DAYS_IN_MONTH m + b2z ((m =? 2) && leapyear)) in
      mkDate y m (n - preceding + 1)
    else
      mkDate y m (n - preceding + 1).

(** The check [date.__new__] makes on its fields. *)
Definition valid_date (d : date) : bool :=
  (MINYEAR <=? year d) && (year d <=? MAXYEAR) &&
  (1 <=? month d) && (month d <=? 12) &&
  (1 <=? day d) && (day d <=? days_in_month (year d) (month d)).

Definition valid_datetime (t : datetime) : bool :=
  valid_date (dt_date t) &&
  (0 <=? hour t) && (hour t <? 24) &&
  (0 <=? minute t) && (minute t <? 60) &&
  (0 <=? second t) && (second t <? 60) &&
  (0 <=? microsecond t) && (microsecond t <? 1000000).

(** Whether a Python [int] converts to a C [int], as the arguments of
    [date], [datetime] and [replace] must. *)
Definition fits_c_int (n : Z) : bool := (-2147483648 <=? n) && (n <=? 2147483647).

(** [date(y, m, d)]: the three arguments are converted to C [int]s,
    [OverflowError] when one does not fit; then the fields are checked,
    [ValueError] when one is out of range. *)
Definition new_date (y m d : Z) : outcome date :=
  if fits_c_int y && fits_c_int m && fits_c_int d then
    let r := mkDate y m d in
    if valid_date r then Ret r else Raise ValueError
  else Raise OverflowError.

(** [datetime(y, m, d)]: midnight of that day. *)
Definition new_datetime (y m d : Z) : outcome datetime :=
  r <- new_date y m d ;; Ret (mkDatetime r 0 0 0 0).

(** [date.toordinal] *)
Definition toordinal (d : date) : Z := ymd2ord (year d) (month d) (day d).

(** [date.fromordinal], for an ordinal in range. *)
Definition fromordinal (n : Z) : date := ord2ymd n.

(** [date.weekday]: Monday is 0, Sunday is 6. *)
Definition date_weekday (d : date) : Z := (toordinal d + 6) mod 7.

Definition weekday (t : datetime) : Z := date_weekday (dt_date t).

(** [timedelta(days=n)]: [OverflowError] beyond 999999999 days. *)
Definition timedelta_days (n : Z) : outcome Z :=
  if (-999999999 <=? n) && (n <=? 999999999) then Ret n else Raise OverflowError.

(** [timedelta(weeks=n)] *)
Definition timedelta_weeks (n : Z) : outcome Z := timedelta_days (7 * n).

(** [datetime + timedelta] for a whole number of days: the time of day
    is kept, [OverflowError] outside [date.min..date.max]. *)
Definition add_delta (t : datetime) (days : Z) : outcome datetime :=
  let o := toordinal (dt_date t) + days in
  if (0 <? o) && (o <=? MAXORDINAL)
  then Ret (mkDatetime (fromordinal o) (hour t) (minute t) (second t) (microsecond t))
  else Raise OverflowError.

(** [t + timedelta(days=n)] *)
Definition plus_days (t : datetime) (n : Z) : outcome datetime :=
  delta <- timedelta_days n ;; add_delta t delta.

(** [t - timedelta(days=n)] *)
Definition minus_days (t : datetime) (n : Z) : outcome datetime :=
  delta <- timedelta_days n ;; add_delta t (- delta).

(** [t + timedelta(weeks=n)] *)
Definition plus_weeks (t : datetime) (n : Z) : outcome datetime :=
  delta <- timedelta_weeks n ;; add_delta t delta.

(** [t - timedelta(weeks=n)] *)
Definition minus_weeks (t : datetime) (n : Z) : outcome datetime :=
  delta <- timedelta_weeks n ;; add_delta t (- delta).

(** [t.replace(year=y, month=m, day=d)]: the new fields are converted
    and checked as [date] does. *)
Definition replace_ymd (t : datetime) (y m d : Z) : outcome datetime :=
  r <- new_date y m d ;;
  Ret (mkDatetime r (hour t) (minute t) (second t) (microsecond t)).

(** [t.replace(hour=0, minute=0, second=0, microsecond=0)] *)
Definition replace_midnight (t : datetime) : datetime :=
  mkDatetime (dt_date t) 0 0 0 0.

(** [(a - b).days] for two dates. *)
Definition days_between (a b : date) : Z := toordinal a - toordinal b.

(** [a < b] on dates: the order of the (year, month, day) triples. *)
Definition date_ltb (a b : date) : bool :=
  (year a <? year b) ||
  ((year a =? year b) &&
   ((month a <? month b) || ((month a =? month b) && (day a <? day b)))).

(** [calendar.monthrange(y, m)[1]]: the number of days of the month;
    [IllegalMonthError], a [ValueError], for a month outside 1..12. *)
Definition monthrange_days (y m : Z) : outcome Z :=
  if (1 <=? m) && (m <=? 12)
  then Ret (DAYS_IN_MONTH m + b2z ((m =? 2) && is_leap y))
  else Raise ValueError.

(** [date + timedelta] for a whole number of days, on a [date]:
    [OverflowError] outside [date.min..date.max]. *)
Definition date_add_delta (d : date) (days : Z) : outcome date :=
  let o := toordinal d + days in
  if (0 <? o) && (o <=? MAXORDINAL) then Ret (fromordinal o) else Raise OverflowError.

(** [d + timedelta(days=n)] on a [date]. *)
Definition date_plus_days (d : date) (n : Z) : outcome date :=
  delta <- timedelta_days n ;; date_add_delta d delta.

(** [min(a, b)] and [max(a, b)] on dates: the first argument on a tie. *)
Definition date_min (a b : date) : date := if date_ltb b a then b else a.
Definition date_max (a b : date) : date := if date_ltb a b then b else a.

End Calendar.

(** ** Strings, [int] and [re] *)

Module Py.

Open Scope string_scope.

(** The code point of a character. *)
Definition code (c : ascii) : N := N_of_ascii c.

Definition between (lo hi : N) (c : ascii) : bool :=
  (lo <=? code c)%N && (code c <=? hi)%N.

Definition is_code (n : N) (c : ascii) : bool := (code c =? n)%N.

(** [str.isspace] on one character, also the class [\s]: the ASCII
    white space, the separators 0x1c..0x1f, NEL and the no-break space. *)
Definition is_space (c : ascii) : bool :=
  between 9 13 c || between 28 32 c || is_code 133 c || is_code 160 c.

(** The class [\d]: the decimal digits (below 256 these are 0..9). *)
Definition is_digit (c : ascii) : bool := between 48 57 c.

(** Letters of Latin-1. *)
Definition is_alpha (c : ascii) : bool :=
  between 65 90 c || between 97 122 c ||
  is_code 170 c || is_code 181 c || is_code 186 c ||
  between 192 214 c || between 216 246 c || between 248 255 c.

(** The class [\w]: alphanumeric characters and the underscore; the
    superscripts and fractions of Latin-1 are numeric, hence alphanumeric. *)
Definition is_word (c : ascii) : bool :=
  is_alpha c || is_digit c || is_code 95 c ||
  is_code 178 c || is_code 179 c || is_code 185 c || between 188 190 c.

(** [str.lower] on one character. *)
Definition lower_char (c : ascii) : ascii :=
  if between 65 90 c || (between 192 222 c && negb (is_code 215 c))
  then ascii_of_N (code c + 32)
  else c.

(** [str.upper] on an ASCII letter; other characters are kept. *)
Definition upper_ascii (c : ascii) : ascii :=
  if between 97 122 c then ascii_of_N (code c - 32) else c.

Fixpoint map_string (f : ascii -> ascii) (s : string) : string :=
  match s with
  | EmptyString => EmptyString
  | String c s' => String (f c) (map_string f s')
  end.

(** [s.lower()] *)
Definition lower (s : string) : string := map_string lower_char s.

(** [s.lstrip()] *)
Fixpoint lstrip (s : string) : string :=
  match s with
  | String c s' => if is_space c then lstrip s' else s
  | EmptyString => EmptyString
  end.

(** [s.rstrip()] *)
Fixpoint rstrip (s : string) : string :=
  match s with
  | String c s' =>
      match rstrip s' with
      | EmptyString => if is_space c then EmptyString else String c EmptyString
      | t => String c t
      end
  | EmptyString => EmptyString
  end.

(** [s.strip()] *)
Definition strip (s : string) : string := rstrip (lstrip s).

(** [s.startswith(p)], returning what follows the prefix. *)
Fixpoint drop_prefix (p s : string) : option string :=
  match p with
  | EmptyString => Some s
  | String c p' =>
      match s with
      | String d s' => if Ascii.eqb c d then drop_prefix p' s' else None
      | EmptyString => None
      end
  end.

(** [kw in s] for strings. *)
Fixpoint contains (kw s : string) : bool :=
  match drop_prefix kw s with
  | Some _ => true
  | None => match s with
            | String _ s' => contains kw s'
            | EmptyString => false
            end
  end.

(** [a == b] on strings. *)
Notation "a == b" := (String.eqb a b) (at level 70, no associativity).

(** [x in (a, b, ...)] for a tuple of strings. *)
Definition among (x : string) (l : list string) : bool := existsb (String.eqb x) l.

(** [s.title()], on the ASCII words it is applied to: a letter that
    follows a letter is lowered, any other letter is raised. *)
Fixpoint title_from (previous_is_cased : bool) (s : string) : string :=
  match s with
  | EmptyString => EmptyString
  | String c s' =>
      String (if previous_is_cased then lower_char c else upper_ascii c)
             (title_from (is_alpha c) s')
  end.

Definition title (s : string) : string := title_from false s.

(** *** Integers and text *)

(** [sys.get_int_max_str_digits()], the default bound on the length of
    a decimal string [int] converts. *)
Definition INT_MAX_STR_DIGITS : nat := 4300.

Definition digit_value (c : ascii) : Z := Z.of_N (code c) - 48.

Fixpoint int_digits (acc : Z) (s : string) : option Z :=
  match s with
  | EmptyString => Some acc
  | String c s' => if is_digit c then int_digits (10 * acc + digit_value c) s' else None
  end.

(** [int(s)] for the text a [\d] group captures: [ValueError] when [s]
    is empty, holds anything but digits, or is longer than the limit. *)
Definition int (s : string) : outcome Z :=
  match s with
  | EmptyString => Raise ValueError
  | _ => if (String.length s <=? INT_MAX_STR_DIGITS)%nat
         then match int_digits 0 s with
              | Some n => Ret n
              | None => Raise ValueError
              end
         else Raise ValueError
  end.

(** [str(n)] *)
Definition str (n : Z) : string := DecimalString.NilZero.string_of_int (Z.to_int n).

Fixpoint zeros (n : nat) : string :=
  match n with
  | O => EmptyString
  | S n' => String "0" (zeros n')
  end.

(** ["%0wd" % n] for a number that is not negative. *)
Definition zero_padded (w : nat) (n : Z) : string :=
  let s := str n in zeros (w - String.length s) ++ s.

(** [sep.join(parts)] *)
Fixpoint join (sep : string) (parts : list string) : string :=
  match parts with
  | [] => EmptyString
  | [p] => p
  | p :: rest => p ++ sep ++ join sep rest
  end.

(** *** Regular expressions

    The patterns of the script use literals, the classes [\d], [\w],
    [\s] under a greedy or lazy repetition, sequence, alternation,
    optional groups, capturing groups and the anchor [$].  The matcher
    is the backtracking one of [re]: alternatives in order, a greedy
    repetition longest first, a lazy one shortest first. *)

Inductive cls : Type := Cdigit | Cword | Cspace.

Definition in_cls (c : cls) : ascii -> bool :=
  match c with
  | Cdigit => is_digit
  | Cword => is_word
  | Cspace => is_space
  end.

Inductive regex : Type :=
| Eps
| Lit (s : string)
| Rep (c : cls) (lo : nat) (hi : option nat) (greedy : bool)
| Seq (r1 r2 : regex)
| Alt (r1 r2 : regex)
| Opt (r : regex)
| Group (i : nat) (r : regex)
| Eos.

(** The groups that took part in a match, the latest binding first. *)
Definition captures : Type := list (nat * string).

(** A successful match: its groups and the text after it. *)
Definition found : Type := (captures * string)%type.

Definition allows_more (hi : option nat) : bool :=
  match hi with
  | Some O => false
  | _ => true
  end.

(** A class repeated between [lo] and [hi] times, then the rest of the
    pattern [k]. *)
Fixpoint rep (greedy : bool) (c : ascii -> bool) (lo : nat) (hi : option nat)
    (s : string) (k : string -> option found) {struct s} : option found :=
  match s with
  | String ch s' =>
      if allows_more hi && c ch then
        if greedy then
          match rep greedy c (Nat.pred lo) (option_map Nat.pred hi) s' k with
          | Some x => Some x
          | None => if Nat.eqb lo 0 then k s else None
          end
        else
          match (if Nat.eqb lo 0 then k s else None) with
          | Some x => Some x
          | None => rep greedy c (Nat.pred lo) (option_map Nat.pred hi) s' k
          end
      else if Nat.eqb lo 0 then k s else None
  | EmptyString => if Nat.eqb lo 0 then k s else None
  end.

(** The part of [s] that was consumed to reach its suffix [rest]. *)
Definition consumed (s rest : string) : string :=
  substring 0 (String.length s - String.length rest) s.

(** [$]: the end of the text, or just before a final newline. *)
Definition at_end (s : string) : bool :=
  match s with
  | EmptyString => true
  | String c EmptyString => is_code 10 c
  | _ => false
  end.

Fixpoint rmatch (r : regex) (s : string) (caps : captures)
    (k : string -> captures -> option found) {struct r} : option found :=
  match r with
  | Eps => k s caps
  | Lit l => match drop_prefix l s with
             | Some s' => k s' caps
             | None => None
             end
  | Rep c lo hi greedy => rep greedy (in_cls c) lo hi s (fun s' => k s' caps)
  | Seq r1 r2 => rmatch r1 s caps (fun s' caps' => rmatch r2 s' caps' k)
  | Alt r1 r2 => match rmatch r1 s caps k with
                 | Some x => Some x
                 | None => rmatch r2 s caps k
                 end
  | Opt r1 => match rmatch r1 s caps k with
              | Some x => Some x
              | None => k s caps
              end
  | Group i r1 => rmatch r1 s caps (fun s' caps' => k s' ((i, consumed s s') :: caps'))
  | Eos => if at_end s then k s caps else None
  end.

(** [re.match(r, s)] *)
Definition re_match (r : regex) (s : string) : option found :=
  rmatch r s [] (fun rest caps => Some (caps, rest)).

(** [re.search(r, s)]: the leftmost position where [r] matches. *)
Fixpoint re_search (r : regex) (s : string) : option found :=
  match re_match r s with
  | Some x => Some x
  | None => match s with
            | String _ s' => re_search r s'
            | EmptyString => None
            end
  end.

(** [re.sub(r, "", s)]: every match is cut out, left to right; [skip]
    counts the characters of the current match still to drop. *)
Fixpoint sub_empty (r : regex) (skip : nat) (s : string) : string :=
  match skip with
  | S n => match s with
           | String _ s' => sub_empty r n s'
           | EmptyString => EmptyString
           end
  | O => match s with
         | String c s' =>
             match re_match r s with
             | Some (_, rest) =>
                 match (String.length s - String.length rest)%nat with
                 | O => String c (sub_empty r O s')
                 | S n => sub_empty r n s'
                 end
             | None => String c (sub_empty r O s')
             end
         | EmptyString => EmptyString
         end
  end.

Definition re_sub_empty (r : regex) (s : string) : string := sub_empty r 0 s.

(** [m.group(i)]: the text of group [i], [None] when it took no part. *)
Fixpoint group_opt (m : captures) (i : nat) : option string :=
  match m with
  | [] => None
  | (j, s) :: m' => if Nat.eqb i j then Some s else group_opt m' i
  end.

(** [m.group(i)] for a group every match of the pattern goes through. *)
Definition group (m : captures) (i : nat) : string :=
  match group_opt m i with
  | Some s => s
  | None => EmptyString
  end.

(** Pattern syntax. *)
Definition plus (c : cls) : regex := Rep c 1 None true.
Definition star (c : cls) : regex := Rep c 0 None true.
Definition plus_lazy (c : cls) : regex := Rep c 1 None false.
Definition times (c : cls) (lo hi : nat) : regex := Rep c lo (Some hi) true.

Fixpoint seq (rs : list regex) : regex :=
  match rs with
  | [] => Eps
  | [r] => r
  | r :: rs' => Seq r (seq rs')
  end.

Fixpoint alt (rs : list regex) : regex :=
  match rs with
  | [] => Eps
  | [r] => r
  | r :: rs' => Alt r (alt rs')
  end.

End Py.

(** ** The script *)

Module Dates.

Import Calendar Py.
Open Scope string_scope.
Open Scope Z_scope.

Definition WEEKDAYS : list (string * Z) :=
  [ ("monday", 0); ("tuesday", 1); ("wednesday", 2); ("thursday", 3);
    ("friday", 4); ("saturday", 5); ("sunday", 6);
    ("mon", 0); ("tue", 1); ("tues", 1); ("wed", 2); ("thu", 3); ("thur", 3);
    ("thurs", 3); ("fri", 4); ("sat", 5); ("sun", 6) ].

Definition MONTH_NAMES : list (string * Z) :=
  [ ("january", 1); ("february", 2); ("march", 3); ("april", 4);
    ("may", 5); ("june", 6); ("july", 7); ("august", 8);
    ("september", 9); ("october", 10); ("november", 11); ("december", 12);
    ("jan", 1); ("feb", 2); ("mar", 3); ("apr", 4);
    ("jun", 6); ("jul", 7); ("aug", 8); ("sep", 9); ("sept", 9);
    ("oct", 10); ("nov", 11); ("dec", 12) ].

(** [table[key]], with [None] for [key not in table]. *)
Fixpoint lookup (key : string) (table : list (string * Z)) : option Z :=
  match table with
  | [] => None
  | (k, v) :: rest => if String.eqb key k then Some v else lookup key rest
  end.

Definition dt_year (t : datetime) : Z := year (dt_date t).
Definition dt_month (t : datetime) : Z := month (dt_date t).
Definition dt_day (t : datetime) : Z := day (dt_date t).

Definition _next_weekday (wd : Z) (ref : datetime) (weeks_ahead : Z) : outcome datetime :=
  let days_ahead := wd - weekday ref in
  let days_ahead := if days_ahead <=? 0 then days_ahead + 7 else days_ahead in
  plus_days ref (days_ahead + weeks_ahead * 7).

Definition _prev_weekday (wd : Z) (ref : datetime) (weeks_back : Z) : outcome datetime :=
  let days_back := weekday ref - wd in
  let days_back := if days_back <=? 0 then days_back + 7 else days_back in
  minus_days ref (days_back + weeks_back * 7).

Definition _add_months (dt : datetime) (months : Z) : outcome datetime :=
  let month := dt_month dt - 1 + months in
  let year := dt_year dt + month / 12 in
  let month := month mod 12 + 1 in
  last <- monthrange_days year month ;;
  let day := Z.min (dt_day dt) last in
  replace_ymd dt year month day.

(** *** The patterns *)

Definition now_or_today : regex := alt [Lit "now"; Lit "today"].
Definition ordinal_suffix : regex := Opt (alt [Lit "st"; Lit "nd"; Lit "rd"; Lit "th"]).
Definition optional_year (i : nat) : regex :=
  Opt (seq [star Cspace; Opt (Lit ","); star Cspace; Group i (times Cdigit 4 4)]).

Definition time_suffixes : regex :=
  seq [ plus Cspace;
        alt [ seq [ Lit "at"; plus Cspace; times Cdigit 1 2;
                    Opt (seq [Lit ":"; times Cdigit 2 2]);
                    star Cspace; Opt (alt [Lit "am"; Lit "pm"]) ];
              seq [ Lit "in"; plus Cspace; Lit "the"; plus Cspace;
                    alt [Lit "morning"; Lit "afternoon"; Lit "evening"] ];
              Lit "morning"; Lit "afternoon"; Lit "evening"; Lit "night" ];
        Eos ].

Definition modifier_re : regex :=
  seq [ Group 1 (alt [Lit "next"; Lit "this"; Lit "last"; Lit "previous"]);
        plus Cspace; Group 2 (plus Cword) ].

Definition from_now_re : regex :=
  seq [ Group 1 (plus Cdigit); plus Cspace; Group 2 (plus_lazy Cword); Opt (Lit "s");
        plus Cspace; Lit "from"; plus Cspace; now_or_today ].

Definition business_re : regex :=
  seq [ Lit "in"; plus Cspace; Group 1 (plus Cdigit); plus Cspace;
        alt [ seq [Lit "business"; plus Cspace; Lit "day"; Opt (Lit "s")];
              seq [Lit "workday"; Opt (Lit "s")];
              seq [Lit "work"; plus Cspace; Lit "day"; Opt (Lit "s")] ] ].

Definition in_units_re : regex :=
  seq [ Lit "in"; plus Cspace; Group 1 (plus Cdigit); plus Cspace;
        Group 2 (plus_lazy Cword); Opt (Lit "s"); Eos ].

Definition ago_re : regex :=
  seq [ Group 1 (plus Cdigit); plus Cspace; Group 2 (plus_lazy Cword); Opt (Lit "s");
        plus Cspace; Lit "ago" ].

Definition a_unit_re : regex :=
  seq [ Lit "a"; Opt (Lit "n"); plus Cspace; Group 1 (plus Cword);
        plus Cspace; Lit "from"; plus Cspace; now_or_today ].

Definition month_day_re : regex :=
  seq [ Group 1 (plus Cword); plus Cspace; Group 2 (times Cdigit 1 2);
        ordinal_suffix; optional_year 3; Eos ].

Definition day_month_re : regex :=
  seq [ Group 1 (times Cdigit 1 2); ordinal_suffix; plus Cspace;
        Opt (seq [Lit "of"; plus Cspace]); Group 2 (plus Cword);
        optional_year 3; Eos ].

Definition iso_re : regex :=
  seq [ Group 1 (times Cdigit 4 4); Lit "-"; Group 2 (times Cdigit 2 2); Lit "-";
        Group 3 (times Cdigit 2 2); Eos ].

(** *** The grammars

    A grammar takes the normalized expression and the reference day and
    gives [parsed] and [desc], or [None] when [parsed] stays [None]. *)

Definition parsed : Type := option (datetime * string).
Definition grammar : Type := string -> datetime -> outcome parsed.

Definition found_as (desc : string) (d : outcome datetime) : outcome parsed :=
  p <- d ;; Ret (Some (p, desc)).

Definition no_match : outcome parsed := Ret None.

(** The [if]/[elif] chain on fixed words and period boundaries. *)
Definition fixed_phrases : grammar := fun expr today =>
  if among expr ["today"; "now"] then found_as "today" (Ret today)
  else if expr == "tomorrow" then found_as "tomorrow" (plus_days today 1)
  else if expr == "yesterday" then found_as "yesterday" (minus_days today 1)
  else if expr == "day after tomorrow" then
    found_as "day after tomorrow" (plus_days today 2)
  else if expr == "day before yesterday" then
    found_as "day before yesterday" (minus_days today 2)
  else if among expr ["end of week"; "end of this week"; "this weekend"] then
    let days_to_sunday := 6 - weekday today in
    let days_to_sunday :=
      if (days_to_sunday =? 0) && negb (expr == "this weekend") then 0
      else days_to_sunday in
    found_as "end of this week (Sunday)" (plus_days today days_to_sunday)
  else if among expr ["start of next week"; "beginning of next week"; "next week"] then
    let days_to_monday := 7 - weekday today in
    found_as "start of next week (Monday)" (plus_days today days_to_monday)
  else if among expr ["end of month"; "end of this month"; "eom"] then
    found_as "end of this month"
      (last_day <- monthrange_days (dt_year today) (dt_month today) ;;
       replace_ymd today (dt_year today) (dt_month today) last_day)
  else if among expr ["start of next month"; "beginning of next month"] then
    found_as "start of next month"
      (first <- replace_ymd today (dt_year today) (dt_month today) 1 ;;
       _add_months first 1)
  else if among expr ["end of year"; "end of this year"; "eoy"] then
    found_as "end of this year" (replace_ymd today (dt_year today) 12 31)
  else if among expr ["start of next year"; "beginning of next year"] then
    found_as "start of next year" (replace_ymd today (dt_year today + 1) 1 1)
  else no_match.

(** "next/this/last <weekday>", "next/last week", "next/last month" *)
Definition modifier_grammar : grammar := fun expr today =>
  match re_match modifier_re expr with
  | Some (m, _) =>
      let modifier := group m 1 in
      let day_name := group m 2 in
      match lookup day_name WEEKDAYS with
      | Some wd =>
          if among modifier ["next"; "this"] then
            found_as ("next " ++ day_name) (_next_weekday wd today 0)
          else if among modifier ["last"; "previous"] then
            found_as ("last " ++ day_name) (_prev_weekday wd today 0)
          else no_match
      | None =>
          if day_name == "week" then
            if modifier == "next" then
              found_as "start of next week" (plus_days today (7 - weekday today))
            else if among modifier ["last"; "previous"] then
              found_as "start of last week" (minus_days today (weekday today + 7))
            else no_match
          else if day_name == "month" then
            if modifier == "next" then
              found_as "start of next month"
                (first <- replace_ymd today (dt_year today) (dt_month today) 1 ;;
                 _add_months first 1)
            else if among modifier ["last"; "previous"] then
              found_as "start of last month"
                (first <- replace_ymd today (dt_year today) (dt_month today) 1 ;;
                 _add_months first (-1))
            else no_match
          else no_match
      end
  | None => no_match
  end.

(** "N <weekday>s from now", "N days/weeks/months/years from now" *)
Definition from_now_grammar : grammar := fun expr today =>
  match re_match from_now_re expr with
  | Some (m, _) =>
      count <- int (group m 1) ;;
      let unit := group m 2 in
      match lookup unit WEEKDAYS with
      | Some wd =>
          found_as (str count ++ " " ++ unit ++ "(s) from now")
            (_next_weekday wd today (count - 1))
      | None =>
          if unit == "day" then
            found_as (str count ++ " day(s) from now") (plus_days today count)
          else if unit == "week" then
            found_as (str count ++ " week(s) from now") (plus_weeks today count)
          else if unit == "month" then
            found_as (str count ++ " month(s) from now") (_add_months today count)
          else if unit == "year" then
            found_as (str count ++ " year(s) from now")
              (replace_ymd today (dt_year today + count) (dt_month today) (dt_day today))
          else no_match
      end
  | None => no_match
  end.

(** The loop of "in N business days": [fuel] bounds its iterations. *)
Fixpoint business_loop (fuel : nat) (count : Z) (d : datetime) (added : Z)
    : outcome datetime :=
  if added <? count then
    match fuel with
    | O => OutOfFuel
    | S fuel' =>
        d' <- plus_days d 1 ;;
        business_loop fuel' count d' (if weekday d' <? 5 then added + 1 else added)
    end
  else Ret d.

(** Three iterations at most count one more business day. *)
Definition business_fuel (count : Z) : nat := Z.to_nat (3 * count).

(** "in N business days / workdays" *)
Definition business_grammar : grammar := fun expr today =>
  match re_match business_re expr with
  | Some (m, _) =>
      count <- int (group m 1) ;;
      found_as ("in " ++ str count ++ " business day(s)")
        (business_loop (business_fuel count) count today 0)
  | None => no_match
  end.

(** "in N days/weeks/months/years" *)
Definition in_units_grammar : grammar := fun expr today =>
  match re_match in_units_re expr with
  | Some (m, _) =>
      count <- int (group m 1) ;;
      let unit := group m 2 in
      if unit == "day" then
        found_as ("in " ++ str count ++ " day(s)") (plus_days today count)
      else if unit == "week" then
        found_as ("in " ++ str count ++ " week(s)") (plus_weeks today count)
      else if unit == "month" then
        found_as ("in " ++ str count ++ " month(s)") (_add_months today count)
      else if unit == "year" then
        found_as ("in " ++ str count ++ " year(s)")
          (replace_ymd today (dt_year today + count) (dt_month today) (dt_day today))
      else no_match
  | None => no_match
  end.

(** "N days/weeks/months/years ago" *)
Definition ago_grammar : grammar := fun expr today =>
  match re_match ago_re expr with
  | Some (m, _) =>
      count <- int (group m 1) ;;
      let unit := group m 2 in
      if unit == "day" then
        found_as (str count ++ " day(s) ago") (minus_days today count)
      else if unit == "week" then
        found_as (str count ++ " week(s) ago") (minus_weeks today count)
      else if unit == "month" then
        found_as (str count ++ " month(s) ago") (_add_months today (- count))
      else if unit == "year" then
        found_as (str count ++ " year(s) ago")
          (replace_ymd today (dt_year today - count) (dt_month today) (dt_day today))
      else no_match
  | None => no_match
  end.

(** "a week from now", "a month from now", "a year from now" *)
Definition a_unit_grammar : grammar := fun expr today =>
  match re_match a_unit_re expr with
  | Some (m, _) =>
      let unit := group m 1 in
      if unit == "week" then found_as "a week from now" (plus_weeks today 1)
      else if unit == "month" then found_as "a month from now" (_add_months today 1)
      else if unit == "year" then
        found_as "a year from now"
          (replace_ymd today (dt_year today + 1) (dt_month today) (dt_day today))
      else no_match
  | None => no_match
  end.

(** The loop of "next weekday": step while the day is a Saturday or a
    Sunday. *)
Fixpoint weekend_loop (fuel : nat) (d : datetime) : outcome datetime :=
  if 5 <=? weekday d then
    match fuel with
    | O => OutOfFuel
    | S fuel' => d' <- plus_days d 1 ;; weekend_loop fuel' d'
    end
  else Ret d.

(** "next weekday" / "next business day" / "next workday" *)
Definition next_business_day_grammar : grammar := fun expr today =>
  if among expr ["next weekday"; "next business day"; "next workday"] then
    found_as "next business day"
      (d <- plus_days today 1 ;; weekend_loop 2 d)
  else no_match.

(** A bare weekday name. *)
Definition bare_weekday_grammar : grammar := fun expr today =>
  match lookup expr WEEKDAYS with
  | Some wd => found_as ("next " ++ expr) (_next_weekday wd today 0)
  | None => no_match
  end.

(** The body shared by "<month> <day>" and "<day> <month>": the year
    given, or this year, or the next one when the day is past. *)
Definition month_day_action (name : string) (month day : Z) (year_text : option string)
    (today : datetime) : outcome parsed :=
  year <- match year_text with
          | Some y => int y
          | None => Ret (dt_year today)
          end ;;
  except_ValueError_pass
    (candidate <- new_datetime year month day ;;
     candidate <-
       (match year_text with
        | None =>
            if date_ltb (dt_date candidate) (dt_date today)
            then new_datetime (year + 1) month day
            else Ret candidate
        | Some _ => Ret candidate
        end) ;;
     Ret (Some (candidate,
                title name ++ " " ++ str day ++ ", " ++ str (dt_year candidate)))).

(** "<month> <day>[, <year>]" *)
Definition month_day_grammar : grammar := fun expr today =>
  match re_match month_day_re expr with
  | Some (m, _) =>
      match lookup (group m 1) MONTH_NAMES with
      | Some month =>
          day <- int (group m 2) ;;
          month_day_action (group m 1) month day (group_opt m 3) today
      | None => no_match
      end
  | None => no_match
  end.

(** "<day> [of] <month>[, <year>]" *)
Definition day_month_grammar : grammar := fun expr today =>
  match re_match day_month_re expr with
  | Some (m, _) =>
      match lookup (group m 2) MONTH_NAMES with
      | Some month =>
          day <- int (group m 1) ;;
          month_day_action (group m 2) month day (group_opt m 3) today
      | None => no_match
      end
  | None => no_match
  end.

(** "YYYY-MM-DD" *)
Definition iso_grammar : grammar := fun expr today =>
  match re_match iso_re expr with
  | Some (m, _) =>
      except_ValueError_pass
        (y <- int (group m 1) ;;
         mo <- int (group m 2) ;;
         d <- int (group m 3) ;;
         found_as "ISO date" (new_datetime y mo d))
  | None => no_match
  end.

(** The blocks of [resolve] in source order; each runs while [parsed]
    is still [None]. *)
Definition grammars : list grammar :=
  [ fixed_phrases; modifier_grammar; from_now_grammar; business_grammar;
    in_units_grammar; ago_grammar; a_unit_grammar; next_business_day_grammar;
    bare_weekday_grammar; month_day_grammar; day_month_grammar; iso_grammar ].

Fixpoint first_match (gs : list grammar) (expr : string) (today : datetime)
    : outcome parsed :=
  match gs with
  | [] => Ret None
  | g :: gs' =>
      r <- g expr today ;;
      match r with
      | Some found => Ret (Some found)
      | None => first_match gs' expr today
      end
  end.

(** *** The result *)

Record resolution : Type := mkResolution {
  r_date : string;
  r_day_of_week : string;
  r_expression : string;
  r_description : string;
  r_days_from_today : Z;
  r_warning : option string
}.

(** The dict [resolve] returns: a resolution or [{"error": ...}]. *)
Inductive response : Type :=
| Resolved (r : resolution)
| Error (message : string).

(** [d.isoformat()] *)
Definition isoformat (d : date) : string :=
  zero_padded 4 (year d) ++ "-" ++ zero_padded 2 (month d) ++ "-" ++ zero_padded 2 (day d).

(** [d.strftime("%A")] *)
Definition day_name (d : date) : string :=
  nth (Z.to_nat (date_weekday d))
    ["Monday"; "Tuesday"; "Wednesday"; "Thursday"; "Friday"; "Saturday"; "Sunday"] "".

Definition time_keywords : list string :=
  ["at "; " am"; " pm"; "noon"; "midnight"; "o'clock"].

Definition time_warning : string :=
  "Time component detected but ignored (date-only resolver)".

(** The normalized expression and whether a time suffix was cut. *)
Definition normalize (expression : string) : string * bool :=
  let expr := strip (lower expression) in
  match re_search time_suffixes expr with
  | Some _ => (strip (re_sub_empty time_suffixes expr), true)
  | None => (expr, false)
  end.

(** The last part of [resolve], "Build result": the dict for a parsed
    day. *)
Definition build_result (expression : string) (has_time_suffix : bool)
    (today p : datetime) (desc : string) : resolution :=
  let result_date := dt_date p in
  {| r_date := isoformat result_date;
     r_day_of_week := day_name result_date;
     r_expression := expression;
     r_description := desc;
     r_days_from_today := days_between result_date (dt_date today);
     r_warning :=
       if has_time_suffix then Some time_warning
       else if existsb (fun kw => contains kw (lower expression)) time_keywords
            then Some time_warning
            else None |}.

(** [resolve(expression, ref)], for a [ref] that is given ([None] stands
    for the clock's [datetime.now()]). *)
Definition resolve (expression : string) (ref : datetime) : outcome response :=
  let today := replace_midnight ref in
  let '(expr, has_time_suffix) := normalize expression in
  found <- first_match grammars expr today ;;
  match found with
  | None => Ret (Error ("Could not parse: '" ++ expression ++ "'"))
  | Some (p, desc) =>
      Ret (Resolved (build_result expression has_time_suffix today p desc))
  end.

(** ** [get_weekday] and [relative_description]

    Both read their argument with [datetime.fromisoformat]; the second
    reads the clock.  The parser and the clock's [datetime.now()] are
    the parameters of this section. *)

Section Described.

Variable fromisoformat : string -> outcome datetime.
Variable now : datetime.

Definition invalid_date_format (date_str : string) : string :=
  "Invalid date format: '" ++ date_str ++ "', expected YYYY-MM-DD".

Record weekday_info : Type := mkWeekdayInfo {
  w_date : string;
  w_day_of_week : string;
  w_day_number : Z;
  w_is_weekend : bool;
  w_is_weekday : bool
}.

Inductive weekday_response : Type :=
| Weekday (info : weekday_info)
| WeekdayError (message : string).

(** [get_weekday(date_str)] *)
Definition get_weekday (date_str : string) : outcome weekday_response :=
  match fromisoformat date_str with
  | Ret dt =>
      Ret (Weekday {| w_date := isoformat (dt_date dt);
                      w_day_of_week := day_name (dt_date dt);
                      w_day_number := weekday dt;
                      w_is_weekend := 5 <=? weekday dt;
                      w_is_weekday := weekday dt <? 5 |})
  | Raise ValueError => Ret (WeekdayError (invalid_date_format date_str))
  | Raise e => Raise e
  | OutOfFuel => OutOfFuel
  end.

(** [f"{n} week{'s' if n != 1 else ''}"], and the same for days. *)
Definition counted_unit (n : Z) (unit : string) : string :=
  str n ++ " " ++ unit ++ (if n =? 1 then "" else "s").

(** [parts] for a positive number of days: the weeks, then the days,
    each only when it is not zero. *)
Definition week_day_parts (n : Z) : list string :=
  let weeks := n / 7 in
  let days := n mod 7 in
  (if weeks =? 0 then [] else [counted_unit weeks "week"]) ++
  (if days =? 0 then [] else [counted_unit days "day"]).

Definition human_readable (delta : Z) : string :=
  if delta =? 0 then "today"
  else if delta =? 1 then "tomorrow"
  else if delta =? -1 then "yesterday"
  else if 0 <? delta then "in " ++ join " and " (week_day_parts delta)
  else join " and " (week_day_parts (Z.abs delta)) ++ " ago".

(** The loop "Count business days": [d] walks up to [end_of_span]. *)
Fixpoint count_business_days (fuel : nat) (d end_of_span : date) (bdays : Z) : outcome Z :=
  if date_ltb d end_of_span then
    match fuel with
    | O => OutOfFuel
    | S fuel' =>
        let bdays := if date_weekday d <? 5 then bdays + 1 else bdays in
        d' <- date_plus_days d 1 ;;
        count_business_days fuel' d' end_of_span bdays
    end
  else Ret bdays.

Record description : Type := mkDescription {
  d_date : string;
  d_day_of_week : string;
  d_days_from_today : Z;
  d_business_days : Z;
  d_human_readable : string
}.

Inductive description_response : Type :=
| Described (d : description)
| DescriptionError (message : string).

(** [relative_description(date_str)]; the loop runs at most once per
    day between the two dates. *)
Definition relative_description (date_str : string) : outcome description_response :=
  match fromisoformat date_str with
  | Ret parsed =>
      let dt := dt_date parsed in
      let today := dt_date now in
      let delta := days_between dt today in
      bdays <- count_business_days (Z.to_nat (Z.abs delta))
                 (date_min today dt) (date_max today dt) 0 ;;
      Ret (Described {| d_date := isoformat dt;
                        d_day_of_week := day_name dt;
                        d_days_from_today := delta;
                        d_business_days := if 0 <=? delta then bdays else - bdays;
                        d_human_readable := human_readable delta |})
  | Raise ValueError => Ret (DescriptionError (invalid_date_format date_str))
  | Raise e => Raise e
  | OutOfFuel => OutOfFuel
  end.

End Described.

End Dates.

(** * Properties of the script *)

Import Calendar Py Dates.
Open Scope string_scope.
Open Scope Z_scope.

Ltac zbool :=
  repeat match goal with
  | |- context [?a =? ?b] => destruct (Z.eqb_spec a b)
  | |- context [?a <? ?b] => destruct (Z.ltb_spec a b)
  | |- context [?a <=? ?b] => destruct (Z.leb_spec a b)
  end.

Lemma dby_step y : days_before_year (y + 1) = days_before_year y + 365 + b2z (is_leap y).
Proof.
  unfold days_before_year, is_leap, b2z.
  replace (y + 1 - 1) with y by lia.
  zbool; simpl; Z.div_mod_to_equations; lia.
Qed.

Lemma dby_mono a b : a <= b -> days_before_year a <= days_before_year b.
Proof.
  intros H. replace b with (a + (b - a)) by lia.
  assert (Hk : 0 <= b - a) by lia. revert Hk. generalize (b - a) as k. clear.
  apply (natlike_ind (fun k => days_before_year a <= days_before_year (a + k))).
  - rewrite Z.add_0_r. lia.
  - intros k Hk IH. replace (a + Z.succ k) with (a + k + 1) by lia.
    rewrite dby_step. unfold b2z. destruct (is_leap (a + k)); lia.
Qed.

Lemma dby_decomp a b c e :
  0 <= b <= 3 -> 0 <= c <= 24 -> 0 <= e <= 3 ->
  days_before_year (400 * a + 100 * b + 4 * c + e + 1) =
  146097 * a + 36524 * b + 1461 * c + 365 * e.
Proof.
  intros Hb Hc He. unfold days_before_year.
  replace (400 * a + 100 * b + 4 * c + e + 1 - 1) with (400 * a + 100 * b + 4 * c + e) by lia.
  rewrite <- (Z.div_unique (400 * a + 100 * b + 4 * c + e) 4 (100 * a + 25 * b + c) e) by lia.
  rewrite <- (Z.div_unique (400 * a + 100 * b + 4 * c + e) 100 (4 * a + b) (4 * c + e)) by lia.
  rewrite <- (Z.div_unique (400 * a + 100 * b + 4 * c + e) 400 a (100 * b + 4 * c + e)) by lia.
  lia.
Qed.

Lemma is_leap_decomp a b c e :
  0 <= b <= 3 -> 0 <= c <= 24 -> 0 <= e <= 3 ->
  is_leap (400 * a + 100 * b + 4 * c + e + 1) =
  (e =? 3) && (negb (c =? 24) || (b =? 3)).
Proof.
  intros Hb Hc He. unfold is_leap.
  rewrite <- (Z.mod_unique (400 * a + 100 * b + 4 * c + e + 1) 4
               (100 * a + 25 * b + c + (e + 1) / 4) ((e + 1) mod 4))
    by first [left; apply Z.mod_pos_bound; lia | Z.div_mod_to_equations; lia].
  rewrite <- (Z.mod_unique (400 * a + 100 * b + 4 * c + e + 1) 100
               (4 * a + b + (4 * c + e + 1) / 100) ((4 * c + e + 1) mod 100))
    by first [left; apply Z.mod_pos_bound; lia | Z.div_mod_to_equations; lia].
  rewrite <- (Z.mod_unique (400 * a + 100 * b + 4 * c + e + 1) 400
               (a + (100 * b + 4 * c + e + 1) / 400) ((100 * b + 4 * c + e + 1) mod 400))
    by first [left; apply Z.mod_pos_bound; lia | Z.div_mod_to_equations; lia].
  zbool; simpl; try reflexivity; exfalso; Z.div_mod_to_equations; lia.
Qed.

Fixpoint forall_from (f : Z -> bool) (start : Z) (count : nat) : bool :=
  match count with
  | O => true
  | S c => if f start then forall_from f (start + 1) c else false
  end.

Lemma forall_from_spec f count : forall start,
  forall_from f start count = true ->
  forall k, start <= k < start + Z.of_nat count -> f k = true.
Proof.
  induction count as [|c IH]; intros start H k Hk.
  - simpl in Hk. lia.
  - simpl in H. destruct (f start) eqn:E; [|discriminate].
    destruct (Z.eq_dec k start) as [->|Hne]; [exact E|].
    apply (IH (start + 1) H). lia.
Qed.

(** The month and day that [_ord2ymd] reads off a day index in the year. *)
Definition yday_md (leapyear : bool) (n : Z) : Z * Z :=
  let m := Z.shiftr (n + 50) 5 in
  let preceding := DAYS_BEFORE_MONTH m + b2z ((2 <? m) && leapyear) in
  if n <? preceding then
    let m := m - 1 in
    let preceding := preceding - (DAYS_IN_MONTH m + b2z ((m =? 2) && leapyear)) in
    (m, n - preceding + 1)
  else (m, n - preceding + 1).

Definition yday_ok (leapyear : bool) (n : Z) : bool :=
  let '(m, d) := yday_md leapyear n in
  (1 <=? m) && (m <=? 12) && (1 <=? d) &&
  (d <=? DAYS_IN_MONTH m + b2z ((m =? 2) && leapyear)) &&
  (DAYS_BEFORE_MONTH m + b2z ((2 <? m) && leapyear) + d =? n + 1).

Lemma yday_md_ok leapyear n :
  0 <= n < 365 + b2z leapyear -> yday_ok leapyear n = true.
Proof.
  intros H.
  assert (C : forall_from (yday_ok true) 0 366 = true /\
              forall_from (yday_ok false) 0 365 = true)
    by (split; vm_compute; reflexivity).
  destruct C as [Ct Cf].
  destruct leapyear; simpl in H.
  - apply (forall_from_spec _ _ _ Ct). lia.
  - apply (forall_from_spec _ _ _ Cf). lia.
Qed.

Lemma ord2ymd_common n :
  let n0 := n - 1 in
  let a := n0 / 146097 in
  let r := n0 mod 146097 in
  let b := r / 36524 in
  let r2 := r mod 36524 in
  let c := r2 / 1461 in
  let r3 := r2 mod 1461 in
  let e := r3 / 365 in
  let r4 := r3 mod 365 in
  let y := a * 400 + 1 + b * 100 + c * 4 + e in
  ord2ymd n =
  if (e =? 4) || (b =? 4) then mkDate (y - 1) 12 31
  else let leapyear := (e =? 3) && (negb (c =? 24) || (b =? 3)) in
       mkDate y (fst (yday_md leapyear r4)) (snd (yday_md leapyear r4)).
Proof.
  cbv zeta. unfold ord2ymd, yday_md. cbv zeta.
  destruct (_ || _); [reflexivity|].
  destruct (_ <? _); reflexivity.
Qed.

Lemma days_in_month_alt y m :
  days_in_month y m = DAYS_IN_MONTH m + b2z ((m =? 2) && is_leap y).
Proof.
  unfold days_in_month. destruct (Z.eqb_spec m 2) as [->|]; simpl; [|lia].
  destruct (is_leap y); reflexivity.
Qed.

Theorem ord2ymd_correct n :
  1 <= n <= MAXORDINAL ->
  valid_date (ord2ymd n) = true /\ toordinal (ord2ymd n) = n.
Proof.
  unfold MAXORDINAL. intros Hn.
  rewrite ord2ymd_common.
  remember (n - 1) as n0 eqn:En0.
  pose proof (Z.div_mod n0 146097 ltac:(lia)) as E1.
  pose proof (Z.mod_pos_bound n0 146097 ltac:(lia)) as B1.
  set (a := n0 / 146097) in *. set (r := n0 mod 146097) in *.
  pose proof (Z.div_mod r 36524 ltac:(lia)) as E2.
  pose proof (Z.mod_pos_bound r 36524 ltac:(lia)) as B2.
  set (b := r / 36524) in *. set (r2 := r mod 36524) in *.
  pose proof (Z.div_mod r2 1461 ltac:(lia)) as E3.
  pose proof (Z.mod_pos_bound r2 1461 ltac:(lia)) as B3.
  set (c := r2 / 1461) in *. set (r3 := r2 mod 1461) in *.
  pose proof (Z.div_mod r3 365 ltac:(lia)) as E4.
  pose proof (Z.mod_pos_bound r3 365 ltac:(lia)) as B4.
  set (e := r3 / 365) in *. set (r4 := r3 mod 365) in *.
  cbv zeta.
  assert (Ha : 0 <= a <= 24) by lia.
  assert (Hb : 0 <= b <= 4) by lia.
  assert (Hc : 0 <= c <= 24) by lia.
  assert (He : 0 <= e <= 4) by lia.
  clearbody a r b r2 c r3 e r4.
  destruct (Z.eqb_spec e 4) as [He4|He4]; [|destruct (Z.eqb_spec b 4) as [Hb4|Hb4]]; simpl orb; cbv iota.
  - (* last day of a leap year inside a century *)
    assert (Hb3 : b <= 3) by lia.
    assert (Hc3 : c <= 23) by lia.
    replace (a * 400 + 1 + b * 100 + c * 4 + e - 1) with (400 * a + 100 * b + 4 * c + 3 + 1) by lia.
    unfold valid_date, toordinal, ymd2ord, days_before_month. cbn [year month day].
    rewrite days_in_month_alt, (is_leap_decomp a b c 3), (dby_decomp a b c 3) by lia.
    unfold MINYEAR, MAXYEAR.
    replace (c =? 24) with false by (symmetry; apply Z.eqb_neq; lia).
    remember (400 * a + 100 * b + 4 * c + 3 + 1) as Y eqn:EY.
    remember (146097 * a + 36524 * b + 1461 * c + 365 * 3) as D eqn:ED.
    simpl. split; [|lia].
    zbool; simpl; try reflexivity; lia.
  - (* last day of a 400-year cycle *)
    assert (c = 0 /\ e = 0 /\ r4 = 0) as (-> & -> & ->) by lia.
    replace (a * 400 + 1 + b * 100 + 0 * 4 + 0 - 1) with (400 * a + 100 * 3 + 4 * 24 + 3 + 1) by lia.
    unfold valid_date, toordinal, ymd2ord, days_before_month. cbn [year month day].
    rewrite days_in_month_alt, (is_leap_decomp a 3 24 3), (dby_decomp a 3 24 3) by lia.
    unfold MINYEAR, MAXYEAR.
    remember (400 * a + 100 * 3 + 4 * 24 + 3 + 1) as Y eqn:EY.
    remember (146097 * a + 36524 * 3 + 1461 * 24 + 365 * 3) as D eqn:ED.
    simpl. split; [|lia].
    zbool; simpl; try reflexivity; lia.
  - assert (Hb3 : b <= 3) by lia. assert (He3 : e <= 3) by lia.
    replace (a * 400 + 1 + b * 100 + c * 4 + e) with (400 * a + 100 * b + 4 * c + e + 1) by lia.
    set (leapyear := (e =? 3) && (negb (c =? 24) || (b =? 3))).
    pose proof (yday_md_ok leapyear r4) as Hy.
    unfold yday_ok in Hy. destruct (yday_md leapyear r4) as [m d]. simpl fst; simpl snd.
    assert (Hr : 0 <= r4 < 365 + b2z leapyear) by (unfold b2z; destruct leapyear; lia).
    specialize (Hy Hr).
    unfold valid_date, toordinal, ymd2ord, days_before_month. cbn [year month day].
    rewrite days_in_month_alt, (is_leap_decomp a b c e), (dby_decomp a b c e) by lia.
    fold leapyear.
    repeat (apply andb_prop in Hy; destruct Hy as [Hy ?]).
    unfold MINYEAR, MAXYEAR.
    repeat match goal with H : (_ <=? _) = true |- _ => apply Z.leb_le in H
                         | H : (_ =? _) = true |- _ => apply Z.eqb_eq in H end.
    split; [|lia].
    repeat (apply andb_true_intro; split); apply Z.leb_le; try lia.
Qed.

Lemma valid_date_unfold d :
  valid_date d = true <->
  1 <= year d <= 9999 /\ 1 <= month d <= 12 /\
  1 <= day d <= days_in_month (year d) (month d).
Proof.
  unfold valid_date, MINYEAR, MAXYEAR. rewrite !andb_true_iff, !Z.leb_le. lia.
Qed.

Definition month_ok (leap : bool) (m : Z) : bool :=
  (0 <=? DAYS_BEFORE_MONTH m + b2z ((2 <? m) && leap)) &&
  (DAYS_BEFORE_MONTH m + b2z ((2 <? m) && leap) + (DAYS_IN_MONTH m + b2z ((m =? 2) && leap))
     =? (if m =? 12 then 365 + b2z leap
         else DAYS_BEFORE_MONTH (m + 1) + b2z ((2 <? m + 1) && leap))).

Lemma month_ok_all leap m : 1 <= m <= 12 -> month_ok leap m = true.
Proof.
  intros H.
  assert (m = 1 \/ m = 2 \/ m = 3 \/ m = 4 \/ m = 5 \/ m = 6 \/ m = 7 \/ m = 8 \/
          m = 9 \/ m = 10 \/ m = 11 \/ m = 12) as C by lia.
  destruct leap; repeat (destruct C as [->|C]; [reflexivity|]); subst; reflexivity.
Qed.

(** Within a year the days before a month grow with the month. *)
Lemma dbm_next y m :
  1 <= m <= 12 ->
  0 <= days_before_month y m /\
  days_before_month y m + days_in_month y m =
  if m =? 12 then 365 + b2z (is_leap y) else days_before_month y (m + 1).
Proof.
  intros H. pose proof (month_ok_all (is_leap y) m H) as K.
  unfold month_ok in K. apply andb_prop in K. destruct K as [K1 K2].
  apply Z.leb_le in K1. apply Z.eqb_eq in K2.
  unfold days_before_month. rewrite days_in_month_alt. split; [exact K1|].
  rewrite K2. destruct (m =? 12); reflexivity.
Qed.

Lemma dbm_mono y m1 m2 :
  1 <= m1 -> m1 < m2 <= 12 ->
  days_before_month y m1 + days_in_month y m1 <= days_before_month y m2.
Proof.
  intros H1 H2. replace m2 with (m1 + 1 + (m2 - m1 - 1)) by lia.
  assert (Hk : 0 <= m2 - m1 - 1) by lia.
  assert (Hb : m1 + 1 + (m2 - m1 - 1) <= 12) by lia.
  revert Hk Hb. generalize (m2 - m1 - 1) as k.
  apply (natlike_ind (fun k => m1 + 1 + k <= 12 ->
           days_before_month y m1 + days_in_month y m1 <= days_before_month y (m1 + 1 + k))).
  - intros Hb. rewrite Z.add_0_r.
    destruct (dbm_next y m1 ltac:(lia)) as [_ E]. rewrite E.
    destruct (Z.eqb_spec m1 12); lia.
  - intros k Hk IH Hb. specialize (IH ltac:(lia)).
    destruct (dbm_next y (m1 + 1 + k) ltac:(lia)) as [_ E].
    destruct (Z.eqb_spec (m1 + 1 + k) 12); [lia|].
    replace (m1 + 1 + Z.succ k) with (m1 + 1 + k + 1) by lia.
    rewrite <- E.
    assert (0 <= days_in_month y (m1 + 1 + k)).
    { rewrite days_in_month_alt.
      assert (1 <= m1 + 1 + k <= 12) as C by lia. revert C. generalize (m1 + 1 + k). intros m C.
      assert (m = 1 \/ m = 2 \/ m = 3 \/ m = 4 \/ m = 5 \/ m = 6 \/ m = 7 \/ m = 8 \/
          m = 9 \/ m = 10 \/ m = 11 \/ m = 12) as C' by lia.
      repeat (destruct C' as [->|C']; [destruct (is_leap y); simpl; lia|]).
      subst; destruct (is_leap y); simpl; lia. }
    lia.
Qed.

Lemma yday_bound y m d :
  1 <= m <= 12 -> 1 <= d <= days_in_month y m ->
  1 <= days_before_month y m + d <= 365 + b2z (is_leap y).
Proof.
  intros Hm Hd. destruct (dbm_next y m Hm) as [H0 E].
  destruct (Z.eq_dec m 12) as [->|Hne].
  - change (12 =? 12) with true in E. cbv iota in E. lia.
  - pose proof (dbm_mono y m 12 ltac:(lia) ltac:(lia)).
    destruct (dbm_next y 12 ltac:(lia)) as [_ E12].
    change (12 =? 12) with true in E12. cbv iota in E12.
    assert (0 <= days_in_month y 12) by (unfold days_in_month; simpl; lia).
    lia.
Qed.

Theorem toordinal_range d :
  valid_date d = true -> 1 <= toordinal d <= MAXORDINAL.
Proof.
  rewrite valid_date_unfold. intros (Hy & Hm & Hd).
  pose proof (yday_bound _ _ _ Hm Hd) as B.
  unfold toordinal, ymd2ord.
  pose proof (dby_mono 1 (year d) ltac:(lia)) as L.
  pose proof (dby_mono (year d + 1) 10000 ltac:(lia)) as U.
  rewrite dby_step in U.
  change (days_before_year 1) with 0 in L.
  change (days_before_year 10000) with 3652059 in U.
  unfold MAXORDINAL. lia.
Qed.

Theorem toordinal_inj d1 d2 :
  valid_date d1 = true -> valid_date d2 = true ->
  toordinal d1 = toordinal d2 -> d1 = d2.
Proof.
  rewrite !valid_date_unfold. intros (Hy1 & Hm1 & Hd1) (Hy2 & Hm2 & Hd2) E.
  unfold toordinal, ymd2ord in E.
  destruct d1 as [y1 m1 a1], d2 as [y2 m2 a2]. cbn [year month day] in *.
  pose proof (yday_bound _ _ _ Hm1 Hd1) as B1.
  pose proof (yday_bound _ _ _ Hm2 Hd2) as B2.
  assert (y1 = y2) as ->.
  { destruct (Z.lt_trichotomy y1 y2) as [L|[L|L]]; [|exact L|]; exfalso.
    - pose proof (dby_mono (y1 + 1) y2 ltac:(lia)) as M. rewrite dby_step in M. lia.
    - pose proof (dby_mono (y2 + 1) y1 ltac:(lia)) as M. rewrite dby_step in M. lia. }
  assert (m1 = m2) as ->.
  { destruct (Z.lt_trichotomy m1 m2) as [L|[L|L]]; [|exact L|]; exfalso.
    - pose proof (dbm_mono y2 m1 m2 ltac:(lia) ltac:(lia)). lia.
    - pose proof (dbm_mono y2 m2 m1 ltac:(lia) ltac:(lia)). lia. }
  f_equal. lia.
Qed.

Theorem fromordinal_toordinal d :
  valid_date d = true -> fromordinal (toordinal d) = d.
Proof.
  intros V. pose proof (toordinal_range d V) as R.
  destruct (ord2ymd_correct _ R) as [V' E].
  apply toordinal_inj; assumption.
Qed.

(** *** Days added to a [datetime] *)

Lemma weekday_range t : 0 <= weekday t < 7.
Proof. unfold weekday, date_weekday. apply Z.mod_pos_bound. lia. Qed.

Lemma add_delta_ret t k :
  1 <= toordinal (dt_date t) + k <= MAXORDINAL ->
  add_delta t k =
  Ret (mkDatetime (fromordinal (toordinal (dt_date t) + k))
         (hour t) (minute t) (second t) (microsecond t)).
Proof.
  intros H. unfold add_delta.
  destruct (Z.ltb_spec 0 (toordinal (dt_date t) + k)); [|lia].
  destruct (Z.leb_spec (toordinal (dt_date t) + k) MAXORDINAL); [|lia].
  reflexivity.
Qed.

Lemma add_delta_raise t k :
  ~ (1 <= toordinal (dt_date t) + k <= MAXORDINAL) ->
  add_delta t k = Raise OverflowError.
Proof.
  intros H. unfold add_delta.
  destruct (Z.ltb_spec 0 (toordinal (dt_date t) + k));
  destruct (Z.leb_spec (toordinal (dt_date t) + k) MAXORDINAL); try reflexivity; lia.
Qed.

Lemma add_delta_inv t k t' :
  add_delta t k = Ret t' ->
  1 <= toordinal (dt_date t) + k <= MAXORDINAL /\
  valid_date (dt_date t') = true /\
  toordinal (dt_date t') = toordinal (dt_date t) + k /\
  dt_date t' = fromordinal (toordinal (dt_date t) + k) /\
  hour t' = hour t /\ minute t' = minute t /\ second t' = second t /\
  microsecond t' = microsecond t.
Proof.
  intros H.
  destruct (Z.le_gt_cases 1 (toordinal (dt_date t) + k)) as [L|L];
  [destruct (Z.le_gt_cases (toordinal (dt_date t) + k) MAXORDINAL) as [U|U]|].
  - rewrite add_delta_ret in H by lia. injection H as <-. cbn.
    destruct (ord2ymd_correct (toordinal (dt_date t) + k) ltac:(lia)) as [V E].
    unfold fromordinal. repeat split; try assumption; lia.
  - rewrite add_delta_raise in H by lia. discriminate.
  - rewrite add_delta_raise in H by lia. discriminate.
Qed.

Lemma timedelta_days_small n :
  -999999999 <= n <= 999999999 -> timedelta_days n = Ret n.
Proof.
  intros H. unfold timedelta_days.
  destruct (Z.leb_spec (-999999999) n); destruct (Z.leb_spec n 999999999); try lia.
  reflexivity.
Qed.

Lemma plus_days_small t k :
  -999999999 <= k <= 999999999 -> plus_days t k = add_delta t k.
Proof. intros H. unfold plus_days. rewrite timedelta_days_small by exact H. reflexivity. Qed.

Lemma weekday_of_ordinal n :
  1 <= n <= MAXORDINAL -> date_weekday (fromordinal n) = (n + 6) mod 7.
Proof.
  intros H. unfold date_weekday, fromordinal.
  destruct (ord2ymd_correct n H) as [_ ->]. reflexivity.
Qed.

(** *** Evaluating the chain on a given text *)

Ltac closed_eval t := let v := eval vm_compute in t in progress (change t with v).

Ltac eval_text :=
  repeat match goal with
  | |- context [normalize ?e] => closed_eval (normalize e)
  | |- context [re_match ?r ?s] => closed_eval (re_match r s)
  | |- context [among ?x ?l] => closed_eval (among x l)
  | |- context [lookup ?k ?t] => closed_eval (lookup k t)
  | |- context [String.eqb ?a ?b] => closed_eval (String.eqb a b)
  | |- context [int ?s] => closed_eval (int s)
  | |- context [group ?m ?i] => closed_eval (group m i)
  | |- context [group_opt ?m ?i] => closed_eval (group_opt m i)
  | |- context [append ?a ?b] => closed_eval (append a b)
  | |- context [str ?n] => closed_eval (str n)
  end.

Ltac run_grammar g :=
  unfold g; repeat (progress (eval_text; cbv beta iota zeta));
  unfold no_match, found_as; cbn [bind].

Ltac start_resolve :=
  unfold resolve; eval_text; cbv beta iota zeta; unfold grammars; cbn [first_match].

(** *** Weekday offsets *)

Lemma weekday_table name wd : lookup name WEEKDAYS = Some wd -> In (name, wd) WEEKDAYS.
Proof.
  unfold WEEKDAYS. cbn [lookup].
  repeat match goal with
  | |- context [String.eqb name ?k] =>
      destruct (String.eqb_spec name k) as [->|_]; [intros [= <-]; cbn; tauto|]
  end.
  discriminate.
Qed.

Lemma weekday_table_range name wd : In (name, wd) WEEKDAYS -> 0 <= wd < 7.
Proof.
  cbn. intros H.
  repeat (destruct H as [[= <- <-]|H]; [lia|]). contradiction.
Qed.

Lemma next_offset wd w :
  0 <= wd < 7 -> 0 <= w < 7 ->
  (if wd - w <=? 0 then wd - w + 7 else wd - w) = (wd - w - 1) mod 7 + 1.
Proof.
  intros Hwd Hw. destruct (Z.leb_spec (wd - w) 0).
  - rewrite <- (Z.mod_unique (wd - w - 1) 7 (-1) (wd - w - 1 + 7)); lia.
  - rewrite <- (Z.mod_unique (wd - w - 1) 7 0 (wd - w - 1)); lia.
Qed.

Lemma resolve_next_weekday name wd ref :
  In (name, wd) WEEKDAYS ->
  resolve ("next " ++ name) ref =
  (p <- _next_weekday wd (replace_midnight ref) 0 ;;
   Ret (Resolved (build_result ("next " ++ name) false (replace_midnight ref) p
                    ("next " ++ name)))).
Proof.
  cbn [In WEEKDAYS]. intros H.
  repeat (destruct H as [[= <- <-]|H];
    [ start_resolve; run_grammar fixed_phrases; run_grammar modifier_grammar;
      match goal with |- context [_next_weekday ?a ?b ?c] =>
        destruct (_next_weekday a b c) end; reflexivity | ]).
  contradiction.
Qed.

Lemma valid_datetime_date ref : valid_datetime ref = true -> valid_date (dt_date ref) = true.
Proof. unfold valid_datetime. rewrite !andb_true_iff. tauto. Qed.

(** *** The chain *)



Lemma first_match_some_inv gs expr today found :
  first_match gs expr today = Ret (Some found) ->
  Exists (fun g : grammar => g expr today = Ret (Some found)) gs.
Proof.
  induction gs as [|g gs IH]; intros H; [discriminate|].
  cbn [first_match] in H.
  destruct (g expr today) as [[f|]| |] eqn:E; cbn [bind] in H; try discriminate.
  - injection H as <-. left. exact E.
  - right. exact (IH H).
Qed.

Lemma resolve_inv expression ref resp :
  resolve expression ref = Ret resp ->
  let today := replace_midnight ref in
  let expr := fst (normalize expression) in
  (first_match grammars expr today = Ret None /\
   resp = Error ("Could not parse: '" ++ expression ++ "'")) \/
  (exists p desc,
     first_match grammars expr today = Ret (Some (p, desc)) /\
     resp = Resolved (build_result expression (snd (normalize expression)) today p desc)).
Proof.
  unfold resolve. destruct (normalize expression) as [expr suffix]. cbn [fst snd].
  destruct (first_match grammars expr (replace_midnight ref)) as [[[p desc]|]| |];
    cbn [bind]; intros [= <-].
  - right. exists p, desc. split; reflexivity.
  - left. split; reflexivity.
Qed.

(** *** Every parsed day is a date *)

Lemma found_as_inv desc m p d :
  found_as desc m = Ret (Some (p, d)) -> m = Ret p /\ d = desc.
Proof.
  unfold found_as. destruct m; cbn [bind]; intros [= <- <-]; split; reflexivity.
Qed.

Lemma plus_days_valid t k t' : plus_days t k = Ret t' -> valid_date (dt_date t') = true.
Proof.
  unfold plus_days. destruct (timedelta_days k); cbn [bind]; try discriminate.
  intros H. apply add_delta_inv in H. tauto.
Qed.

Lemma minus_days_valid t k t' : minus_days t k = Ret t' -> valid_date (dt_date t') = true.
Proof.
  unfold minus_days. destruct (timedelta_days k); cbn [bind]; try discriminate.
  intros H. apply add_delta_inv in H. tauto.
Qed.

Lemma plus_weeks_valid t k t' : plus_weeks t k = Ret t' -> valid_date (dt_date t') = true.
Proof.
  unfold plus_weeks. destruct (timedelta_weeks k); cbn [bind]; try discriminate.
  intros H. apply add_delta_inv in H. tauto.
Qed.

Lemma minus_weeks_valid t k t' : minus_weeks t k = Ret t' -> valid_date (dt_date t') = true.
Proof.
  unfold minus_weeks. destruct (timedelta_weeks k); cbn [bind]; try discriminate.
  intros H. apply add_delta_inv in H. tauto.
Qed.

Lemma new_date_inv y m d r :
  new_date y m d = Ret r -> r = mkDate y m d /\ valid_date r = true.
Proof.
  unfold new_date.
  destruct (fits_c_int y && fits_c_int m && fits_c_int d); [|discriminate].
  cbv zeta. destruct (valid_date (mkDate y m d)) eqn:V; [|discriminate].
  intros [= <-]. split; [reflexivity|exact V].
Qed.

Lemma replace_ymd_inv t y m d t' :
  replace_ymd t y m d = Ret t' ->
  dt_date t' = mkDate y m d /\ valid_date (dt_date t') = true /\
  hour t' = hour t /\ minute t' = minute t /\ second t' = second t /\
  microsecond t' = microsecond t.
Proof.
  unfold replace_ymd. destruct (new_date y m d) eqn:E; cbn [bind]; try discriminate.
  intros [= <-]. apply new_date_inv in E. destruct E as [-> V]. cbn. tauto.
Qed.

Lemma new_datetime_inv y m d t :
  new_datetime y m d = Ret t ->
  t = mkDatetime (mkDate y m d) 0 0 0 0 /\ valid_date (mkDate y m d) = true.
Proof.
  unfold new_datetime. destruct (new_date y m d) eqn:E; cbn [bind]; try discriminate.
  intros [= <-]. apply new_date_inv in E. destruct E as [-> V]. tauto.
Qed.

Lemma add_months_valid t n t' : _add_months t n = Ret t' -> valid_date (dt_date t') = true.
Proof.
  unfold _add_months. destruct (monthrange_days _ _); cbn [bind]; try discriminate.
  intros H. apply replace_ymd_inv in H. tauto.
Qed.

Lemma next_weekday_valid wd t w t' :
  _next_weekday wd t w = Ret t' -> valid_date (dt_date t') = true.
Proof. apply plus_days_valid. Qed.

Lemma prev_weekday_valid wd t w t' :
  _prev_weekday wd t w = Ret t' -> valid_date (dt_date t') = true.
Proof. apply minus_days_valid. Qed.

Lemma business_loop_valid fuel count : forall d added d',
  valid_date (dt_date d) = true ->
  business_loop fuel count d added = Ret d' -> valid_date (dt_date d') = true.
Proof.
  induction fuel as [|fuel IH]; intros d added d' V; cbn [business_loop];
    destruct (added <? count); try discriminate; try (intros [= <-]; exact V).
  destruct (plus_days d 1) as [d1| |] eqn:E; cbn [bind]; try discriminate.
  apply IH. exact (plus_days_valid _ _ _ E).
Qed.

Lemma weekend_loop_valid fuel : forall d d',
  valid_date (dt_date d) = true ->
  weekend_loop fuel d = Ret d' -> valid_date (dt_date d') = true.
Proof.
  induction fuel as [|fuel IH]; intros d d' V; cbn [weekend_loop];
    destruct (5 <=? weekday d); try discriminate; try (intros [= <-]; exact V).
  destruct (plus_days d 1) as [d1| |] eqn:E; cbn [bind]; try discriminate.
  apply IH. exact (plus_days_valid _ _ _ E).
Qed.

Lemma month_day_action_valid name m d y today p desc :
  month_day_action name m d y today = Ret (Some (p, desc)) ->
  valid_date (dt_date p) = true.
Proof.
  unfold month_day_action.
  destruct (match y with Some y0 => int y0 | None => Ret (dt_year today) end) as [yr| |];
    cbn [bind]; try discriminate.
  destruct (new_datetime yr m d) as [c| |] eqn:E; cbn [bind except_ValueError_pass];
    try discriminate; [|destruct e; discriminate].
  apply new_datetime_inv in E. destruct E as [-> V].
  destruct y as [y0|].
  - cbn [bind except_ValueError_pass]. intros [= <- _]. exact V.
  - destruct (date_ltb _ _).
    + destruct (new_datetime (yr + 1) m d) as [c| |] eqn:E; cbn [bind except_ValueError_pass];
        try discriminate; [|destruct e; discriminate].
      apply new_datetime_inv in E. destruct E as [-> V']. intros [= <- _]. exact V'.
    + cbn [bind except_ValueError_pass]. intros [= <- _]. exact V.
Qed.

Ltac split_match :=
  cbv zeta;
  lazymatch goal with
  | |- match ?x with _ => _ end = _ -> _ => destruct x; cbv beta iota
  | |- bind ?x _ = _ -> _ => destruct x; cbn [bind]
  end.

Ltac finish_valid V :=
  lazymatch goal with
  | |- no_match = _ -> _ => discriminate
  | |- Ret None = _ -> _ => discriminate
  | |- Raise _ = _ -> _ => discriminate
  | |- OutOfFuel = _ -> _ => discriminate
  | |- found_as _ _ = Ret (Some _) -> _ =>
      let H := fresh "H" in
      intros H; apply found_as_inv in H; destruct H as [H _];
      lazymatch type of H with
      | Ret _ = Ret _ => injection H as <-; exact V
      | plus_days _ _ = _ => exact (plus_days_valid _ _ _ H)
      | minus_days _ _ = _ => exact (minus_days_valid _ _ _ H)
      | plus_weeks _ _ = _ => exact (plus_weeks_valid _ _ _ H)
      | minus_weeks _ _ = _ => exact (minus_weeks_valid _ _ _ H)
      | _add_months _ _ = _ => exact (add_months_valid _ _ _ H)
      | _next_weekday _ _ _ = _ => exact (next_weekday_valid _ _ _ _ H)
      | _prev_weekday _ _ _ = _ => exact (prev_weekday_valid _ _ _ _ H)
      | replace_ymd _ _ _ _ = _ => apply replace_ymd_inv in H; apply H
      | _ => idtac
      end
  | |- month_day_action _ _ _ _ _ = _ -> _ => apply month_day_action_valid
  end.

Lemma grammars_valid g expr today p desc :
  In g grammars -> valid_date (dt_date today) = true ->
  g expr today = Ret (Some (p, desc)) -> valid_date (dt_date p) = true.
Proof.
  intros Hg V. unfold grammars in Hg. cbn [In] in Hg.
  repeat (destruct Hg as [<-|Hg]); [..|contradiction].
  - unfold fixed_phrases. repeat split_match; finish_valid V.
    + destruct (monthrange_days _ _); cbn [bind] in H; try discriminate.
      apply replace_ymd_inv in H. tauto.
    + destruct (replace_ymd _ _ _ _); cbn [bind] in H; try discriminate.
      exact (add_months_valid _ _ _ H).
  - unfold modifier_grammar. repeat split_match; finish_valid V.
    + destruct (replace_ymd _ _ _ _); cbn [bind] in H; try discriminate.
      exact (add_months_valid _ _ _ H).
    + destruct (replace_ymd _ _ _ _); cbn [bind] in H; try discriminate.
      exact (add_months_valid _ _ _ H).
  - unfold from_now_grammar. repeat split_match; finish_valid V.
  - unfold business_grammar. repeat split_match; finish_valid V.
    exact (business_loop_valid _ _ _ _ _ V H).
  - unfold in_units_grammar. repeat split_match; finish_valid V.
  - unfold ago_grammar. repeat split_match; finish_valid V.
  - unfold a_unit_grammar. repeat split_match; finish_valid V.
  - unfold next_business_day_grammar. repeat split_match; finish_valid V.
    destruct (plus_days today 1) eqn:E; cbn [bind] in H; try discriminate.
    exact (weekend_loop_valid _ _ _ (plus_days_valid _ _ _ E) H).
  - unfold bare_weekday_grammar. repeat split_match; finish_valid V.
  - unfold month_day_grammar. repeat split_match; finish_valid V.
  - unfold day_month_grammar. repeat split_match; finish_valid V.
  - unfold iso_grammar. destruct (re_match iso_re expr) as [[m rest]|]; [|discriminate].
    destruct (int (group m 1)) as [y| |]; cbn [bind except_ValueError_pass];
      try discriminate; [|destruct e; discriminate].
    destruct (int (group m 2)) as [mo| |]; cbn [bind except_ValueError_pass];
      try discriminate; [|destruct e; discriminate].
    destruct (int (group m 3)) as [d| |]; cbn [bind except_ValueError_pass];
      try discriminate; [|destruct e; discriminate].
    unfold found_as.
    destruct (new_datetime y mo d) as [c| |] eqn:E; cbn [bind except_ValueError_pass];
      try discriminate; [|destruct e; discriminate].
    apply new_datetime_inv in E. destruct E as [-> V']. intros [= <- _]. exact V'.
Qed.


(** C4 (as amended).  For every weekday name [name] of [WEEKDAYS], with
    number [wd], and every reference [datetime], the offset
    [k = (wd - weekday(D) - 1) mod 7 + 1] lies in 1..7.  When [D + k]
    is still a date (at most 9999-12-31), resolving ["next " ++ name]
    returns the date [k] days after the reference day: it is strictly
    later, at most 7 days later, its weekday is [wd], and
    [days_from_today] is [k].  When [D + k] is past 9999-12-31 the
    addition overflows and [resolve] raises [OverflowError]. *)
Theorem next_weekday_strictly_ahead name wd ref :
  lookup name WEEKDAYS = Some wd ->
  valid_datetime ref = true ->
  let today := dt_date ref in
  let k := (wd - date_weekday today - 1) mod 7 + 1 in
  1 <= k <= 7 /\
  (toordinal today + k <= MAXORDINAL ->
     exists r, resolve ("next " ++ name) ref = Ret (Resolved r) /\
       r_date r = isoformat (fromordinal (toordinal today + k)) /\
       date_weekday (fromordinal (toordinal today + k)) = wd /\
       r_days_from_today r = k) /\
  (MAXORDINAL < toordinal today + k ->
     resolve ("next " ++ name) ref = Raise OverflowError).
Proof.
  intros Hname Hvalid today k.
  apply weekday_table in Hname.
  pose proof (weekday_table_range _ _ Hname) as Hwd.
  pose proof (toordinal_range _ (valid_datetime_date _ Hvalid)) as Hord.
  fold today in Hord.
  assert (Hw : 0 <= date_weekday today < 7)
    by (unfold date_weekday; apply Z.mod_pos_bound; lia).
  assert (Hk : 1 <= k <= 7)
    by (unfold k; pose proof (Z.mod_pos_bound (wd - date_weekday today - 1) 7); lia).
  rewrite (resolve_next_weekday _ _ ref Hname).
  unfold _next_weekday.
  change (weekday (replace_midnight ref)) with (date_weekday today).
  rewrite (next_offset _ _ Hwd Hw). fold k.
  rewrite Z.mul_0_l, Z.add_0_r, plus_days_small by lia.
  change (dt_date (replace_midnight ref)) with today.
  split; [exact Hk|]. split.
  - intros Hmax. rewrite add_delta_ret by (cbn; fold today; lia).
    cbn [bind dt_date replace_midnight]. fold today.
    eexists. split; [reflexivity|].
    unfold build_result. cbn [r_date r_days_from_today dt_date].
    split; [reflexivity|]. split.
    + rewrite weekday_of_ordinal by lia.
      unfold k, date_weekday. set (o := toordinal today).
      symmetry.
      apply (Z.mod_unique _ 7 ((o + 6) / 7 - (wd - (o + 6) mod 7 - 1) / 7) wd); [lia|].
      pose proof (Z.div_mod (o + 6) 7 ltac:(lia)).
      pose proof (Z.div_mod (wd - (o + 6) mod 7 - 1) 7 ltac:(lia)).
      lia.
    + unfold days_between. unfold fromordinal.
      destruct (ord2ymd_correct (toordinal today + k) ltac:(lia)) as [_ ->].
      cbn. fold today. lia.
  - intros Hmax. rewrite add_delta_raise by (cbn; fold today; lia). reflexivity.
Qed.

(** C4, witness: "next wednesday" seen from Sunday 2026-02-08. *)
Lemma next_weekday_strictly_ahead_witness :
  let ref := mkDatetime (mkDate 2026 2 8) 9 30 0 0 in
  let today := dt_date ref in
  let k := (2 - date_weekday today - 1) mod 7 + 1 in
  1 <= k <= 7 /\
  (toordinal today + k <= MAXORDINAL ->
     exists r, resolve ("next " ++ "wednesday") ref = Ret (Resolved r) /\
       r_date r = isoformat (fromordinal (toordinal today + k)) /\
       date_weekday (fromordinal (toordinal today + k)) = 2 /\
       r_days_from_today r = k) /\
  (MAXORDINAL < toordinal today + k ->
     resolve ("next " ++ "wednesday") ref = Raise OverflowError).
Proof.
  exact (next_weekday_strictly_ahead "wednesday" 2
           (mkDatetime (mkDate 2026 2 8) 9 30 0 0) eq_refl eq_refl).
Defined.

(** C4, counterexample: from 9999-12-31 (a Friday) "next monday" yields
    no date; the addition of 3 days raises [OverflowError]. *)
Lemma next_weekday_overflows_at_max :
  resolve "next monday" (mkDatetime (mkDate 9999 12 31) 0 0 0 0) = Raise OverflowError.
Proof. vm_compute. reflexivity. Qed.

(** C1 (the code at the failing input).  From the reference date
    2024-02-29 the four year grammars call [replace(year=...)] with a
    year that has no Feb 29, and the [ValueError] leaves [resolve]. *)
Theorem year_arithmetic_raises_on_feb_29 :
  let ref := mkDatetime (mkDate 2024 2 29) 12 0 0 0 in
  resolve "1 year from now" ref = Raise ValueError /\
  resolve "in 1 year" ref = Raise ValueError /\
  resolve "a year from now" ref = Raise ValueError /\
  resolve "1 year ago" ref = Raise ValueError.
Proof. vm_compute. repeat split. Qed.

(** C2 (the code at the failing input).  On Sunday 2026-02-08
    "this weekend" resolves to that same Sunday, 0 days ahead: the
    branch that singles out "this weekend" assigns 0 to a value that is
    already 0. *)
Theorem this_weekend_on_sunday_stays :
  exists r,
    resolve "this weekend" (mkDatetime (mkDate 2026 2 8) 10 0 0 0) = Ret (Resolved r) /\
    r_date r = "2026-02-08" /\ r_day_of_week r = "Sunday" /\ r_days_from_today r = 0.
Proof. eexists. vm_compute. repeat split. Qed.

(** C3 (the code at the failing input).  For every reference date the
    bare phrase "next year" is matched by no grammar: the literal list
    holds only the two prefixed phrases, and the modifier grammar knows
    "week" and "month" but not "year". *)
Theorem bare_next_year_not_recognized ref :
  resolve "next year" ref = Ret (Error "Could not parse: 'next year'").
Proof. vm_compute. reflexivity. Qed.

(** C10.  For every reference date, "in 0 business days" succeeds and
    returns the reference day itself with [days_from_today = 0],
    whatever its weekday: the loop body never runs. *)
Theorem zero_business_days_is_today ref :
  exists r, resolve "in 0 business days" ref = Ret (Resolved r) /\
    r_date r = isoformat (dt_date ref) /\
    r_days_from_today r = 0.
Proof.
  start_resolve. run_grammar fixed_phrases. run_grammar modifier_grammar.
  run_grammar from_now_grammar. run_grammar business_grammar.
  change (business_fuel 0) with 0%nat. cbn [business_loop Z.ltb Z.compare bind].
  eexists. split; [reflexivity|].
  unfold build_result, days_between. cbn [r_date r_days_from_today dt_date replace_midnight].
  split; [reflexivity|lia].
Qed.

(** C5.  Whenever [resolve] succeeds, the returned [date] is the ISO
    text of a calendar date [d], and [days_from_today] is [d] minus the
    reference date (its time of day dropped) in whole days; adding that
    many days to the reference date gives [d] back. *)
Theorem days_from_today_is_date_difference expression ref r :
  resolve expression ref = Ret (Resolved r) ->
  valid_datetime ref = true ->
  exists d,
    valid_date d = true /\
    r_date r = isoformat d /\
    r_days_from_today r = days_between d (dt_date ref) /\
    fromordinal (toordinal (dt_date ref) + r_days_from_today r) = d.
Proof.
  intros H V. apply resolve_inv in H. cbv zeta in H.
  destruct H as [[_ H]|(p & desc & Hm & H)]; [discriminate|].
  injection H as ->.
  apply first_match_some_inv in Hm. apply Exists_exists in Hm.
  destruct Hm as (g & Hg & Hm).
  pose proof (grammars_valid g _ (replace_midnight ref) _ _ Hg (valid_datetime_date _ V) Hm) as Vp.
  exists (dt_date p). unfold build_result.
  cbn [r_date r_days_from_today dt_date replace_midnight].
  repeat split; try assumption.
  unfold days_between.
  replace (toordinal (dt_date ref) + (toordinal (dt_date p) - toordinal (dt_date ref)))
    with (toordinal (dt_date p)) by lia.
  apply fromordinal_toordinal. exact Vp.
Qed.

(** C5, witness: "next wednesday" from 2026-02-08 09:30. *)
Lemma days_from_today_is_date_difference_witness :
  exists d,
    valid_date d = true /\
    r_date (build_result "next wednesday" false
              (mkDatetime (mkDate 2026 2 8) 0 0 0 0)
              (mkDatetime (mkDate 2026 2 11) 0 0 0 0) "next wednesday") = isoformat d /\
    r_days_from_today (build_result "next wednesday" false
              (mkDatetime (mkDate 2026 2 8) 0 0 0 0)
              (mkDatetime (mkDate 2026 2 11) 0 0 0 0) "next wednesday")
      = days_between d (dt_date (mkDatetime (mkDate 2026 2 8) 9 30 0 0)) /\
    fromordinal (toordinal (dt_date (mkDatetime (mkDate 2026 2 8) 9 30 0 0)) +
                 r_days_from_today (build_result "next wednesday" false
              (mkDatetime (mkDate 2026 2 8) 0 0 0 0)
              (mkDatetime (mkDate 2026 2 11) 0 0 0 0) "next wednesday")) = d.
Proof.
  apply (days_from_today_is_date_difference "next wednesday"
           (mkDatetime (mkDate 2026 2 8) 9 30 0 0)).
  - vm_compute. reflexivity.
  - vm_compute. reflexivity.
Defined.


Lemma monthrange_days_in_month y m :
  1 <= m <= 12 -> monthrange_days y m = Ret (days_in_month y m).
Proof.
  intros H. unfold monthrange_days.
  destruct (Z.leb_spec 1 m); [|lia]. destruct (Z.leb_spec m 12); [|lia].
  cbn [andb]. rewrite days_in_month_alt. reflexivity.
Qed.

Lemma days_in_month_range y m : 1 <= m <= 12 -> 28 <= days_in_month y m <= 31.
Proof.
  intros H. unfold days_in_month.
  assert (m = 1 \/ m = 2 \/ m = 3 \/ m = 4 \/ m = 5 \/ m = 6 \/ m = 7 \/ m = 8 \/
          m = 9 \/ m = 10 \/ m = 11 \/ m = 12) as C by lia.
  repeat (destruct C as [->|C]; [destruct (is_leap y); cbn; lia|]).
  subst. destruct (is_leap y); cbn; lia.
Qed.

Lemma fits_c_int_range n : -2147483648 <= n <= 2147483647 -> fits_c_int n = true.
Proof. intros H. unfold fits_c_int. apply andb_true_intro. split; apply Z.leb_le; lia. Qed.

(** The fields of a date fit a C [int]. *)
Lemma valid_date_fits y m d :
  valid_date (mkDate y m d) = true ->
  fits_c_int y && fits_c_int m && fits_c_int d = true.
Proof.
  intros V. apply valid_date_unfold in V. cbn [year month day] in V.
  destruct V as (Hy & Hm & Hd). pose proof (days_in_month_range y m Hm).
  rewrite (fits_c_int_range y), (fits_c_int_range m), (fits_c_int_range d) by lia.
  reflexivity.
Qed.

Lemma new_date_ret y m d :
  valid_date (mkDate y m d) = true -> new_date y m d = Ret (mkDate y m d).
Proof.
  intros V. unfold new_date. rewrite (valid_date_fits _ _ _ V). cbv zeta.
  rewrite V. reflexivity.
Qed.

Lemma new_date_raise y m d :
  fits_c_int y && fits_c_int m && fits_c_int d = true ->
  valid_date (mkDate y m d) = false -> new_date y m d = Raise ValueError.
Proof. intros F V. unfold new_date. rewrite F. cbv zeta. rewrite V. reflexivity. Qed.

Lemma new_date_overflow y m d :
  fits_c_int y && fits_c_int m && fits_c_int d = false ->
  new_date y m d = Raise OverflowError.
Proof. intros F. unfold new_date. rewrite F. reflexivity. Qed.

Lemma replace_ymd_ret t y m d :
  valid_date (mkDate y m d) = true ->
  replace_ymd t y m d =
  Ret (mkDatetime (mkDate y m d) (hour t) (minute t) (second t) (microsecond t)).
Proof. intros V. unfold replace_ymd. rewrite (new_date_ret _ _ _ V). reflexivity. Qed.

Lemma replace_ymd_raise t y m d :
  fits_c_int y && fits_c_int m && fits_c_int d = true ->
  valid_date (mkDate y m d) = false -> replace_ymd t y m d = Raise ValueError.
Proof. intros F V. unfold replace_ymd. rewrite (new_date_raise _ _ _ F V). reflexivity. Qed.

Lemma replace_ymd_overflow t y m d :
  fits_c_int y && fits_c_int m && fits_c_int d = false ->
  replace_ymd t y m d = Raise OverflowError.
Proof. intros F. unfold replace_ymd. rewrite (new_date_overflow _ _ _ F). reflexivity. Qed.

(** C7 (as amended).  For every [datetime] and integer [n], the target
    month [m] and year [y] are the ones [n] months away; the day is
    kept unless month [m] of year [y] is shorter, and then it is that
    month's last day.  When [y] lies in 1..9999 [_add_months] returns
    that date (the time of day kept); otherwise it raises:
    [ValueError] while [y] still fits a C [int], [OverflowError] once
    it does not.  Jan 31 plus one month is Feb 29 in a leap year and
    Feb 28 otherwise. *)
Theorem add_months_clamps dt n :
  valid_datetime dt = true ->
  let total := dt_month dt - 1 + n in
  let y := dt_year dt + total / 12 in
  let m := total mod 12 + 1 in
  let d := Z.min (dt_day dt) (days_in_month y m) in
  1 <= m <= 12 /\
  12 * y + m = 12 * dt_year dt + dt_month dt + n /\
  (d = dt_day dt \/ (days_in_month y m < dt_day dt /\ d = days_in_month y m)) /\
  (MINYEAR <= y <= MAXYEAR ->
     valid_date (mkDate y m d) = true /\
     _add_months dt n =
     Ret (mkDatetime (mkDate y m d) (hour dt) (minute dt) (second dt) (microsecond dt))) /\
  (~ (MINYEAR <= y <= MAXYEAR) -> fits_c_int y = true ->
     _add_months dt n = Raise ValueError) /\
  (fits_c_int y = false -> _add_months dt n = Raise OverflowError) /\
  (dt_month dt = 1 -> dt_day dt = 31 -> n = 1 ->
     y = dt_year dt /\ m = 2 /\ d = if is_leap (dt_year dt) then 29 else 28).
Proof.
  intros V total y m d.
  apply valid_datetime_date in V. apply valid_date_unfold in V.
  destruct V as (Vy & Vm & Vd). fold (dt_year dt) (dt_month dt) (dt_day dt) in *.
  assert (Hm : 1 <= m <= 12) by (unfold m; pose proof (Z.mod_pos_bound total 12); lia).
  pose proof (days_in_month_range y m Hm) as Hdim.
  split; [exact Hm|]. split.
  { unfold y, m. pose proof (Z.div_mod total 12 ltac:(lia)). unfold total in *. lia. }
  split. { unfold d. lia. }
  assert (E : _add_months dt n = replace_ymd dt y m d).
  { unfold _add_months. fold total. fold y. fold m.
    rewrite monthrange_days_in_month by exact Hm. reflexivity. }
  pose proof (days_in_month_range (dt_year dt) (dt_month dt) Vm) as Hdim0.
  assert (Fm : fits_c_int m = true) by (apply fits_c_int_range; lia).
  assert (Fd : fits_c_int d = true) by (apply fits_c_int_range; unfold d; lia).
  split; [|split; [|split]].
  - intros Hy.
    assert (Vr : valid_date (mkDate y m d) = true)
      by (apply valid_date_unfold; cbn [year month day]; unfold MINYEAR, MAXYEAR in Hy;
          unfold d; lia).
    split; [exact Vr|]. rewrite E. apply replace_ymd_ret. exact Vr.
  - intros Hy Fy. rewrite E. apply replace_ymd_raise.
    { rewrite Fy, Fm, Fd. reflexivity. }
    destruct (valid_date (mkDate y m d)) eqn:Vr; [|reflexivity].
    apply valid_date_unfold in Vr. cbn [year month day] in Vr.
    unfold MINYEAR, MAXYEAR in Hy. lia.
  - intros Fy. rewrite E. apply replace_ymd_overflow. rewrite Fy. reflexivity.
  - intros H1 H31 ->. unfold d, y, m, total. rewrite H1, H31.
    change ((1 - 1 + 1) / 12) with 0. change ((1 - 1 + 1) mod 12 + 1) with 2.
    rewrite Z.add_0_r. split; [reflexivity|]. split; [reflexivity|].
    unfold days_in_month. cbn [Z.eqb Pos.eqb andb DAYS_IN_MONTH].
    destruct (is_leap (dt_year dt)); reflexivity.
Qed.

(** C7, witness: 2024-01-31 plus one month. *)
Lemma add_months_clamps_witness :
  let dt := mkDatetime (mkDate 2024 1 31) 8 15 0 0 in
  let n := 1 in
  let total := dt_month dt - 1 + n in
  let y := dt_year dt + total / 12 in
  let m := total mod 12 + 1 in
  let d := Z.min (dt_day dt) (days_in_month y m) in
  1 <= m <= 12 /\
  12 * y + m = 12 * dt_year dt + dt_month dt + n /\
  (d = dt_day dt \/ (days_in_month y m < dt_day dt /\ d = days_in_month y m)) /\
  (MINYEAR <= y <= MAXYEAR ->
     valid_date (mkDate y m d) = true /\
     _add_months dt n =
     Ret (mkDatetime (mkDate y m d) (hour dt) (minute dt) (second dt) (microsecond dt))) /\
  (~ (MINYEAR <= y <= MAXYEAR) -> fits_c_int y = true ->
     _add_months dt n = Raise ValueError) /\
  (fits_c_int y = false -> _add_months dt n = Raise OverflowError) /\
  (dt_month dt = 1 -> dt_day dt = 31 -> n = 1 ->
     y = dt_year dt /\ m = 2 /\ d = if is_leap (dt_year dt) then 29 else 28).
Proof.
  exact (add_months_clamps (mkDatetime (mkDate 2024 1 31) 8 15 0 0) 1 eq_refl).
Defined.

(** C7, counterexample: one month after 9999-12-15 is no date. *)
Lemma add_months_raises_past_max_year :
  _add_months (mkDatetime (mkDate 9999 12 15) 0 0 0 0) 1 = Raise ValueError.
Proof. vm_compute. reflexivity. Qed.

(** *** Grammars that cannot match a text *)

Definition fixed_words : list string :=
  [ "today"; "now"; "tomorrow"; "yesterday"; "day after tomorrow";
    "day before yesterday"; "end of week"; "end of this week"; "this weekend";
    "start of next week"; "beginning of next week"; "next week";
    "end of month"; "end of this month"; "eom";
    "start of next month"; "beginning of next month";
    "end of year"; "end of this year"; "eoy";
    "start of next year"; "beginning of next year" ].

Lemma fixed_phrases_none expr today :
  among expr fixed_words = false -> fixed_phrases expr today = Ret None.
Proof.
  unfold among, fixed_words. cbn [existsb]. rewrite !orb_false_iff.
  intros H. unfold fixed_phrases, among. cbn [existsb].
  repeat match type of H with
         | _ /\ _ => let E := fresh "E" in destruct H as [E H]; rewrite ?E
         end.
  reflexivity.
Qed.

Definition no_match_at (r : regex) (expr : string) : bool :=
  match re_match r expr with
  | None => true
  | Some _ => false
  end.

Lemma no_match_at_none r expr : no_match_at r expr = true -> re_match r expr = None.
Proof. unfold no_match_at. destruct (re_match r expr); [discriminate|reflexivity]. Qed.

(** What the grammars before "<month> <day>" need to let a text through. *)
Definition passes_to_month_day (expr : string) : bool :=
  negb (among expr fixed_words) &&
  no_match_at modifier_re expr && no_match_at from_now_re expr &&
  no_match_at business_re expr && no_match_at in_units_re expr &&
  no_match_at ago_re expr && no_match_at a_unit_re expr &&
  negb (among expr ["next weekday"; "next business day"; "next workday"]) &&
  match lookup expr WEEKDAYS with None => true | Some _ => false end.

Lemma passes_to_month_day_spec expr today :
  passes_to_month_day expr = true ->
  first_match grammars expr today =
  first_match [month_day_grammar; day_month_grammar; iso_grammar] expr today.
Proof.
  unfold passes_to_month_day. rewrite !andb_true_iff, !negb_true_iff.
  intros ((((((((F & M) & N) & B) & U) & A) & AU) & NB) & W).
  apply no_match_at_none in M, N, B, U, A, AU.
  unfold grammars. cbn [first_match].
  rewrite (fixed_phrases_none _ _ F). cbn [bind].
  unfold modifier_grammar, from_now_grammar, business_grammar, in_units_grammar,
    ago_grammar, a_unit_grammar, next_business_day_grammar, bare_weekday_grammar.
  rewrite M, N, B, U, A, AU, NB.
  destruct (lookup expr WEEKDAYS); [discriminate|].
  reflexivity.
Qed.

(** The texts of one or two digits. *)
Definition digit_chars : list ascii :=
  ["0"; "1"; "2"; "3"; "4"; "5"; "6"; "7"; "8"; "9"]%char.

Definition day_texts : list string :=
  map (fun c => String c EmptyString) digit_chars ++
  flat_map (fun a => map (fun b => String a (String b EmptyString)) digit_chars) digit_chars.

Lemma is_digit_chars c : is_digit c = true -> In c digit_chars.
Proof.
  destruct c as [[] [] [] [] [] [] [] []]; intros H; try discriminate H; cbn; tauto.
Qed.

Fixpoint all_digits (s : string) : bool :=
  match s with
  | EmptyString => true
  | String c s' => is_digit c && all_digits s'
  end.

Lemma int_digits_all s : forall acc n, int_digits acc s = Some n -> all_digits s = true.
Proof.
  induction s as [|c s IH]; intros acc n H; [reflexivity|].
  cbn [int_digits all_digits] in *.
  destruct (is_digit c); [|discriminate]. exact (IH _ _ H).
Qed.

Lemma int_inv s n :
  int s = Ret n ->
  s <> EmptyString /\ (String.length s <= INT_MAX_STR_DIGITS)%nat /\
  all_digits s = true /\ int_digits 0 s = Some n.
Proof.
  unfold int. destruct s as [|c s]; [discriminate|].
  destruct (Nat.leb_spec (String.length (String c s)) INT_MAX_STR_DIGITS); [|discriminate].
  destruct (int_digits 0 (String c s)) as [v|] eqn:E; [|discriminate].
  intros [= <-]. repeat split; try assumption; try discriminate.
  exact (int_digits_all _ _ _ E).
Qed.

Lemma day_text_in ds n :
  int ds = Ret n -> (String.length ds <= 2)%nat -> In ds day_texts.
Proof.
  intros H L. apply int_inv in H. destruct H as (Hne & _ & Hd & _).
  destruct ds as [|a [|b [|c ds]]]; [contradiction| | |cbn in L; lia].
  - cbn [all_digits] in Hd. rewrite andb_true_r in Hd.
    apply is_digit_chars in Hd. unfold day_texts. apply in_or_app. left.
    apply (in_map (fun c => String c EmptyString)). exact Hd.
  - cbn [all_digits] in Hd. rewrite andb_true_r in Hd.
    apply andb_prop in Hd. destruct Hd as [Ha Hb].
    apply is_digit_chars in Ha, Hb. unfold day_texts. apply in_or_app. right.
    apply in_flat_map. exists a. split; [exact Ha|].
    apply (in_map (fun b => String a (String b EmptyString))). exact Hb.
Qed.

Lemma lookup_in key table v : lookup key table = Some v -> In key (map fst table).
Proof.
  induction table as [|[k w] table IH]; [discriminate|].
  cbn [lookup map fst In]. destruct (String.eqb_spec key k) as [->|_].
  - intros _. left. reflexivity.
  - intros H. right. exact (IH H).
Qed.

(** What "<month> <day>" needs of a text [name ++ " " ++ ds]: the
    normalizer keeps it, no earlier grammar takes it, the pattern reads
    the two groups, and the later grammars do not match. *)
Definition month_day_probe (name ds : string) : bool :=
  let e := name ++ " " ++ ds in
  (let '(e', suffix) := normalize e in (e' == e) && negb suffix) &&
  passes_to_month_day e &&
  match re_match month_day_re e with
  | Some ([(2%nat, g2); (1%nat, g1)], rest) => (g1 == name) && (g2 == ds) && (rest == "")
  | _ => false
  end &&
  no_match_at day_month_re e && no_match_at iso_re e.

Lemma month_day_probe_all :
  forallb (fun p => month_day_probe (fst p) (snd p))
    (list_prod (map fst MONTH_NAMES) day_texts) = true.
Proof. vm_compute. reflexivity. Qed.

Lemma outcome_eta {A} (m : outcome (option A)) :
  (r <- m ;; match r with Some found => Ret (Some found) | None => Ret None end) = m.
Proof. destruct m as [[a|]| |]; reflexivity. Qed.

Lemma resolve_month_day name month ds day ref :
  lookup name MONTH_NAMES = Some month ->
  int ds = Ret day -> (String.length ds <= 2)%nat ->
  resolve (name ++ " " ++ ds) ref =
  (found <- month_day_action name month day None (replace_midnight ref) ;;
   match found with
   | None => Ret (Error ("Could not parse: '" ++ (name ++ " " ++ ds) ++ "'"))
   | Some (p, desc) =>
       Ret (Resolved (build_result (name ++ " " ++ ds) false (replace_midnight ref) p desc))
   end).
Proof.
  intros Hname Hint Hlen.
  pose proof month_day_probe_all as P. rewrite forallb_forall in P.
  specialize (P (name, ds) ltac:(apply in_prod;
                  [exact (lookup_in _ _ _ Hname)|exact (day_text_in _ _ Hint Hlen)])).
  cbn [fst snd] in P. unfold month_day_probe in P.
  set (e := name ++ " " ++ ds) in *.
  rewrite !andb_true_iff in P. destruct P as ((((Pn & Pp) & Pm) & Pd) & Pi).
  unfold resolve.
  destruct (normalize e) as [e' suffix].
  apply andb_prop in Pn. destruct Pn as [Pe Ps].
  apply String.eqb_eq in Pe. apply negb_true_iff in Ps. subst e' suffix.
  rewrite (passes_to_month_day_spec _ _ Pp).
  cbn [first_match]. unfold month_day_grammar at 1.
  destruct (re_match month_day_re e) as [[m rest]|]; [|discriminate].
  destruct m as [|[[|[|[|?]]] g2] [|[[|[|?]] g1] [|? ?]]]; try discriminate.
  rewrite !andb_true_iff in Pm. destruct Pm as ((G1 & G2) & _).
  apply String.eqb_eq in G1, G2. subst g1 g2.
  change (group [(2%nat, ds); (1%nat, name)] 1) with name.
  change (group [(2%nat, ds); (1%nat, name)] 2) with ds.
  change (group_opt [(2%nat, ds); (1%nat, name)] 3) with (@None string).
  rewrite Hname, Hint. cbn [bind].
  unfold day_month_grammar, iso_grammar.
  rewrite (no_match_at_none _ _ Pd), (no_match_at_none _ _ Pi).
  destruct (month_day_action name month day None (replace_midnight ref)) as [[[p desc]|]| |];
    reflexivity.
Qed.

Lemma new_datetime_ret y m d :
  valid_date (mkDate y m d) = true ->
  new_datetime y m d = Ret (mkDatetime (mkDate y m d) 0 0 0 0).
Proof. intros V. unfold new_datetime. rewrite (new_date_ret _ _ _ V). reflexivity. Qed.

Lemma new_datetime_raise y m d :
  fits_c_int y && fits_c_int m && fits_c_int d = true ->
  valid_date (mkDate y m d) = false -> new_datetime y m d = Raise ValueError.
Proof. intros F V. unfold new_datetime. rewrite (new_date_raise _ _ _ F V). reflexivity. Qed.

Lemma new_datetime_overflow y m d :
  fits_c_int y && fits_c_int m && fits_c_int d = false ->
  new_datetime y m d = Raise OverflowError.
Proof. intros F. unfold new_datetime. rewrite (new_date_overflow _ _ _ F). reflexivity. Qed.

(** *** The numbers the patterns read fit a C [int] *)

Lemma digit_value_range c : is_digit c = true -> 0 <= digit_value c <= 9.
Proof.
  destruct c as [[] [] [] [] [] [] [] []]; intros H; try discriminate H;
    unfold digit_value, code; cbn; lia.
Qed.

Lemma int_digits_bound s : forall acc n,
  0 <= acc -> int_digits acc s = Some n ->
  0 <= n < (acc + 1) * 10 ^ Z.of_nat (String.length s).
Proof.
  induction s as [|c s IH]; intros acc n Ha H.
  - cbn [int_digits] in H. injection H as <-. cbn [String.length].
    change (10 ^ Z.of_nat 0) with 1. lia.
  - cbn [int_digits] in H. destruct (is_digit c) eqn:Hc; [|discriminate].
    pose proof (digit_value_range c Hc) as Hv.
    apply IH in H; [|lia].
    cbn [String.length]. rewrite Nat2Z.inj_succ, Z.pow_succ_r by lia.
    set (P := 10 ^ Z.of_nat (String.length s)) in *.
    assert (HP : 0 < P) by (apply Z.pow_pos_nonneg; lia).
    assert (Q : (10 * acc + digit_value c + 1) * P <= (10 * (acc + 1)) * P)
      by (apply Z.mul_le_mono_nonneg_r; lia).
    replace ((acc + 1) * (10 * P)) with (10 * (acc + 1) * P) by ring. lia.
Qed.

Lemma int_short_fits s n :
  int s = Ret n -> (String.length s <= 4)%nat -> fits_c_int n = true.
Proof.
  intros H L. apply int_inv in H. destruct H as (_ & _ & _ & H).
  apply int_digits_bound in H; [|lia].
  assert (B : 10 ^ Z.of_nat (String.length s) <= 10 ^ 4) by (apply Z.pow_le_mono_r; lia).
  change (10 ^ 4) with 10000 in B. apply fits_c_int_range. lia.
Qed.

Lemma month_names_range name month :
  lookup name MONTH_NAMES = Some month -> 1 <= month <= 12.
Proof.
  unfold MONTH_NAMES. cbn [lookup].
  repeat match goal with
  | |- context [String.eqb name ?k] =>
      destruct (String.eqb_spec name k) as [->|_]; [intros [= <-]; lia|]
  end.
  discriminate.
Qed.

(** C8 (as amended).  For a month name, a day of one or two digits and
    no year, [resolve] reads the day in the reference date's year.  If
    that is no calendar date the text is unrecognized (a year that does
    not fit a C [int], which no [datetime] has, would overflow the
    constructor instead).  If it is a date
    not before the reference day, it is the result.  If it is before
    the reference day, the result is the same month and day one year
    later when that is a calendar date, and otherwise (Feb 29, or a
    year past 9999) the text is unrecognized. *)
Theorem month_day_rolls_to_next_year name month ds day ref :
  lookup name MONTH_NAMES = Some month ->
  int ds = Ret day -> (String.length ds <= 2)%nat ->
  let today := dt_date ref in
  let this_year := mkDate (year today) month day in
  let next_year := mkDate (year today + 1) month day in
  let e := name ++ " " ++ ds in
  let unrecognized := resolve e ref = Ret (Error ("Could not parse: '" ++ e ++ "'")) in
  let resolves_to (d : date) :=
    exists r, resolve e ref = Ret (Resolved r) /\ r_date r = isoformat d /\
              r_days_from_today r = days_between d today in
  (valid_date this_year = false ->
     if fits_c_int (year today) then unrecognized
     else resolve e ref = Raise OverflowError) /\
  (valid_date this_year = true -> date_ltb this_year today = false ->
     resolves_to this_year) /\
  (valid_date this_year = true -> date_ltb this_year today = true ->
     valid_date next_year = true -> resolves_to next_year) /\
  (valid_date this_year = true -> date_ltb this_year today = true ->
     valid_date next_year = false -> unrecognized).
Proof.
  intros Hname Hint Hlen today this_year next_year e unrecognized resolves_to.
  unfold unrecognized, resolves_to, e.
  rewrite (resolve_month_day _ _ _ _ ref Hname Hint Hlen).
  unfold month_day_action. cbn [bind].
  change (dt_year (replace_midnight ref)) with (year today).
  change (dt_date (replace_midnight ref)) with today.
  fold this_year next_year.
  assert (Fm : fits_c_int month = true)
    by (apply fits_c_int_range; pose proof (month_names_range _ _ Hname); lia).
  assert (Fd : fits_c_int day = true) by (apply (int_short_fits ds); [exact Hint|lia]).
  split; [|split; [|split]].
  - intros V. destruct (fits_c_int (year today)) eqn:Fy.
    + rewrite new_datetime_raise; [reflexivity| |exact V].
      rewrite Fy, Fm, Fd. reflexivity.
    + rewrite new_datetime_overflow; [reflexivity|]. rewrite Fy. reflexivity.
  - intros V L. rewrite (new_datetime_ret _ _ _ V). cbn [bind dt_date].
    fold this_year. rewrite L. cbn [bind except_ValueError_pass].
    eexists. split; [reflexivity|]. split; reflexivity.
  - intros V L V'. rewrite (new_datetime_ret _ _ _ V). cbn [bind dt_date].
    fold this_year. rewrite L. rewrite (new_datetime_ret _ _ _ V').
    cbn [bind except_ValueError_pass].
    eexists. split; [reflexivity|]. split; reflexivity.
  - intros V L V'. rewrite (new_datetime_ret _ _ _ V). cbn [bind dt_date].
    fold this_year. rewrite L.
    assert (F' : fits_c_int (year today + 1) && fits_c_int month && fits_c_int day = true).
    { pose proof V as Vu. apply valid_date_unfold in Vu. destruct Vu as (Hy & _).
      change (year this_year) with (year today) in Hy.
      rewrite (fits_c_int_range (year today + 1)) by lia. rewrite Fm, Fd. reflexivity. }
    rewrite (new_datetime_raise _ _ _ F' V').
    reflexivity.
Qed.

(** C8, witness: "march 15" from 2026-04-01. *)
Lemma month_day_rolls_to_next_year_witness :
  let ref := mkDatetime (mkDate 2026 4 1) 9 0 0 0 in
  let today := dt_date ref in
  let this_year := mkDate (year today) 3 15 in
  let next_year := mkDate (year today + 1) 3 15 in
  let e := "march" ++ " " ++ "15" in
  let unrecognized := resolve e ref = Ret (Error ("Could not parse: '" ++ e ++ "'")) in
  let resolves_to (d : date) :=
    exists r, resolve e ref = Ret (Resolved r) /\ r_date r = isoformat d /\
              r_days_from_today r = days_between d today in
  (valid_date this_year = false ->
     if fits_c_int (year today) then unrecognized
     else resolve e ref = Raise OverflowError) /\
  (valid_date this_year = true -> date_ltb this_year today = false ->
     resolves_to this_year) /\
  (valid_date this_year = true -> date_ltb this_year today = true ->
     valid_date next_year = true -> resolves_to next_year) /\
  (valid_date this_year = true -> date_ltb this_year today = true ->
     valid_date next_year = false -> unrecognized).
Proof.
  exact (month_day_rolls_to_next_year "march" 3 "15" 15
           (mkDatetime (mkDate 2026 4 1) 9 0 0 0) eq_refl eq_refl (le_n 2)).
Defined.

(** C8, counterexample: on 2024-03-01, "feb 29" has passed and 2025 has
    no Feb 29; the year does not roll forward, the text is reported as
    unrecognized. *)
Lemma feb_29_does_not_roll_forward :
  resolve "feb 29" (mkDatetime (mkDate 2024 3 1) 0 0 0 0)
  = Ret (Error "Could not parse: 'feb 29'").
Proof. vm_compute. reflexivity. Qed.

(** *** Patterns on a text with a run of digits *)

Fixpoint string_forall (f : ascii -> bool) (s : string) : bool :=
  match s with
  | EmptyString => true
  | String c s' => f c && string_forall f s'
  end.

Definition head_fails (f : ascii -> bool) (s : string) : Prop :=
  match s with
  | EmptyString => True
  | String c _ => f c = false
  end.

Lemma rep_stop greedy f lo hi c s k :
  f c = false ->
  rep greedy f lo hi (String c s) k = if Nat.eqb lo 0 then k (String c s) else None.
Proof. intros H. cbn [rep]. rewrite H, andb_false_r. reflexivity. Qed.

Lemma rep_greedy_run f s : forall lo rest k x,
  string_forall f s = true -> (lo <= String.length s)%nat ->
  head_fails f rest -> k rest = Some x ->
  rep true f lo None (s ++ rest) k = Some x.
Proof.
  induction s as [|c s IH]; intros lo rest k x Hs Hlo Hrest Hk.
  - cbn in Hlo. assert (lo = 0%nat) as -> by lia. cbn [append].
    destruct rest as [|c rest]; cbn [rep Nat.eqb]; [exact Hk|].
    cbn in Hrest. rewrite Hrest, andb_false_r. exact Hk.
  - cbn [string_forall] in Hs. apply andb_prop in Hs. destruct Hs as [Hc Hs].
    cbn [append rep allows_more option_map]. rewrite Hc. cbn [andb].
    rewrite (IH (Nat.pred lo) rest k x Hs ltac:(cbn in Hlo; lia) Hrest Hk).
    reflexivity.
Qed.

Lemma consumed_app s rest : consumed (s ++ rest) rest = s.
Proof.
  unfold consumed.
  assert (L : (String.length (s ++ rest) - String.length rest)%nat = String.length s).
  { induction s as [|c s IH]; cbn [append String.length]; [lia|].
    rewrite <- IH. 
    assert (String.length rest <= String.length (s ++ rest))%nat.
    { clear. induction s; cbn [append String.length]; lia. }
    lia. }
  rewrite L. clear L.
  induction s as [|c s IH]; cbn [append String.length substring].
  - destruct rest; reflexivity.
  - rewrite IH. reflexivity.
Qed.

Lemma all_digits_forall s : all_digits s = true -> string_forall is_digit s = true.
Proof. induction s as [|c s IH]; cbn; [reflexivity|]. destruct (is_digit c); cbn; auto. Qed.

Lemma digit_not_space c : is_digit c = true -> is_space c = false.
Proof. destruct c as [[] [] [] [] [] [] [] []]; intros H; try discriminate H; reflexivity. Qed.

Lemma digit_lower c : is_digit c = true -> lower_char c = c.
Proof. destruct c as [[] [] [] [] [] [] [] []]; intros H; try discriminate H; reflexivity. Qed.

Lemma business_re_digits ds :
  ds <> EmptyString -> all_digits ds = true ->
  re_match business_re ("in " ++ ds ++ " business days") = Some ([(1%nat, ds)], "").
Proof.
  intros Hne Hd. destruct ds as [|c ds]; [contradiction|].
  pose proof Hd as Hd'. cbn [all_digits] in Hd'. apply andb_prop in Hd'.
  destruct Hd' as [Hc _].
  unfold re_match, business_re, plus. cbn [seq alt rmatch].
  change (drop_prefix "in" ("in " ++ String c ds ++ " business days"))
    with (Some (" " ++ (String c ds ++ " business days"))).
  cbv beta iota.
  apply rep_greedy_run;
    [reflexivity | cbn; lia | exact (digit_not_space c Hc) |].
  apply rep_greedy_run;
    [exact (all_digits_forall _ Hd) | cbn; lia | reflexivity |].
  rewrite consumed_app. vm_compute. reflexivity.
Qed.

Lemma map_string_app f s t : map_string f (s ++ t) = map_string f s ++ map_string f t.
Proof. induction s as [|c s IH]; cbn [append map_string]; [reflexivity|]. rewrite IH. reflexivity. Qed.

Lemma lower_digits s : all_digits s = true -> lower s = s.
Proof.
  unfold lower. induction s as [|c s IH]; cbn [all_digits map_string]; [reflexivity|].
  intros H. apply andb_prop in H. destruct H as [Hc Hs].
  rewrite (digit_lower c Hc), (IH Hs). reflexivity.
Qed.

Lemma rstrip_app s t :
  rstrip t <> EmptyString -> rstrip (s ++ t) = s ++ rstrip t.
Proof.
  intros H. induction s as [|c s IH]; cbn [append rstrip]; [reflexivity|].
  rewrite IH. destruct (s ++ rstrip t) eqn:E; [|reflexivity].
  destruct s; cbn [append] in E; [contradiction|discriminate].
Qed.

Lemma time_suffixes_needs_space c s :
  is_space c = false -> re_match time_suffixes (String c s) = None.
Proof.
  intros H. unfold re_match, time_suffixes, plus. cbn [seq rmatch].
  rewrite rep_stop by exact H. reflexivity.
Qed.

Lemma re_search_skip r c s :
  re_match r (String c s) = None -> re_search r (String c s) = re_search r s.
Proof. intros H. cbn [re_search]. rewrite H. reflexivity. Qed.

Lemma time_suffixes_skip_digits ds t :
  all_digits ds = true ->
  re_search time_suffixes (ds ++ t) = re_search time_suffixes t.
Proof.
  induction ds as [|c ds IH]; cbn [all_digits append]; [reflexivity|].
  intros H. apply andb_prop in H. destruct H as [Hc Hs].
  rewrite re_search_skip by (apply time_suffixes_needs_space, digit_not_space, Hc).
  exact (IH Hs).
Qed.

Lemma time_suffixes_space_digit c s :
  is_digit c = true -> re_match time_suffixes (String " " (String c s)) = None.
Proof.
  intros H. apply is_digit_chars in H. cbn [In digit_chars] in H.
  repeat (destruct H as [<-|H]; [vm_compute; reflexivity|]). contradiction.
Qed.

Lemma normalize_business ds :
  ds <> EmptyString -> all_digits ds = true ->
  normalize ("in " ++ ds ++ " business days") = ("in " ++ ds ++ " business days", false).
Proof.
  intros Hne Hd. unfold normalize.
  assert (L : lower ("in " ++ ds ++ " business days") = "in " ++ ds ++ " business days").
  { unfold lower. rewrite !map_string_app. fold (lower ds). rewrite (lower_digits _ Hd).
    reflexivity. }
  rewrite L.
  assert (S : strip ("in " ++ ds ++ " business days") = "in " ++ ds ++ " business days").
  { unfold strip. change (lstrip ("in " ++ ds ++ " business days"))
      with ("in " ++ ds ++ " business days").
    rewrite rstrip_app; [rewrite rstrip_app; [reflexivity|discriminate]|].
    rewrite rstrip_app by discriminate. destruct ds; [contradiction|discriminate]. }
  rewrite S.
  assert (N : re_search time_suffixes ("in " ++ ds ++ " business days") = None).
  { destruct ds as [|c ds]; [contradiction|].
    pose proof Hd as Hd'. cbn [all_digits] in Hd'. apply andb_prop in Hd'.
    destruct Hd' as [Hc _].
    change ("in " ++ String c ds ++ " business days")
      with (String "i" (String "n" (String " " (String c ds ++ " business days")))).
    rewrite re_search_skip by (apply time_suffixes_needs_space; reflexivity).
    rewrite re_search_skip by (apply time_suffixes_needs_space; reflexivity).
    rewrite re_search_skip by (exact (time_suffixes_space_digit c _ Hc)).
    rewrite time_suffixes_skip_digits by exact Hd.
    vm_compute. reflexivity. }
  rewrite N. reflexivity.
Qed.

Lemma resolve_business_days ds n ref :
  int ds = Ret n ->
  resolve ("in " ++ ds ++ " business days") ref =
  (p <- business_loop (business_fuel n) n (replace_midnight ref) 0 ;;
   Ret (Resolved (build_result ("in " ++ ds ++ " business days") false
                    (replace_midnight ref) p ("in " ++ str n ++ " business day(s)")))).
Proof.
  intros Hint. pose proof (int_inv _ _ Hint) as (Hne & _ & Hd & _).
  unfold resolve. rewrite (normalize_business _ Hne Hd).
  unfold grammars. cbn [first_match].
  rewrite fixed_phrases_none by (vm_compute; reflexivity). cbn [bind].
  unfold modifier_grammar.
  replace (re_match modifier_re ("in " ++ ds ++ " business days")) with (@None found)
    by (vm_compute; reflexivity).
  unfold no_match at 1. cbn [bind].
  unfold from_now_grammar.
  replace (re_match from_now_re ("in " ++ ds ++ " business days")) with (@None found)
    by (vm_compute; reflexivity).
  unfold no_match at 1. cbn [bind].
  unfold business_grammar. rewrite (business_re_digits _ Hne Hd).
  change (group [(1%nat, ds)] 1) with ds. rewrite Hint. cbn [bind].
  unfold found_as.
  destruct (business_loop (business_fuel n) n (replace_midnight ref) 0); reflexivity.
Qed.

(** Whether the day of ordinal [o] is a Monday..Friday. *)
Definition business_ordinal (o : Z) : bool := (o + 6) mod 7 <? 5.

(** The number of business days among the [j] days after ordinal [o]. *)
Fixpoint business_count (o : Z) (j : nat) : Z :=
  match j with
  | O => 0
  | S j' => business_count o j' + b2z (business_ordinal (o + Z.of_nat j))
  end.

Lemma business_count_shift o j :
  business_count o (S j) = b2z (business_ordinal (o + 1)) + business_count (o + 1) j.
Proof.
  induction j as [|j IH].
  - cbn [business_count]. replace (o + Z.of_nat 1) with (o + 1) by lia. lia.
  - cbn [business_count] in *. rewrite IH.
    replace (o + 1 + Z.of_nat (S j)) with (o + Z.of_nat (S (S j))) by lia. lia.
Qed.

Lemma business_count_step o j :
  business_count o j <= business_count o (S j) <= business_count o j + 1.
Proof. cbn [business_count]. unfold b2z. destruct (business_ordinal _); lia. Qed.



Lemma plus_one_day d :
  plus_days d 1 = add_delta d 1.
Proof. apply plus_days_small. lia. Qed.

Lemma weekday_business d :
  valid_date (dt_date d) = true ->
  (weekday d <? 5) = business_ordinal (toordinal (dt_date d)).
Proof. reflexivity. Qed.

Lemma business_loop_spec fuel count : forall d added,
  valid_date (dt_date d) = true -> added <= count ->
  let o := toordinal (dt_date d) in
  match business_loop fuel count d added with
  | Ret d' =>
      exists j : nat,
        dt_date d' = fromordinal (o + Z.of_nat j) /\
        o + Z.of_nat j <= MAXORDINAL /\
        added + business_count o j = count /\
        (added = count -> j = 0%nat) /\
        (added < count -> (1 <= j)%nat /\ business_ordinal (o + Z.of_nat j) = true)
  | Raise e =>
      e = OverflowError /\
      added + business_count o (Z.to_nat (MAXORDINAL - o)) < count
  | OutOfFuel => True
  end.
Proof.
  induction fuel as [|fuel IH]; intros d added V Hle o;
    pose proof (toordinal_range _ V) as Ho; fold o in Ho.
  - cbn [business_loop]. destruct (Z.ltb_spec added count); [exact I|].
    exists 0%nat. rewrite Z.add_0_r. unfold o. rewrite fromordinal_toordinal by exact V.
    cbn [business_count]. repeat split; lia.
  - cbn [business_loop]. destruct (Z.ltb_spec added count) as [Hlt|Hge].
    2:{ exists 0%nat. rewrite Z.add_0_r. unfold o. rewrite fromordinal_toordinal by exact V.
        cbn [business_count]. repeat split; lia. }
    rewrite plus_one_day.
    destruct (Z.le_gt_cases (o + 1) MAXORDINAL) as [Hin|Hout].
    + rewrite add_delta_ret by (fold o; lia). cbn [bind].
      set (d1 := mkDatetime (fromordinal (toordinal (dt_date d) + 1))
                   (hour d) (minute d) (second d) (microsecond d)).
      destruct (ord2ymd_correct (o + 1) ltac:(lia)) as [V1 O1].
      assert (Vd1 : valid_date (dt_date d1) = true) by exact V1.
      assert (Od1 : toordinal (dt_date d1) = o + 1) by exact O1.
      rewrite (weekday_business d1 Vd1), Od1.
      set (added' := if business_ordinal (o + 1) then added + 1 else added).
      assert (Ha' : added' = added + b2z (business_ordinal (o + 1)))
        by (unfold added', b2z; destruct (business_ordinal (o + 1)); lia).
      assert (Hle' : added' <= count)
        by (rewrite Ha'; unfold b2z; destruct (business_ordinal (o + 1)); lia).
      specialize (IH d1 added' Vd1 Hle'). cbv zeta in IH. rewrite Od1 in IH.
      destruct (business_loop fuel count d1 added') as [d'|e|]; [| |exact I].
      * destruct IH as (j & Hd' & Hmax & Hc & Hz & Hp).
        exists (S j). rewrite business_count_shift.
        replace (o + Z.of_nat (S j)) with (o + 1 + Z.of_nat j) by lia.
        split; [exact Hd'|]. split; [exact Hmax|]. split; [lia|].
        split; [lia|]. intros _. split; [lia|].
        destruct (Z.eq_dec added' count) as [E|NE].
        -- rewrite (Hz E). rewrite Z.add_0_r.
           destruct (business_ordinal (o + 1)); [reflexivity|]. cbn [b2z] in Ha'. lia.
        -- apply Hp. lia.
      * destruct IH as [-> Hc]. split; [reflexivity|].
        replace (Z.to_nat (MAXORDINAL - o)) with (S (Z.to_nat (MAXORDINAL - (o + 1)))) by lia.
        rewrite business_count_shift. lia.
    + rewrite add_delta_raise by (fold o; lia). cbn [bind].
      split; [reflexivity|].
      replace (Z.to_nat (MAXORDINAL - o)) with 0%nat by lia. cbn [business_count]. lia.
Qed.

Lemma add_delta_not_out_of_fuel d k : add_delta d k <> OutOfFuel.
Proof. unfold add_delta. destruct (_ && _); discriminate. Qed.

Lemma business_loop_done fuel count d added :
  count <= added -> business_loop fuel count d added = Ret d.
Proof.
  intros H. destruct fuel; cbn [business_loop];
    destruct (Z.ltb_spec added count); try lia; reflexivity.
Qed.

Lemma business_loop_step fuel count d added :
  added < count ->
  business_loop (S fuel) count d added =
  (d' <- add_delta d 1 ;;
   business_loop fuel count d' (if weekday d' <? 5 then added + 1 else added)).
Proof.
  intros H. cbn [business_loop]. destruct (Z.ltb_spec added count); [|lia].
  rewrite plus_one_day. reflexivity.
Qed.

Lemma business_loop_fuel rem : forall fuel count d added,
  count - added <= Z.of_nat rem -> (3 * rem <= fuel)%nat ->
  business_loop fuel count d added <> OutOfFuel.
Proof.
  induction rem as [|rem IH]; intros fuel count d added Hrem Hfuel.
  - rewrite business_loop_done by lia. discriminate.
  - destruct (Z.le_gt_cases count added) as [Hdone|Hlt].
    { rewrite business_loop_done by lia. discriminate. }
    destruct fuel as [|[|[|fuel]]]; try lia.
    rewrite business_loop_step by lia.
    destruct (add_delta d 1) as [d1|e|] eqn:E1; cbn [bind];
      [|discriminate|destruct (add_delta_not_out_of_fuel _ _ E1)].
    apply add_delta_inv in E1. destruct E1 as (_ & _ & O1 & _).
    destruct (Z.ltb_spec (weekday d1) 5) as [W1|W1].
    { apply IH; lia. }
    rewrite business_loop_step by lia.
    destruct (add_delta d1 1) as [d2|e|] eqn:E2; cbn [bind];
      [|discriminate|destruct (add_delta_not_out_of_fuel _ _ E2)].
    apply add_delta_inv in E2. destruct E2 as (_ & _ & O2 & _).
    destruct (Z.ltb_spec (weekday d2) 5) as [W2|W2].
    { apply IH; lia. }
    rewrite business_loop_step by lia.
    destruct (add_delta d2 1) as [d3|e|] eqn:E3; cbn [bind];
      [|discriminate|destruct (add_delta_not_out_of_fuel _ _ E3)].
    apply add_delta_inv in E3. destruct E3 as (_ & _ & O3 & _).
    destruct (Z.ltb_spec (weekday d3) 5) as [W3|W3].
    { apply IH; lia. }
    exfalso. unfold weekday, date_weekday in W1, W2, W3.
    rewrite O3, O2 in W3. rewrite O2 in W2.
    revert W1 W2 W3. generalize (toordinal (dt_date d1)). intros o W1 W2 W3.
    Z.div_mod_to_equations. lia.
Qed.

Lemma business_ordinal_offset o i :
  business_ordinal (o + i) = (((o + 6) mod 7 + i) mod 7 <? 5).
Proof.
  unfold business_ordinal. replace (o + i + 6) with (o + 6 + i) by lia.
  rewrite Z.add_mod_idemp_l by lia. reflexivity.
Qed.





(** *** Phrases that land a fixed number of days away *)

(** [res] is the resolution to the day [k] days from the reference day
    when that day is a date, and the overflow of the addition otherwise. *)
Definition lands (res : outcome response) (ref : datetime) (k : Z) : Prop :=
  let o := toordinal (dt_date ref) in
  if (1 <=? o + k) && (o + k <=? MAXORDINAL)
  then exists r, res = Ret (Resolved r) /\
                 r_date r = isoformat (fromordinal (o + k)) /\
                 r_day_of_week r = day_name (fromordinal (o + k)) /\
                 r_days_from_today r = k
  else res = Raise OverflowError.

Lemma lands_add_delta expression suffix ref k desc :
  lands (p <- add_delta (replace_midnight ref) k ;;
         Ret (Resolved (build_result expression suffix (replace_midnight ref) p desc)))
        ref k.
Proof.
  unfold lands. cbv zeta.
  destruct (Z.leb_spec 1 (toordinal (dt_date ref) + k));
  destruct (Z.leb_spec (toordinal (dt_date ref) + k) MAXORDINAL); cbn [andb].
  - rewrite add_delta_ret by (cbn; lia). cbn [bind].
    eexists. split; [reflexivity|]. unfold build_result.
    cbn [r_date r_day_of_week r_days_from_today dt_date replace_midnight].
    split; [reflexivity|]. split; [reflexivity|].
    unfold days_between, fromordinal.
    destruct (ord2ymd_correct (toordinal (dt_date ref) + k) ltac:(lia)) as [_ ->]. lia.
  - rewrite add_delta_raise by (cbn; lia). reflexivity.
  - rewrite add_delta_raise by (cbn; lia). reflexivity.
  - rewrite add_delta_raise by (cbn; lia). reflexivity.
Qed.

Lemma minus_days_small t k :
  -999999999 <= k <= 999999999 -> minus_days t k = add_delta t (- k).
Proof. intros H. unfold minus_days. rewrite timedelta_days_small by exact H. reflexivity. Qed.

Lemma lands_plus_days expression suffix ref k desc unparsed :
  -999999999 <= k <= 999999999 ->
  lands (found <- found_as desc (plus_days (replace_midnight ref) k) ;;
         match found with
         | None => unparsed
         | Some (p, d) =>
             Ret (Resolved (build_result expression suffix (replace_midnight ref) p d))
         end) ref k.
Proof.
  intros H. rewrite plus_days_small by exact H.
  pose proof (lands_add_delta expression suffix ref k desc) as L.
  unfold found_as. destruct (add_delta (replace_midnight ref) k); exact L.
Qed.

Lemma lands_minus_days expression suffix ref k desc unparsed :
  -999999999 <= k <= 999999999 ->
  lands (found <- found_as desc (minus_days (replace_midnight ref) k) ;;
         match found with
         | None => unparsed
         | Some (p, d) =>
             Ret (Resolved (build_result expression suffix (replace_midnight ref) p d))
         end) ref (- k).
Proof.
  intros H. rewrite minus_days_small by exact H.
  pose proof (lands_add_delta expression suffix ref (- k) desc) as L.
  unfold found_as. destruct (add_delta (replace_midnight ref) (- k)); exact L.
Qed.

(** The chain on a given text, up to the grammar that takes it. *)
Ltac run_chain :=
  unfold resolve; eval_text; cbv beta iota zeta; unfold grammars; cbn [first_match];
  unfold fixed_phrases; repeat (progress (eval_text; cbv beta iota zeta));
  unfold no_match; cbn [bind];
  try (unfold modifier_grammar; repeat (progress (eval_text; cbv beta iota zeta));
       unfold no_match; cbn [bind]);
  try (unfold from_now_grammar; repeat (progress (eval_text; cbv beta iota zeta));
       unfold no_match; cbn [bind]);
  try (unfold business_grammar; repeat (progress (eval_text; cbv beta iota zeta));
       unfold no_match; cbn [bind]);
  try (unfold in_units_grammar; repeat (progress (eval_text; cbv beta iota zeta));
       unfold no_match; cbn [bind]);
  try (unfold ago_grammar; repeat (progress (eval_text; cbv beta iota zeta));
       unfold no_match; cbn [bind]);
  try (unfold a_unit_grammar; repeat (progress (eval_text; cbv beta iota zeta));
       unfold no_match; cbn [bind]);
  try (unfold next_business_day_grammar; repeat (progress (eval_text; cbv beta iota zeta));
       unfold no_match; cbn [bind]);
  try (unfold bare_weekday_grammar; repeat (progress (eval_text; cbv beta iota zeta));
       unfold no_match; cbn [bind]).

Lemma found_as_first desc (m : outcome datetime) (rest : outcome parsed) :
  (r <- found_as desc m ;;
   match r with
   | Some found => Ret (Some found)
   | None => rest
   end) = found_as desc m.
Proof. unfold found_as. destruct m; reflexivity. Qed.

Lemma lands_today expression suffix ref desc unparsed :
  valid_datetime ref = true ->
  lands (found <- found_as desc (Ret (replace_midnight ref)) ;;
         match found with
         | None => unparsed
         | Some (p, d) =>
             Ret (Resolved (build_result expression suffix (replace_midnight ref) p d))
         end) ref 0.
Proof.
  intros V. apply valid_datetime_date in V.
  pose proof (toordinal_range _ V) as R.
  unfold lands. cbv zeta. rewrite Z.add_0_r.
  destruct (Z.leb_spec 1 (toordinal (dt_date ref))); [|lia].
  destruct (Z.leb_spec (toordinal (dt_date ref)) MAXORDINAL); [|lia].
  cbn [andb found_as bind]. eexists. split; [reflexivity|].
  unfold build_result.
  cbn [r_date r_day_of_week r_days_from_today dt_date replace_midnight].
  rewrite fromordinal_toordinal by exact V. unfold days_between.
  repeat split; lia.
Qed.

(** X1. From any reference date, "today" and "now" resolve to the
    reference day, "tomorrow" and "yesterday" to the day after and before
    it, and "day after tomorrow" and "day before yesterday" to the days two
    away, with [days_from_today] 0, 1, -1, 2 and -2; at the ends of the
    date range the addition raises [OverflowError] instead. *)
Theorem fixed_day_words ref :
  valid_datetime ref = true ->
  lands (resolve "today" ref) ref 0 /\
  lands (resolve "now" ref) ref 0 /\
  lands (resolve "tomorrow" ref) ref 1 /\
  lands (resolve "yesterday" ref) ref (-1) /\
  lands (resolve "day after tomorrow" ref) ref 2 /\
  lands (resolve "day before yesterday" ref) ref (-2).
Proof.
  intros V. repeat split; run_chain; rewrite found_as_first.
  - exact (lands_today _ _ _ _ _ V).
  - exact (lands_today _ _ _ _ _ V).
  - apply lands_plus_days. lia.
  - apply (lands_minus_days _ _ _ 1). lia.
  - apply lands_plus_days. lia.
  - apply (lands_minus_days _ _ _ 2). lia.
Qed.

Lemma fixed_day_words_witness :
  let ref := mkDatetime (mkDate 2026 2 8) 9 0 0 0 in
  lands (resolve "today" ref) ref 0 /\
  lands (resolve "now" ref) ref 0 /\
  lands (resolve "tomorrow" ref) ref 1 /\
  lands (resolve "yesterday" ref) ref (-1) /\
  lands (resolve "day after tomorrow" ref) ref 2 /\
  lands (resolve "day before yesterday" ref) ref (-2).
Proof. exact (fixed_day_words (mkDatetime (mkDate 2026 2 8) 9 0 0 0) eq_refl). Defined.

Lemma plus_days_valid_ref t k :
  valid_date (dt_date t) = true -> plus_days t k = add_delta t k.
Proof.
  intros V. pose proof (toordinal_range _ V) as R. unfold MAXORDINAL in R.
  unfold plus_days, timedelta_days.
  destruct (Z.leb_spec (-999999999) k); destruct (Z.leb_spec k 999999999); cbn [andb bind];
    try reflexivity; symmetry; apply add_delta_raise; unfold MAXORDINAL; lia.
Qed.

Lemma minus_days_valid_ref t k :
  valid_date (dt_date t) = true -> minus_days t k = add_delta t (- k).
Proof.
  intros V. pose proof (toordinal_range _ V) as R. unfold MAXORDINAL in R.
  unfold minus_days, timedelta_days.
  destruct (Z.leb_spec (-999999999) k); destruct (Z.leb_spec k 999999999); cbn [andb bind];
    try reflexivity; symmetry; apply add_delta_raise; unfold MAXORDINAL; lia.
Qed.

Lemma plus_weeks_valid_ref t n :
  valid_date (dt_date t) = true -> plus_weeks t n = add_delta t (7 * n).
Proof.
  intros V. pose proof (toordinal_range _ V) as R. unfold MAXORDINAL in R.
  unfold plus_weeks, timedelta_weeks, timedelta_days.
  destruct (Z.leb_spec (-999999999) (7 * n)); destruct (Z.leb_spec (7 * n) 999999999);
    cbn [andb bind]; try reflexivity; symmetry; apply add_delta_raise; unfold MAXORDINAL; lia.
Qed.

Lemma minus_weeks_valid_ref t n :
  valid_date (dt_date t) = true -> minus_weeks t n = add_delta t (- (7 * n)).
Proof.
  intros V. pose proof (toordinal_range _ V) as R. unfold MAXORDINAL in R.
  unfold minus_weeks, timedelta_weeks, timedelta_days.
  destruct (Z.leb_spec (-999999999) (7 * n)); destruct (Z.leb_spec (7 * n) 999999999);
    cbn [andb bind]; try reflexivity; symmetry; apply add_delta_raise; unfold MAXORDINAL; lia.
Qed.

(** A parsed day that is an offset from today, whatever follows in the
    chain. *)
Lemma lands_offset expression suffix ref k desc (m : outcome datetime) unparsed :
  m = add_delta (replace_midnight ref) k ->
  lands (found <- found_as desc m ;;
         match found with
         | None => unparsed
         | Some (p, d) =>
             Ret (Resolved (build_result expression suffix (replace_midnight ref) p d))
         end) ref k.
Proof.
  intros ->. pose proof (lands_add_delta expression suffix ref k desc) as L.
  unfold found_as. destruct (add_delta (replace_midnight ref) k); exact L.
Qed.

Lemma prev_offset wd w :
  0 <= wd < 7 -> 0 <= w < 7 ->
  (if w - wd <=? 0 then w - wd + 7 else w - wd) = (w - wd - 1) mod 7 + 1.
Proof.
  intros Hwd Hw. destruct (Z.leb_spec (w - wd) 0).
  - rewrite <- (Z.mod_unique (w - wd - 1) 7 (-1) (w - wd - 1 + 7)); lia.
  - rewrite <- (Z.mod_unique (w - wd - 1) 7 0 (w - wd - 1)); lia.
Qed.

Lemma next_weekday_offset name wd ref weeks :
  In (name, wd) WEEKDAYS -> valid_datetime ref = true ->
  _next_weekday wd (replace_midnight ref) weeks =
  add_delta (replace_midnight ref)
    ((wd - date_weekday (dt_date ref) - 1) mod 7 + 1 + weeks * 7).
Proof.
  intros Hn V. unfold _next_weekday.
  rewrite plus_days_valid_ref by exact (valid_datetime_date _ V).
  change (weekday (replace_midnight ref)) with (date_weekday (dt_date ref)).
  rewrite next_offset; [reflexivity|exact (weekday_table_range _ _ Hn)|].
  unfold date_weekday. apply Z.mod_pos_bound. lia.
Qed.

Lemma prev_weekday_offset name wd ref weeks :
  In (name, wd) WEEKDAYS -> valid_datetime ref = true ->
  _prev_weekday wd (replace_midnight ref) weeks =
  add_delta (replace_midnight ref)
    (- ((date_weekday (dt_date ref) - wd - 1) mod 7 + 1 + weeks * 7)).
Proof.
  intros Hn V. unfold _prev_weekday.
  rewrite minus_days_valid_ref by exact (valid_datetime_date _ V).
  change (weekday (replace_midnight ref)) with (date_weekday (dt_date ref)).
  rewrite prev_offset; [reflexivity|exact (weekday_table_range _ _ Hn)|].
  unfold date_weekday. apply Z.mod_pos_bound. lia.
Qed.

Ltac each_weekday H tac :=
  cbn [In WEEKDAYS] in H;
  repeat (destruct H as [[= <- <-]|H]; [tac|]); [contradiction].

(** X3. For every key of [WEEKDAYS], "last <name>" and "previous
    <name>" resolve to the day [k] days back with [1 <= k <= 7]: the most
    recent day of that weekday strictly before the reference day (one
    week back when the reference day is that weekday), or [OverflowError]
    when that day is before the first date. *)
Theorem last_weekday_strictly_before name wd ref :
  lookup name WEEKDAYS = Some wd ->
  valid_datetime ref = true ->
  let k := (date_weekday (dt_date ref) - wd - 1) mod 7 + 1 in
  1 <= k <= 7 /\
  (toordinal (dt_date ref) - k + 6) mod 7 = wd /\
  lands (resolve ("last " ++ name) ref) ref (- k) /\
  lands (resolve ("previous " ++ name) ref) ref (- k).
Proof.
  intros Hname V k. apply weekday_table in Hname.
  pose proof (weekday_table_range _ _ Hname) as Hwd.
  pose proof (prev_weekday_offset _ _ ref 0 Hname V) as P.
  rewrite Z.mul_0_l, Z.add_0_r in P. fold k in P.
  split. { unfold k. pose proof (Z.mod_pos_bound (date_weekday (dt_date ref) - wd - 1) 7). lia. }
  split.
  { unfold k, date_weekday. set (o := toordinal (dt_date ref)).
    symmetry.
    apply (Z.mod_unique _ 7 ((o + 6) / 7 + ((o + 6) mod 7 - wd - 1) / 7) wd); [lia|].
    pose proof (Z.div_mod (o + 6) 7 ltac:(lia)).
    pose proof (Z.div_mod ((o + 6) mod 7 - wd - 1) 7 ltac:(lia)).
    lia. }
  revert P. generalize k. intros k' P.
  split.
  - each_weekday Hname ltac:(run_chain; rewrite found_as_first; apply lands_offset; exact P).
  - each_weekday Hname ltac:(run_chain; rewrite found_as_first; apply lands_offset; exact P).
Qed.

Lemma last_weekday_strictly_before_witness :
  let ref := mkDatetime (mkDate 2026 2 8) 9 0 0 0 in
  let k := (date_weekday (dt_date ref) - 4 - 1) mod 7 + 1 in
  1 <= k <= 7 /\
  (toordinal (dt_date ref) - k + 6) mod 7 = 4 /\
  lands (resolve ("last " ++ "friday") ref) ref (- k) /\
  lands (resolve ("previous " ++ "friday") ref) ref (- k).
Proof.
  exact (last_weekday_strictly_before "friday" 4 (mkDatetime (mkDate 2026 2 8) 9 0 0 0) eq_refl eq_refl).
Defined.

(** X2. For every key of [WEEKDAYS], "this <name>" and the bare
    "<name>" resolve exactly as "next <name>" does: to the day [k] days
    ahead with [1 <= k <= 7], never to the reference day itself. *)
Theorem this_and_bare_weekday_mean_next name wd ref :
  lookup name WEEKDAYS = Some wd ->
  valid_datetime ref = true ->
  let k := (wd - date_weekday (dt_date ref) - 1) mod 7 + 1 in
  1 <= k <= 7 /\
  lands (resolve ("next " ++ name) ref) ref k /\
  lands (resolve ("this " ++ name) ref) ref k /\
  lands (resolve name ref) ref k.
Proof.
  intros Hname V k. apply weekday_table in Hname.
  pose proof (next_weekday_offset _ _ ref 0 Hname V) as P.
  rewrite Z.mul_0_l, Z.add_0_r in P. fold k in P.
  split. { unfold k. pose proof (Z.mod_pos_bound (wd - date_weekday (dt_date ref) - 1) 7). lia. }
  revert P. generalize k. intros k' P.
  split; [|split].
  - each_weekday Hname ltac:(run_chain; rewrite found_as_first; apply lands_offset; exact P).
  - each_weekday Hname ltac:(run_chain; rewrite found_as_first; apply lands_offset; exact P).
  - each_weekday Hname ltac:(run_chain; rewrite found_as_first; apply lands_offset; exact P).
Qed.

Lemma this_and_bare_weekday_mean_next_witness :
  let ref := mkDatetime (mkDate 2026 2 8) 9 0 0 0 in
  let k := (1 - date_weekday (dt_date ref) - 1) mod 7 + 1 in
  1 <= k <= 7 /\
  lands (resolve ("next " ++ "tues") ref) ref k /\
  lands (resolve ("this " ++ "tues") ref) ref k /\
  lands (resolve "tues" ref) ref k.
Proof.
  exact (this_and_bare_weekday_mean_next "tues" 1 (mkDatetime (mkDate 2026 2 8) 9 0 0 0) eq_refl eq_refl).
Defined.

(** X4. "next week", "start of next week" and "beginning of next
    week" resolve to the first Monday strictly after the reference day;
    "last week" and "previous week" resolve to the Monday of the week
    before the reference day's week. *)
Theorem next_and_last_week_are_mondays ref :
  valid_datetime ref = true ->
  let o := toordinal (dt_date ref) in
  let w := date_weekday (dt_date ref) in
  (o + (7 - w) + 6) mod 7 = 0 /\
  (o - (w + 7) + 6) mod 7 = 0 /\
  1 <= 7 - w <= 7 /\
  lands (resolve "next week" ref) ref (7 - w) /\
  lands (resolve "start of next week" ref) ref (7 - w) /\
  lands (resolve "beginning of next week" ref) ref (7 - w) /\
  lands (resolve "last week" ref) ref (- (w + 7)) /\
  lands (resolve "previous week" ref) ref (- (w + 7)).
Proof.
  intros V o w.
  pose proof (valid_datetime_date _ V) as Vd.
  assert (Hw : 0 <= w < 7) by (unfold w, date_weekday; apply Z.mod_pos_bound; lia).
  assert (Hmod : forall x, (o + x + 6) mod 7 = (w + x) mod 7).
  { intros x. unfold w, date_weekday. fold o.
    replace (o + x + 6) with (o + 6 + x) by lia.
    rewrite <- (Z.add_mod_idemp_l (o + 6)) by lia. reflexivity. }
  split. { rewrite Hmod. replace (w + (7 - w)) with (1 * 7) by lia. apply Z.mod_mul. lia. }
  split. { replace (o - (w + 7)) with (o + (- (w + 7))) by lia. rewrite Hmod.
           replace (w + - (w + 7)) with (-1 * 7) by lia. apply Z.mod_mul. lia. }
  split; [lia|].
  assert (Pn : plus_days (replace_midnight ref) (7 - weekday (replace_midnight ref))
               = add_delta (replace_midnight ref) (7 - w))
    by (apply plus_days_valid_ref; exact Vd).
  assert (Pl : minus_days (replace_midnight ref) (weekday (replace_midnight ref) + 7)
               = add_delta (replace_midnight ref) (- (w + 7)))
    by (apply minus_days_valid_ref; exact Vd).
  revert Pn Pl. generalize (7 - w) (- (w + 7)). intros a b Pn Pl.
  repeat split; run_chain; rewrite found_as_first; apply lands_offset; assumption.
Qed.

Lemma next_and_last_week_are_mondays_witness :
  let ref := mkDatetime (mkDate 2026 2 8) 9 0 0 0 in
  let o := toordinal (dt_date ref) in
  let w := date_weekday (dt_date ref) in
  (o + (7 - w) + 6) mod 7 = 0 /\
  (o - (w + 7) + 6) mod 7 = 0 /\
  1 <= 7 - w <= 7 /\
  lands (resolve "next week" ref) ref (7 - w) /\
  lands (resolve "start of next week" ref) ref (7 - w) /\
  lands (resolve "beginning of next week" ref) ref (7 - w) /\
  lands (resolve "last week" ref) ref (- (w + 7)) /\
  lands (resolve "previous week" ref) ref (- (w + 7)).
Proof. exact (next_and_last_week_are_mondays (mkDatetime (mkDate 2026 2 8) 9 0 0 0) eq_refl). Defined.

Lemma weekend_loop_step fuel d :
  5 <= weekday d ->
  weekend_loop (S fuel) d = (d' <- plus_days d 1 ;; weekend_loop fuel d').
Proof.
  intros H. cbn [weekend_loop]. destruct (Z.leb_spec 5 (weekday d)); [reflexivity|lia].
Qed.

Lemma weekend_loop_done fuel d : weekday d < 5 -> weekend_loop fuel d = Ret d.
Proof.
  intros H. destruct fuel; cbn [weekend_loop];
    destruct (Z.leb_spec 5 (weekday d)); try lia; reflexivity.
Qed.

(** The days to the next Monday..Friday, by the weekday of today. *)
Definition to_next_business_day (w : Z) : Z :=
  if w =? 4 then 3 else if w =? 5 then 2 else 1.

Lemma add_delta_twice t a b t1 :
  add_delta t a = Ret t1 -> add_delta t1 b = add_delta t (a + b).
Proof.
  intros H. apply add_delta_inv in H.
  destruct H as (_ & _ & O & _ & Hh & Hm & Hs & Hu).
  unfold add_delta. rewrite O, Hh, Hm, Hs, Hu. rewrite Z.add_assoc. reflexivity.
Qed.

Lemma add_delta_raise_later t a b e :
  valid_date (dt_date t) = true -> add_delta t a = Raise e -> 0 <= a <= b ->
  add_delta t b = Raise e.
Proof.
  intros V H Hab. pose proof (toordinal_range _ V) as R.
  destruct (Z.le_gt_cases (toordinal (dt_date t) + a) MAXORDINAL) as [L|L].
  - rewrite add_delta_ret in H by lia. discriminate.
  - rewrite add_delta_raise in H by lia. injection H as <-.
    apply add_delta_raise. lia.
Qed.

Lemma next_business_day_offset t :
  valid_date (dt_date t) = true ->
  (d <- plus_days t 1 ;; weekend_loop 2 d)
  = add_delta t (to_next_business_day (weekday t)).
Proof.
  intros V. pose proof (toordinal_range _ V) as R.
  rewrite plus_days_valid_ref by exact V.
  assert (Hw : 0 <= weekday t < 7) by apply weekday_range.
  assert (W : forall x t', add_delta t x = Ret t' -> weekday t' = (weekday t + x) mod 7).
  { intros x t' H. apply add_delta_inv in H. destruct H as (_ & _ & O & _).
    unfold weekday, date_weekday. rewrite O.
    replace (toordinal (dt_date t) + x + 6) with (toordinal (dt_date t) + 6 + x) by lia.
    rewrite <- (Z.add_mod_idemp_l (toordinal (dt_date t) + 6)) by lia. reflexivity. }
  assert (Vn : forall x t', add_delta t x = Ret t' -> valid_date (dt_date t') = true).
  { intros x t' H. apply add_delta_inv in H. tauto. }
  unfold to_next_business_day.
  destruct (Z.eqb_spec (weekday t) 4) as [F|NF];
    [|destruct (Z.eqb_spec (weekday t) 5) as [S|NS]].
  - (* Friday: Saturday and Sunday are stepped over *)
    change 3 with (1 + 1 + 1).
    destruct (add_delta t 1) as [d1|e|] eqn:E1; cbn [bind];
      [|symmetry; apply (add_delta_raise_later _ _ _ _ V E1); lia
       |destruct (add_delta_not_out_of_fuel _ _ E1)].
    rewrite weekend_loop_step by (rewrite (W _ _ E1), F; cbn; lia).
    rewrite plus_days_valid_ref by exact (Vn _ _ E1).
    rewrite (add_delta_twice _ _ _ _ E1).
    destruct (add_delta t (1 + 1)) as [d2|e|] eqn:E2; cbn [bind];
      [|symmetry; apply (add_delta_raise_later _ _ _ _ V E2); lia
       |destruct (add_delta_not_out_of_fuel _ _ E2)].
    rewrite weekend_loop_step by (rewrite (W _ _ E2), F; cbn; lia).
    rewrite plus_days_valid_ref by exact (Vn _ _ E2).
    rewrite (add_delta_twice _ _ _ _ E2).
    destruct (add_delta t (1 + 1 + 1)) as [d3|e|] eqn:E3; cbn [bind]; try reflexivity.
    apply weekend_loop_done. rewrite (W _ _ E3), F. cbn. lia.
  - (* Saturday: Sunday is stepped over *)
    change 2 with (1 + 1).
    destruct (add_delta t 1) as [d1|e|] eqn:E1; cbn [bind];
      [|symmetry; apply (add_delta_raise_later _ _ _ _ V E1); lia
       |destruct (add_delta_not_out_of_fuel _ _ E1)].
    rewrite weekend_loop_step by (rewrite (W _ _ E1), S; cbn; lia).
    rewrite plus_days_valid_ref by exact (Vn _ _ E1).
    rewrite (add_delta_twice _ _ _ _ E1).
    destruct (add_delta t (1 + 1)) as [d2|e|] eqn:E2; cbn [bind]; try reflexivity.
    apply weekend_loop_done. rewrite (W _ _ E2), S. cbn. lia.
  - destruct (add_delta t 1) as [d1|e|] eqn:E1; cbn [bind]; try reflexivity.
    apply weekend_loop_done. rewrite (W _ _ E1).
    assert (weekday t = 0 \/ weekday t = 1 \/ weekday t = 2 \/ weekday t = 3
            \/ weekday t = 6) as [->|[->|[->|[->| ->]]]] by lia; cbn; lia.
Qed.

(** X5. "next weekday", "next business day" and "next workday"
    resolve to the first Monday-to-Friday day strictly after the reference
    day: three days ahead on a Friday, two on a Saturday, one otherwise,
    and every day skipped is a Saturday or a Sunday. *)
Theorem next_business_day_skips_the_weekend ref :
  valid_datetime ref = true ->
  let o := toordinal (dt_date ref) in
  let k := to_next_business_day (date_weekday (dt_date ref)) in
  1 <= k <= 3 /\
  (o + k + 6) mod 7 < 5 /\
  (forall i, 1 <= i < k -> 5 <= (o + i + 6) mod 7) /\
  lands (resolve "next weekday" ref) ref k /\
  lands (resolve "next business day" ref) ref k /\
  lands (resolve "next workday" ref) ref k.
Proof.
  intros V o k. pose proof (valid_datetime_date _ V) as Vd.
  pose proof (next_business_day_offset (replace_midnight ref) Vd) as P.
  change (weekday (replace_midnight ref)) with (date_weekday (dt_date ref)) in P.
  fold k in P.
  assert (Hw : 0 <= date_weekday (dt_date ref) < 7)
    by (unfold date_weekday; apply Z.mod_pos_bound; lia).
  assert (Hmod : forall x, (o + x + 6) mod 7 = (date_weekday (dt_date ref) + x) mod 7).
  { intros x. unfold date_weekday. fold o.
    replace (o + x + 6) with (o + 6 + x) by lia.
    rewrite <- (Z.add_mod_idemp_l (o + 6)) by lia. reflexivity. }
  assert (Hk : 1 <= k <= 3)
    by (unfold k, to_next_business_day;
        destruct (_ =? 4); [|destruct (_ =? 5)]; lia).
  split; [exact Hk|]. split.
  { rewrite Hmod. unfold k, to_next_business_day.
    destruct (Z.eqb_spec (date_weekday (dt_date ref)) 4) as [->|];
      [reflexivity|destruct (Z.eqb_spec (date_weekday (dt_date ref)) 5) as [->|]];
      [reflexivity|].
    assert (date_weekday (dt_date ref) = 0 \/ date_weekday (dt_date ref) = 1 \/
            date_weekday (dt_date ref) = 2 \/ date_weekday (dt_date ref) = 3 \/
            date_weekday (dt_date ref) = 6) as [->|[->|[->|[->| ->]]]] by lia;
      cbn; lia. }
  split.
  { intros i Hi. rewrite Hmod. unfold k, to_next_business_day in Hi.
    destruct (Z.eqb_spec (date_weekday (dt_date ref)) 4) as [E|];
      [|destruct (Z.eqb_spec (date_weekday (dt_date ref)) 5) as [E|]]; try lia.
    - rewrite E. assert (i = 1 \/ i = 2) as [->| ->] by lia; cbn; lia.
    - rewrite E. assert (i = 1) as -> by lia. cbn. lia. }
  revert P. generalize k. intros k' P.
  repeat split; run_chain; rewrite found_as_first; apply lands_offset; exact P.
Qed.

Lemma next_business_day_skips_the_weekend_witness :
  let ref := mkDatetime (mkDate 2026 2 6) 17 30 0 0 in
  let o := toordinal (dt_date ref) in
  let k := to_next_business_day (date_weekday (dt_date ref)) in
  1 <= k <= 3 /\
  (o + k + 6) mod 7 < 5 /\
  (forall i, 1 <= i < k -> 5 <= (o + i + 6) mod 7) /\
  lands (resolve "next weekday" ref) ref k /\
  lands (resolve "next business day" ref) ref k /\
  lands (resolve "next workday" ref) ref k.
Proof.
  exact (next_business_day_skips_the_weekend (mkDatetime (mkDate 2026 2 6) 17 30 0 0) eq_refl).
Defined.

(** *** Phrases that name a calendar date *)

(** [res] is the resolution to the calendar date [d]. *)
Definition gives (res : outcome response) (ref : datetime) (d : date) : Prop :=
  exists r, res = Ret (Resolved r) /\
            r_date r = isoformat d /\
            r_day_of_week r = day_name d /\
            r_days_from_today r = days_between d (dt_date ref).

Lemma gives_parsed expression suffix ref desc (m : outcome datetime) p unparsed :
  m = Ret p ->
  gives (found <- found_as desc m ;;
         match found with
         | None => unparsed
         | Some (q, d) =>
             Ret (Resolved (build_result expression suffix (replace_midnight ref) q d))
         end) ref (dt_date p).
Proof.
  intros ->. cbn [found_as bind]. eexists. split; [reflexivity|].
  unfold build_result. cbn. repeat split.
Qed.

Lemma raises_parsed expression suffix ref desc (m : outcome datetime) e unparsed :
  m = Raise e ->
  (found <- found_as desc m ;;
   match found with
   | None => unparsed
   | Some (q, d) =>
       Ret (Resolved (build_result expression suffix (replace_midnight ref) q d))
   end) = Raise e.
Proof. intros ->. reflexivity. Qed.

Lemma month_cases m :
  1 <= m <= 12 ->
  m = 1 \/ m = 2 \/ m = 3 \/ m = 4 \/ m = 5 \/ m = 6 \/ m = 7 \/ m = 8 \/
  m = 9 \/ m = 10 \/ m = 11 \/ m = 12.
Proof. lia. Qed.

(** X6. "end of month", "end of this month" and "eom" resolve to the
    last day of the reference month, and "end of year", "end of this year"
    and "eoy" to 31 December of the reference year; both are dates on or
    after the reference day, and these phrases never raise. *)
Theorem end_of_month_and_year ref :
  valid_datetime ref = true ->
  let t := dt_date ref in
  let last := mkDate (year t) (month t) (days_in_month (year t) (month t)) in
  let dec31 := mkDate (year t) 12 31 in
  valid_date last = true /\ valid_date dec31 = true /\
  days_between last t = days_in_month (year t) (month t) - day t /\
  0 <= days_between last t /\ 0 <= days_between dec31 t /\
  gives (resolve "end of month" ref) ref last /\
  gives (resolve "end of this month" ref) ref last /\
  gives (resolve "eom" ref) ref last /\
  gives (resolve "end of year" ref) ref dec31 /\
  gives (resolve "end of this year" ref) ref dec31 /\
  gives (resolve "eoy" ref) ref dec31.
Proof.
  intros V t last dec31.
  pose proof (valid_datetime_date _ V) as Vd. pose proof Vd as Vu.
  apply valid_date_unfold in Vu. fold t in Vu. destruct Vu as (Hy & Hm & Hd).
  pose proof (days_in_month_range (year t) (month t) Hm) as Hdim.
  assert (Vl : valid_date last = true)
    by (apply valid_date_unfold; cbn [year month day last]; lia).
  assert (V31 : valid_date dec31 = true).
  { apply valid_date_unfold. cbn [year month day dec31].
    unfold days_in_month. cbn. lia. }
  assert (Dl : days_between last t = days_in_month (year t) (month t) - day t).
  { unfold days_between, toordinal, ymd2ord. cbn [year month day last]. lia. }
  assert (D31 : 0 <= days_between dec31 t).
  { unfold days_between, toordinal, ymd2ord. cbn [year month day dec31].
    pose proof (yday_bound (year t) (month t) (day t) Hm Hd) as B.
    unfold days_before_month at 1. cbn [DAYS_BEFORE_MONTH Z.ltb Z.compare Pos.compare
      Pos.compare_cont andb].
    unfold b2z in *. destruct (is_leap (year t)); lia. }
  split; [exact Vl|]. split; [exact V31|]. split; [exact Dl|].
  split; [lia|]. split; [exact D31|].
  assert (Pm : (last_day <- monthrange_days (dt_year (replace_midnight ref))
                              (dt_month (replace_midnight ref)) ;;
                replace_ymd (replace_midnight ref) (dt_year (replace_midnight ref))
                  (dt_month (replace_midnight ref)) last_day)
               = Ret (mkDatetime last 0 0 0 0)).
  { change (dt_year (replace_midnight ref)) with (year t).
    change (dt_month (replace_midnight ref)) with (month t).
    rewrite monthrange_days_in_month by exact Hm. cbn [bind].
    rewrite replace_ymd_ret by exact Vl. reflexivity. }
  assert (Py : replace_ymd (replace_midnight ref) (dt_year (replace_midnight ref)) 12 31
               = Ret (mkDatetime dec31 0 0 0 0)).
  { change (dt_year (replace_midnight ref)) with (year t).
    rewrite replace_ymd_ret by exact V31. reflexivity. }
  repeat split; run_chain; rewrite found_as_first.
  1-3: exact (gives_parsed _ _ _ _ _ _ _ Pm).
  all: exact (gives_parsed _ _ _ _ _ _ _ Py).
Qed.

Lemma end_of_month_and_year_witness :
  let ref := mkDatetime (mkDate 2026 2 8) 9 0 0 0 in
  let t := dt_date ref in
  let last := mkDate (year t) (month t) (days_in_month (year t) (month t)) in
  let dec31 := mkDate (year t) 12 31 in
  valid_date last = true /\ valid_date dec31 = true /\
  days_between last t = days_in_month (year t) (month t) - day t /\
  0 <= days_between last t /\ 0 <= days_between dec31 t /\
  gives (resolve "end of month" ref) ref last /\
  gives (resolve "end of this month" ref) ref last /\
  gives (resolve "eom" ref) ref last /\
  gives (resolve "end of year" ref) ref dec31 /\
  gives (resolve "end of this year" ref) ref dec31 /\
  gives (resolve "eoy" ref) ref dec31.
Proof. exact (end_of_month_and_year (mkDatetime (mkDate 2026 2 8) 9 0 0 0) eq_refl). Defined.

(** The first day of the month after, and before, the month of [t]. *)
Definition first_of_next_month (t : date) : date :=
  if month t =? 12 then mkDate (year t + 1) 1 1 else mkDate (year t) (month t + 1) 1.

Definition first_of_last_month (t : date) : date :=
  if month t =? 1 then mkDate (year t - 1) 12 1 else mkDate (year t) (month t - 1) 1.

Lemma first_then_add_months ref n :
  valid_datetime ref = true ->
  let t := dt_date ref in
  let total := month t - 1 + n in
  (first <- replace_ymd (replace_midnight ref) (dt_year (replace_midnight ref))
              (dt_month (replace_midnight ref)) 1 ;;
   _add_months first n)
  = replace_ymd (replace_midnight ref) (year t + total / 12) (total mod 12 + 1) 1.
Proof.
  intros V t total.
  pose proof (valid_datetime_date _ V) as Vd. apply valid_date_unfold in Vd.
  fold t in Vd. destruct Vd as (Hy & Hm & Hd).
  change (dt_year (replace_midnight ref)) with (year t).
  change (dt_month (replace_midnight ref)) with (month t).
  pose proof (days_in_month_range (year t) (month t) Hm) as Hdim.
  rewrite replace_ymd_ret
    by (apply valid_date_unfold; cbn [year month day]; lia).
  cbn [bind]. unfold _add_months, dt_month, dt_year, dt_day. cbn [dt_date year month day].
  fold total.
  assert (Hm' : 1 <= total mod 12 + 1 <= 12)
    by (pose proof (Z.mod_pos_bound total 12); lia).
  rewrite monthrange_days_in_month by exact Hm'. cbn [bind].
  pose proof (days_in_month_range (year t + total / 12) (total mod 12 + 1) Hm').
  rewrite Z.min_l by lia. reflexivity.
Qed.

Lemma replace_ymd_date t d :
  valid_date d = true ->
  replace_ymd t (year d) (month d) (day d)
  = Ret (mkDatetime d (hour t) (minute t) (second t) (microsecond t)).
Proof. destruct d as [y m dd]. apply replace_ymd_ret. Qed.

Lemma replace_ymd_not_date t d :
  fits_c_int (year d) && fits_c_int (month d) && fits_c_int (day d) = true ->
  valid_date d = false -> replace_ymd t (year d) (month d) (day d) = Raise ValueError.
Proof. destruct d as [y m dd]. apply replace_ymd_raise. Qed.

(** X7. "next month" (and "start of / beginning of next month")
    resolves to the first day of the following month, "last month" and
    "previous month" to the first day of the preceding month, and "start of
    / beginning of next year" to 1 January of the following year, whatever
    the day of the reference date; when that date lies outside years
    1..9999 the call raises [ValueError]. *)
Theorem adjacent_months_and_next_year ref :
  valid_datetime ref = true ->
  let t := dt_date ref in
  let next := first_of_next_month t in
  let prev := first_of_last_month t in
  let new_year := mkDate (year t + 1) 1 1 in
  (valid_date next = true ->
     0 < days_between next t /\
     gives (resolve "next month" ref) ref next /\
     gives (resolve "start of next month" ref) ref next /\
     gives (resolve "beginning of next month" ref) ref next) /\
  (valid_date next = false ->
     resolve "next month" ref = Raise ValueError /\
     resolve "start of next month" ref = Raise ValueError /\
     resolve "beginning of next month" ref = Raise ValueError) /\
  (valid_date prev = true ->
     days_between prev t < 0 /\
     gives (resolve "last month" ref) ref prev /\
     gives (resolve "previous month" ref) ref prev) /\
  (valid_date prev = false ->
     resolve "last month" ref = Raise ValueError /\
     resolve "previous month" ref = Raise ValueError) /\
  (valid_date new_year = true ->
     0 < days_between new_year t /\
     gives (resolve "start of next year" ref) ref new_year /\
     gives (resolve "beginning of next year" ref) ref new_year) /\
  (valid_date new_year = false ->
     resolve "start of next year" ref = Raise ValueError /\
     resolve "beginning of next year" ref = Raise ValueError).
Proof.
  intros V t next prev new_year.
  pose proof (valid_datetime_date _ V) as Vd. apply valid_date_unfold in Vd.
  fold t in Vd. destruct Vd as (Hy & Hm & Hd).
  pose proof (first_then_add_months ref 1 V) as P1.
  pose proof (first_then_add_months ref (-1) V) as P2.
  cbv zeta in P1, P2. fold t in P1, P2.
  assert (N : mkDate (year t + (month t - 1 + 1) / 12) ((month t - 1 + 1) mod 12 + 1) 1 = next).
  { unfold next, first_of_next_month.
    destruct (month_cases _ Hm) as [E|[E|[E|[E|[E|[E|[E|[E|[E|[E|[E|E]]]]]]]]]]];
      rewrite E; cbn; rewrite ?Z.add_0_r; reflexivity. }
  assert (L : mkDate (year t + (month t - 1 + -1) / 12) ((month t - 1 + -1) mod 12 + 1) 1 = prev).
  { unfold prev, first_of_last_month.
    destruct (month_cases _ Hm) as [E|[E|[E|[E|[E|[E|[E|[E|[E|[E|[E|E]]]]]]]]]]];
      rewrite E; cbn; rewrite ?Z.add_0_r; reflexivity. }
  assert (Dn : 0 < days_between next t).
  { unfold days_between, toordinal, ymd2ord, next, first_of_next_month.
    destruct (dbm_next (year t) (month t) Hm) as [_ E].
    pose proof (days_in_month_range (year t) (month t) Hm).
    revert E. destruct (Z.eqb_spec (month t) 12) as [M|M]; intros E; cbn [year month day].
    - rewrite dby_step. change (days_before_month (year t + 1) 1) with 0.
      rewrite M in *. clear - E Hd H. lia.
    - lia. }
  assert (Dp : days_between prev t < 0).
  { unfold days_between, toordinal, ymd2ord, prev, first_of_last_month.
    destruct (Z.eqb_spec (month t) 1) as [M|M]; cbn [year month day].
    - pose proof (dby_step (year t - 1)) as S.
      replace (year t - 1 + 1) with (year t) in S by lia.
      destruct (dbm_next (year t) (month t) Hm) as [B _].
      assert (D12 : days_before_month (year t - 1) 12 = 334 + b2z (is_leap (year t - 1)))
        by reflexivity.
      lia.
    - pose proof (dbm_mono (year t) (month t - 1) (month t) ltac:(lia) ltac:(lia)).
      pose proof (days_in_month_range (year t) (month t - 1) ltac:(lia)). lia. }
  assert (Dy : 0 < days_between new_year t).
  { unfold days_between, toordinal, ymd2ord, new_year. cbn [year month day].
    rewrite dby_step. change (days_before_month (year t + 1) 1) with 0.
    pose proof (yday_bound (year t) (month t) (day t) Hm Hd). lia. }
  assert (Q1 : (first <- replace_ymd (replace_midnight ref) (dt_year (replace_midnight ref))
                          (dt_month (replace_midnight ref)) 1 ;;
                _add_months first 1)
               = replace_ymd (replace_midnight ref) (year next) (month next) (day next))
    by (rewrite P1, <- N; reflexivity).
  assert (Q2 : (first <- replace_ymd (replace_midnight ref) (dt_year (replace_midnight ref))
                          (dt_month (replace_midnight ref)) 1 ;;
                _add_months first (-1))
               = replace_ymd (replace_midnight ref) (year prev) (month prev) (day prev))
    by (rewrite P2, <- L; reflexivity).
  assert (Qy : replace_ymd (replace_midnight ref) (dt_year (replace_midnight ref) + 1) 1 1
               = replace_ymd (replace_midnight ref)
                   (year new_year) (month new_year) (day new_year)) by reflexivity.
  assert (Fn : fits_c_int (year next) && fits_c_int (month next) && fits_c_int (day next)
               = true).
  { unfold next, first_of_next_month. destruct (month t =? 12); cbn [year month day];
      rewrite ?(fits_c_int_range (year t + 1)), ?(fits_c_int_range (year t)),
        ?(fits_c_int_range (month t + 1)) by lia; reflexivity. }
  assert (Fp : fits_c_int (year prev) && fits_c_int (month prev) && fits_c_int (day prev)
               = true).
  { unfold prev, first_of_last_month. destruct (month t =? 1); cbn [year month day];
      rewrite ?(fits_c_int_range (year t - 1)), ?(fits_c_int_range (year t)),
        ?(fits_c_int_range (month t - 1)) by lia; reflexivity. }
  assert (Fy : fits_c_int (year new_year) && fits_c_int (month new_year) &&
               fits_c_int (day new_year) = true).
  { unfold new_year. cbn [year month day].
    rewrite (fits_c_int_range (year t + 1)) by lia. reflexivity. }
  clearbody next prev new_year. clear P1 P2 N L.
  split; [|split; [|split; [|split; [|split]]]].
  - intros Vn. split; [exact Dn|]. rewrite (replace_ymd_date _ _ Vn) in Q1.
    repeat split; run_chain; rewrite found_as_first;
      exact (gives_parsed _ _ _ _ _ _ _ Q1).
  - intros Vn. rewrite (replace_ymd_not_date _ _ Fn Vn) in Q1.
    repeat split; run_chain; rewrite found_as_first;
      exact (raises_parsed _ _ _ _ _ _ _ Q1).
  - intros Vp. split; [exact Dp|]. rewrite (replace_ymd_date _ _ Vp) in Q2.
    repeat split; run_chain; rewrite found_as_first;
      exact (gives_parsed _ _ _ _ _ _ _ Q2).
  - intros Vp. rewrite (replace_ymd_not_date _ _ Fp Vp) in Q2.
    repeat split; run_chain; rewrite found_as_first;
      exact (raises_parsed _ _ _ _ _ _ _ Q2).
  - intros Vy. split; [exact Dy|]. rewrite (replace_ymd_date _ _ Vy) in Qy.
    repeat split; run_chain; rewrite found_as_first;
      exact (gives_parsed _ _ _ _ _ _ _ Qy).
  - intros Vy. rewrite (replace_ymd_not_date _ _ Fy Vy) in Qy.
    repeat split; run_chain; rewrite found_as_first;
      exact (raises_parsed _ _ _ _ _ _ _ Qy).
Qed.

Lemma adjacent_months_and_next_year_witness :
  let ref := mkDatetime (mkDate 2026 12 31) 9 0 0 0 in
  let t := dt_date ref in
  (0 < days_between (mkDate 2027 1 1) t /\
   gives (resolve "next month" ref) ref (mkDate 2027 1 1) /\
   gives (resolve "start of next month" ref) ref (mkDate 2027 1 1) /\
   gives (resolve "beginning of next month" ref) ref (mkDate 2027 1 1)) /\
  (days_between (mkDate 2026 11 1) t < 0 /\
   gives (resolve "last month" ref) ref (mkDate 2026 11 1) /\
   gives (resolve "previous month" ref) ref (mkDate 2026 11 1)) /\
  (0 < days_between (mkDate 2027 1 1) t /\
   gives (resolve "start of next year" ref) ref (mkDate 2027 1 1) /\
   gives (resolve "beginning of next year" ref) ref (mkDate 2027 1 1)).
Proof.
  destruct (adjacent_months_and_next_year (mkDatetime (mkDate 2026 12 31) 9 0 0 0) eq_refl)
    as (N & _ & P & _ & Y & _).
  split; [exact (N eq_refl)|]. split; [exact (P eq_refl)|exact (Y eq_refl)].
Defined.

(** *** The loops of [resolve] stop *)

(** [m] ran to a value or to an exception. *)
Definition finished {A : Type} (m : outcome A) : Prop :=
  match m with
  | OutOfFuel => False
  | _ => True
  end.

Lemma finished_bind {A B} (m : outcome A) (f : A -> outcome B) :
  finished m -> (forall a, m = Ret a -> finished (f a)) -> finished (bind m f).
Proof. destruct m; cbn; intros H K; auto. Qed.

Lemma finished_found_as desc m : finished m -> finished (found_as desc m).
Proof. unfold found_as. destruct m; cbn; auto. Qed.

Lemma finished_add_delta t k : finished (add_delta t k).
Proof. unfold add_delta. destruct (_ && _); exact I. Qed.

Lemma finished_timedelta_days k : finished (timedelta_days k).
Proof. unfold timedelta_days. destruct (_ && _); exact I. Qed.

Lemma finished_plus_days t k : finished (plus_days t k).
Proof.
  unfold plus_days. apply finished_bind; [apply finished_timedelta_days|].
  intros; apply finished_add_delta.
Qed.

Lemma finished_minus_days t k : finished (minus_days t k).
Proof.
  unfold minus_days. apply finished_bind; [apply finished_timedelta_days|].
  intros; apply finished_add_delta.
Qed.

Lemma finished_plus_weeks t k : finished (plus_weeks t k).
Proof.
  unfold plus_weeks, timedelta_weeks. apply finished_bind; [apply finished_timedelta_days|].
  intros; apply finished_add_delta.
Qed.

Lemma finished_minus_weeks t k : finished (minus_weeks t k).
Proof.
  unfold minus_weeks, timedelta_weeks. apply finished_bind; [apply finished_timedelta_days|].
  intros; apply finished_add_delta.
Qed.

Lemma finished_new_date y m d : finished (new_date y m d).
Proof.
  unfold new_date. destruct (fits_c_int y && fits_c_int m && fits_c_int d); [|exact I].
  cbv zeta. destruct (valid_date _); exact I.
Qed.

Lemma finished_replace_ymd t y m d : finished (replace_ymd t y m d).
Proof.
  unfold replace_ymd. apply finished_bind; [apply finished_new_date|]. intros; exact I.
Qed.

Lemma finished_new_datetime y m d : finished (new_datetime y m d).
Proof.
  unfold new_datetime. apply finished_bind; [apply finished_new_date|]. intros; exact I.
Qed.

Lemma finished_monthrange y m : finished (monthrange_days y m).
Proof. unfold monthrange_days. destruct (_ && _); exact I. Qed.

Lemma finished_add_months t n : finished (_add_months t n).
Proof.
  unfold _add_months. apply finished_bind; [apply finished_monthrange|].
  intros; apply finished_replace_ymd.
Qed.

Lemma finished_int s : finished (int s).
Proof.
  unfold int. destruct s; [exact I|]. destruct (_ <=? _)%nat; [|exact I].
  destruct (int_digits _ _); exact I.
Qed.

Lemma finished_except {A} (m : outcome (option A)) :
  finished m -> finished (except_ValueError_pass m).
Proof. destruct m as [a|[]|]; cbn; auto. Qed.

Lemma finished_business_loop count d :
  finished (business_loop (business_fuel count) count d 0).
Proof.
  pose proof (business_loop_fuel (Z.to_nat count) (business_fuel count) count d 0
                ltac:(lia) ltac:(unfold business_fuel; lia)) as F.
  destruct (business_loop _ _ _ _); cbn; auto.
Qed.

Lemma finished_weekend_loop d :
  valid_date (dt_date d) = true -> finished (weekend_loop 2 d).
Proof.
  intros V.
  assert (W : forall t t', valid_date (dt_date t) = true -> plus_days t 1 = Ret t' ->
                weekday t' = (weekday t + 1) mod 7 /\ valid_date (dt_date t') = true).
  { intros t t' Vt H. rewrite plus_days_valid_ref in H by exact Vt.
    apply add_delta_inv in H. destruct H as (_ & Vt' & O & _). split; [|exact Vt'].
    unfold weekday, date_weekday. rewrite O.
    replace (toordinal (dt_date t) + 1 + 6) with (toordinal (dt_date t) + 6 + 1) by lia.
    rewrite <- (Z.add_mod_idemp_l (toordinal (dt_date t) + 6)) by lia. reflexivity. }
  pose proof (weekday_range d) as R0.
  destruct (Z.lt_ge_cases (weekday d) 5) as [L|G].
  { rewrite weekend_loop_done by exact L. exact I. }
  rewrite weekend_loop_step by exact G.
  apply finished_bind; [apply finished_plus_days|]. intros d1 E1.
  destruct (W _ _ V E1) as [W1 V1].
  destruct (Z.lt_ge_cases (weekday d1) 5) as [L1|G1].
  { rewrite weekend_loop_done by exact L1. exact I. }
  rewrite weekend_loop_step by exact G1.
  apply finished_bind; [apply finished_plus_days|]. intros d2 E2.
  destruct (W _ _ V1 E2) as [W2 V2].
  rewrite weekend_loop_done; [exact I|].
  rewrite W2, W1.
  assert (weekday d = 5 \/ weekday d = 6) as [->| ->] by lia; cbn in *; lia.
Qed.

Lemma finished_month_day_action name m d y today :
  finished (month_day_action name m d y today).
Proof.
  unfold month_day_action. apply finished_bind.
  { destruct y; [apply finished_int|exact I]. }
  intros yr _. apply finished_except.
  apply finished_bind; [apply finished_new_datetime|]. intros c _.
  apply finished_bind; [|intros; exact I].
  destruct y; [exact I|]. destruct (date_ltb _ _); [apply finished_new_datetime|exact I].
Qed.

Ltac finish_leaf :=
  lazymatch goal with
  | |- finished no_match => exact I
  | |- finished (Ret _) => exact I
  | |- finished (Raise _) => exact I
  | |- finished (found_as _ ?m) =>
      apply finished_found_as;
      lazymatch m with
      | Ret _ => exact I
      | plus_days _ _ => apply finished_plus_days
      | minus_days _ _ => apply finished_minus_days
      | plus_weeks _ _ => apply finished_plus_weeks
      | minus_weeks _ _ => apply finished_minus_weeks
      | _add_months _ _ => apply finished_add_months
      | _next_weekday _ _ _ => apply finished_plus_days
      | _prev_weekday _ _ _ => apply finished_minus_days
      | replace_ymd _ _ _ _ => apply finished_replace_ymd
      | business_loop _ _ _ _ => apply finished_business_loop
      | bind (replace_ymd _ _ _ _) _ =>
          apply finished_bind; [apply finished_replace_ymd|intros; apply finished_add_months]
      | bind (monthrange_days _ _) _ =>
          apply finished_bind; [apply finished_monthrange|intros; apply finished_replace_ymd]
      | _ => idtac
      end
  | |- finished (month_day_action _ _ _ _ _) => apply finished_month_day_action
  end.

Ltac split_finished :=
  cbv zeta;
  lazymatch goal with
  | |- finished (match ?x with _ => _ end) => destruct x; cbv beta iota
  | |- finished (bind (int ?s) _) =>
      apply finished_bind; [apply finished_int|intros ? _]
  end.

Lemma finished_grammars g expr today :
  In g grammars -> finished (g expr today).
Proof.
  intros Hg. unfold grammars in Hg. cbn [In] in Hg.
  repeat (destruct Hg as [<-|Hg]); [..|contradiction].
  - unfold fixed_phrases. repeat split_finished; finish_leaf.
  - unfold modifier_grammar. repeat split_finished; finish_leaf.
  - unfold from_now_grammar. repeat split_finished; finish_leaf.
  - unfold business_grammar. repeat split_finished; finish_leaf.
  - unfold in_units_grammar. repeat split_finished; finish_leaf.
  - unfold ago_grammar. repeat split_finished; finish_leaf.
  - unfold a_unit_grammar. repeat split_finished; finish_leaf.
  - unfold next_business_day_grammar. repeat split_finished; finish_leaf.
    apply finished_bind; [apply finished_plus_days|]. intros d E.
    apply finished_weekend_loop. exact (plus_days_valid _ _ _ E).
  - unfold bare_weekday_grammar. repeat split_finished; finish_leaf.
  - unfold month_day_grammar. repeat split_finished; finish_leaf.
  - unfold day_month_grammar. repeat split_finished; finish_leaf.
  - unfold iso_grammar. destruct (re_match iso_re expr) as [[m rest]|]; [|exact I].
    apply finished_except.
    apply finished_bind; [apply finished_int|intros ? _].
    apply finished_bind; [apply finished_int|intros ? _].
    apply finished_bind; [apply finished_int|intros ? _].
    apply finished_found_as, finished_new_datetime.
Qed.

Lemma finished_first_match gs expr today :
  (forall g, In g gs -> finished (g expr today)) ->
  finished (first_match gs expr today).
Proof.
  induction gs as [|g gs IH]; intros H; [exact I|].
  cbn [first_match]. apply finished_bind; [apply H; left; reflexivity|].
  intros [found|] _; [exact I|]. apply IH. intros g' Hg'. apply H. right. exact Hg'.
Qed.

(** X12. Both while loops of [resolve] always finish: for every
    expression and reference date the call returns a response or raises
    [ValueError] or [OverflowError], and never runs out of steps. *)
Theorem resolve_loops_terminate expression ref :
  (exists response, resolve expression ref = Ret response) \/
  resolve expression ref = Raise ValueError \/
  resolve expression ref = Raise OverflowError.
Proof.
  assert (F : finished (resolve expression ref)).
  { unfold resolve. destruct (normalize expression) as [expr suffix].
    apply finished_bind.
    - apply finished_first_match. intros g Hg. apply finished_grammars. exact Hg.
    - intros [[p desc]|] _; exact I. }
  destruct (resolve expression ref) as [resp|[]|]; cbn in F.
  - left. exists resp. reflexivity.
  - right. left. reflexivity.
  - right. right. reflexivity.
  - contradiction.
Qed.

(** *** Letter case *)

(** What a caller reads off a result besides the echoed expression. *)
Record answer : Type := mkAnswer {
  a_date : string;
  a_day_of_week : string;
  a_description : string;
  a_days_from_today : Z;
  a_warning : option string
}.

Definition answer_of (res : outcome response) : outcome (option answer) :=
  r <- res ;;
  match r with
  | Resolved x =>
      Ret (Some (mkAnswer (r_date x) (r_day_of_week x) (r_description x)
                   (r_days_from_today x) (r_warning x)))
  | Error _ => Ret None
  end.

(** X11. Two expressions that differ only in letter case resolve
    alike: the same date, weekday, description, day count and warning, or
    the same failure; only the echoed expression differs. *)
Theorem resolve_ignores_letter_case e1 e2 ref :
  lower e1 = lower e2 ->
  answer_of (resolve e1 ref) = answer_of (resolve e2 ref).
Proof.
  intros H. unfold resolve, normalize. rewrite H.
  destruct (re_search time_suffixes (strip (lower e2))) as [m|];
    match goal with
    | |- context [first_match grammars ?e ?t] => destruct (first_match grammars e t) as [[[p d]|]| |]
    end; cbn [bind answer_of]; try reflexivity;
    unfold build_result; cbn; rewrite ?H; reflexivity.
Qed.

Lemma resolve_ignores_letter_case_witness :
  answer_of (resolve "Next MONDAY" (mkDatetime (mkDate 2026 2 8) 9 0 0 0))
  = answer_of (resolve "nExT monday" (mkDatetime (mkDate 2026 2 8) 9 0 0 0)).
Proof.
  apply (resolve_ignores_letter_case "Next MONDAY" "nExT monday"). reflexivity.
Defined.

(** *** Texts that start with a digit *)

Ltac each_digit H :=
  apply is_digit_chars in H; cbn [In digit_chars] in H;
  repeat (destruct H as [<-|H]; [vm_compute; reflexivity|]); contradiction.

Lemma digit_first_fixed c s today :
  is_digit c = true -> fixed_phrases (String c s) today = Ret None.
Proof. intros H. apply fixed_phrases_none. each_digit H. Qed.

Lemma digit_first_modifier c s :
  is_digit c = true -> re_match modifier_re (String c s) = None.
Proof. intros H. each_digit H. Qed.

Lemma digit_first_business c s :
  is_digit c = true -> re_match business_re (String c s) = None.
Proof. intros H. each_digit H. Qed.

Lemma digit_first_in_units c s :
  is_digit c = true -> re_match in_units_re (String c s) = None.
Proof. intros H. each_digit H. Qed.

Lemma digit_first_a_unit c s :
  is_digit c = true -> re_match a_unit_re (String c s) = None.
Proof. intros H. each_digit H. Qed.

Lemma digit_first_next_business_day c s today :
  is_digit c = true -> next_business_day_grammar (String c s) today = Ret None.
Proof.
  intros H. unfold next_business_day_grammar.
  replace (among (String c s) ["next weekday"; "next business day"; "next workday"])
    with false by (symmetry; each_digit H).
  reflexivity.
Qed.

Lemma digit_first_bare_weekday c s today :
  is_digit c = true -> bare_weekday_grammar (String c s) today = Ret None.
Proof.
  intros H. unfold bare_weekday_grammar.
  replace (lookup (String c s) WEEKDAYS) with (@None Z) by (symmetry; each_digit H).
  reflexivity.
Qed.

(** A greedy run of digits whose every continuation fails. *)
Lemma rep_digits_none ds : forall lo hi rest k,
  all_digits ds = true -> head_fails is_digit rest ->
  k rest = None ->
  (forall c t, is_digit c = true -> k (String c t) = None) ->
  rep true is_digit lo hi (ds ++ rest) k = None.
Proof.
  induction ds as [|c ds IH]; intros lo hi rest k Hd Hrest Hk Hdig.
  - cbn [append]. destruct rest as [|c rest]; cbn [rep].
    + rewrite Hk. destruct (Nat.eqb lo 0); reflexivity.
    + cbn in Hrest. rewrite Hrest, andb_false_r, Hk. destruct (Nat.eqb lo 0); reflexivity.
  - cbn [all_digits] in Hd. apply andb_prop in Hd. destruct Hd as [Hc Hd].
    cbn [append rep]. rewrite Hc, andb_true_r.
    rewrite (IH _ _ rest k Hd Hrest Hk Hdig).
    rewrite (Hdig c _ Hc).
    destruct (allows_more hi); destruct (Nat.eqb lo 0); reflexivity.
Qed.

(** One white space before a text that starts otherwise. *)
Lemma rep_one_space s k :
  head_fails is_space s ->
  rep true is_space 1 None (String " " s) k = k s.
Proof.
  intros H. cbn [rep allows_more andb option_map Nat.pred Nat.eqb].
  change (is_space " ") with true. cbv iota.
  destruct s as [|c s]; cbn [rep Nat.eqb].
  - destruct (k ""); reflexivity.
  - cbn in H. rewrite H, andb_false_r. destruct (k (String c s)); reflexivity.
Qed.

(** *** The normalizer on a text around a run of digits *)

Definition settled (tail : string) : bool :=
  (lower tail == tail) && (rstrip tail == tail) && negb (tail == "") &&
  match re_search time_suffixes tail with None => true | Some _ => false end.

Lemma normalize_digits_first ds tail :
  ds <> EmptyString -> all_digits ds = true -> settled tail = true ->
  normalize (ds ++ tail) = (ds ++ tail, false).
Proof.
  intros Hne Hd Ht. unfold settled in Ht. rewrite !andb_true_iff in Ht.
  destruct Ht as (((Hl & Hr) & Hn) & Hs).
  apply String.eqb_eq in Hl, Hr. apply negb_true_iff, String.eqb_neq in Hn.
  unfold normalize.
  assert (L : lower (ds ++ tail) = ds ++ tail).
  { unfold lower. rewrite map_string_app. fold (lower ds) (lower tail).
    rewrite (lower_digits _ Hd), Hl. reflexivity. }
  rewrite L.
  assert (S : strip (ds ++ tail) = ds ++ tail).
  { unfold strip. destruct ds as [|c ds]; [contradiction|].
    cbn [all_digits] in Hd. apply andb_prop in Hd. destruct Hd as [Hc _].
    cbn [append lstrip]. rewrite (digit_not_space c Hc).
    change (String c (ds ++ tail)) with (String c ds ++ tail).
    rewrite rstrip_app by (rewrite Hr; exact Hn). rewrite Hr. reflexivity. }
  rewrite S, time_suffixes_skip_digits by exact Hd.
  destruct (re_search time_suffixes tail); [discriminate|reflexivity].
Qed.

Lemma normalize_in_digits ds tail :
  ds <> EmptyString -> all_digits ds = true -> settled tail = true ->
  normalize ("in " ++ ds ++ tail) = ("in " ++ ds ++ tail, false).
Proof.
  intros Hne Hd Ht. unfold settled in Ht. rewrite !andb_true_iff in Ht.
  destruct Ht as (((Hl & Hr) & Hn) & Hs).
  apply String.eqb_eq in Hl, Hr. apply negb_true_iff, String.eqb_neq in Hn.
  unfold normalize.
  assert (L : lower ("in " ++ ds ++ tail) = "in " ++ ds ++ tail).
  { unfold lower. rewrite !map_string_app. fold (lower ds) (lower tail).
    rewrite (lower_digits _ Hd), Hl. reflexivity. }
  rewrite L.
  assert (S : strip ("in " ++ ds ++ tail) = "in " ++ ds ++ tail).
  { unfold strip. change (lstrip ("in " ++ ds ++ tail)) with ("in " ++ ds ++ tail).
    rewrite rstrip_app; [rewrite rstrip_app; [rewrite Hr; reflexivity|rewrite Hr; exact Hn]|].
    rewrite rstrip_app by (rewrite Hr; exact Hn). rewrite Hr.
    destruct ds; [contradiction|discriminate]. }
  rewrite S.
  destruct ds as [|c ds]; [contradiction|].
  pose proof Hd as Hd'. cbn [all_digits] in Hd'. apply andb_prop in Hd'.
  destruct Hd' as [Hc _].
  change ("in " ++ String c ds ++ tail)
    with (String "i" (String "n" (String " " (String c ds ++ tail)))) at 1.
  rewrite re_search_skip by (apply time_suffixes_needs_space; reflexivity).
  rewrite re_search_skip by (apply time_suffixes_needs_space; reflexivity).
  rewrite re_search_skip by (exact (time_suffixes_space_digit c _ Hc)).
  rewrite time_suffixes_skip_digits by exact Hd.
  destruct (re_search time_suffixes tail); [discriminate|reflexivity].
Qed.

(** *** Walking the chain by hand *)

(** Evaluation of the text operations whose arguments hold no variable. *)
Ltac no_variable t :=
  tryif (match t with context [?x] => is_var x end) then fail else idtac.

Ltac ground_eval t :=
  no_variable t; let v := eval vm_compute in t in progress (change t with v).

Ltac eval_ground_text :=
  repeat match goal with
  | |- context [lookup ?k ?t] => ground_eval (lookup k t)
  | |- context [String.eqb ?a ?b] => ground_eval (String.eqb a b)
  | |- context [among ?x ?l] => ground_eval (among x l)
  end.


Lemma first_match_skip (g : grammar) gs expr today :
  g expr today = Ret None ->
  first_match (g :: gs) expr today = first_match gs expr today.
Proof. intros H. cbn [first_match]. rewrite H. reflexivity. Qed.

Lemma first_match_hit (g : grammar) gs expr today desc m :
  g expr today = found_as desc m ->
  first_match (g :: gs) expr today = found_as desc m.
Proof. intros H. cbn [first_match]. rewrite H. apply found_as_first. Qed.

Lemma resolve_settled e ref :
  normalize e = (e, false) ->
  resolve e ref =
  (found <- first_match grammars e (replace_midnight ref) ;;
   match found with
   | None => Ret (Error ("Could not parse: '" ++ e ++ "'"))
   | Some (p, d) => Ret (Resolved (build_result e false (replace_midnight ref) p d))
   end).
Proof. intros H. unfold resolve. rewrite H. reflexivity. Qed.

Lemma regex_grammar_none (r : regex) e :
  re_match r e = None ->
  forall A (f : found -> outcome A) (z : outcome A),
    match re_match r e with Some x => f x | None => z end = z.
Proof. intros H A f z. rewrite H. reflexivity. Qed.

Lemma modifier_none e today :
  re_match modifier_re e = None -> modifier_grammar e today = Ret None.
Proof. intros H. unfold modifier_grammar. rewrite H. reflexivity. Qed.

Lemma from_now_none e today :
  re_match from_now_re e = None -> from_now_grammar e today = Ret None.
Proof. intros H. unfold from_now_grammar. rewrite H. reflexivity. Qed.

Lemma business_none e today :
  re_match business_re e = None -> business_grammar e today = Ret None.
Proof. intros H. unfold business_grammar. rewrite H. reflexivity. Qed.

Lemma in_units_none e today :
  re_match in_units_re e = None -> in_units_grammar e today = Ret None.
Proof. intros H. unfold in_units_grammar. rewrite H. reflexivity. Qed.

Lemma ago_none e today :
  re_match ago_re e = None -> ago_grammar e today = Ret None.
Proof. intros H. unfold ago_grammar. rewrite H. reflexivity. Qed.

Lemma a_unit_none e today :
  re_match a_unit_re e = None -> a_unit_grammar e today = Ret None.
Proof. intros H. unfold a_unit_grammar. rewrite H. reflexivity. Qed.

(** *** Patterns that open with a captured run of digits *)

Definition final : string -> captures -> option found :=
  fun rest caps => Some (caps, rest).

Lemma digits_first_char ds :
  ds <> EmptyString -> all_digits ds = true ->
  exists c ds', ds = String c ds' /\ is_digit c = true.
Proof.
  intros Hne Hd. destruct ds as [|c ds']; [contradiction|].
  exists c, ds'. cbn [all_digits] in Hd. apply andb_prop in Hd. tauto.
Qed.

Lemma digits_group_then rest_re ds tail x :
  ds <> EmptyString -> all_digits ds = true -> head_fails is_digit tail ->
  rmatch rest_re tail [(1%nat, ds)] final = Some x ->
  re_match (Seq (Group 1 (plus Cdigit)) rest_re) (ds ++ tail) = Some x.
Proof.
  intros Hne Hd Ht Hk. unfold re_match. cbn [rmatch plus].
  apply rep_greedy_run;
    [exact (all_digits_forall _ Hd)
    |destruct (digits_first_char _ Hne Hd) as (c & ds' & -> & _); cbn; lia
    |exact Ht|].
  rewrite consumed_app. exact Hk.
Qed.

Lemma digits_group_none rest_re ds tail :
  all_digits ds = true -> head_fails is_digit tail ->
  rmatch rest_re tail [(1%nat, ds)] final = None ->
  (forall c t caps, is_digit c = true -> rmatch rest_re (String c t) caps final = None) ->
  re_match (Seq (Group 1 (plus Cdigit)) rest_re) (ds ++ tail) = None.
Proof.
  intros Hd Ht Hk Hdig. unfold re_match. cbn [rmatch plus].
  apply rep_digits_none; [exact Hd|exact Ht| |].
  - rewrite consumed_app. exact Hk.
  - intros c t Hc. apply Hdig. exact Hc.
Qed.

Lemma space_first_none r c t caps k :
  is_space c = false -> rmatch (Seq (plus Cspace) r) (String c t) caps k = None.
Proof. intros H. cbn [rmatch plus in_cls]. rewrite rep_stop by exact H. reflexivity. Qed.

Lemma in_digits_reduce rest_re ds tail :
  ds <> EmptyString -> all_digits ds = true ->
  re_match (Seq (Lit "in") (Seq (plus Cspace) (Seq (Group 1 (plus Cdigit)) rest_re)))
    ("in " ++ ds ++ tail)
  = re_match (Seq (Group 1 (plus Cdigit)) rest_re) (ds ++ tail).
Proof.
  intros Hne Hd. destruct (digits_first_char _ Hne Hd) as (c & ds' & -> & Hc).
  unfold re_match. cbn [rmatch plus in_cls].
  change (drop_prefix "in" ("in " ++ String c ds' ++ tail))
    with (Some (String " " (String c ds' ++ tail))).
  cbv beta iota. rewrite rep_one_space by exact (digit_not_space c Hc).
  reflexivity.
Qed.

(** The shapes of the four patterns that read a count. *)
Definition from_now_rest : regex :=
  seq [plus Cspace; Group 2 (plus_lazy Cword); Opt (Lit "s");
       plus Cspace; Lit "from"; plus Cspace; now_or_today].

Definition ago_rest : regex :=
  seq [plus Cspace; Group 2 (plus_lazy Cword); Opt (Lit "s"); plus Cspace; Lit "ago"].

Definition in_units_rest : regex :=
  seq [plus Cspace; Group 2 (plus_lazy Cword); Opt (Lit "s"); Eos].

Definition business_rest : regex :=
  seq [plus Cspace;
       alt [ seq [Lit "business"; plus Cspace; Lit "day"; Opt (Lit "s")];
             seq [Lit "workday"; Opt (Lit "s")];
             seq [Lit "work"; plus Cspace; Lit "day"; Opt (Lit "s")] ]].

Lemma from_now_re_shape : from_now_re = Seq (Group 1 (plus Cdigit)) from_now_rest.
Proof. reflexivity. Qed.

Lemma ago_re_shape : ago_re = Seq (Group 1 (plus Cdigit)) ago_rest.
Proof. reflexivity. Qed.

Lemma in_units_re_shape :
  in_units_re = Seq (Lit "in") (Seq (plus Cspace) (Seq (Group 1 (plus Cdigit)) in_units_rest)).
Proof. reflexivity. Qed.

Lemma business_re_shape :
  business_re = Seq (Lit "in") (Seq (plus Cspace) (Seq (Group 1 (plus Cdigit)) business_rest)).
Proof. reflexivity. Qed.

Ltac rest_starts_with_space :=
  intros ? ? ? ?; apply space_first_none, digit_not_space; assumption.

(** [res] is what [resolve] makes of the day [m] computes: the
    resolution to that day, or the exception [m] raises. *)
Definition follows (res : outcome response) (ref : datetime) (m : outcome datetime) : Prop :=
  match m with
  | Ret p => gives res ref (dt_date p)
  | Raise e => res = Raise e
  | OutOfFuel => res = OutOfFuel
  end.

Lemma follows_parsed expression suffix ref desc (m : outcome datetime) :
  follows (found <- found_as desc m ;;
           match found with
           | None => Ret (Error ("Could not parse: '" ++ expression ++ "'"))
           | Some (q, d) =>
               Ret (Resolved (build_result expression suffix (replace_midnight ref) q d))
           end) ref m.
Proof.
  unfold follows. destruct m as [p|e|]; cbn [found_as bind]; try reflexivity.
  eexists. split; [reflexivity|]. unfold build_result. cbn. repeat split.
Qed.

(** *** Counted days and weeks *)

Section Counted.

Variables (ds : string) (n : Z) (ref : datetime).
Hypothesis Hint : int ds = Ret n.
Hypothesis Vref : valid_datetime ref = true.

Let today := replace_midnight ref.

Lemma counted_ne : ds <> EmptyString.
Proof. apply (int_inv _ _ Hint). Qed.

Lemma counted_digits : all_digits ds = true.
Proof. apply (int_inv _ _ Hint). Qed.

Lemma counted_fixed tail : fixed_phrases (ds ++ tail) today = Ret None.
Proof.
  destruct (digits_first_char _ counted_ne counted_digits) as (c & ds' & -> & Hc).
  apply digit_first_fixed. exact Hc.
Qed.

Lemma counted_modifier tail : modifier_grammar (ds ++ tail) today = Ret None.
Proof.
  destruct (digits_first_char _ counted_ne counted_digits) as (c & ds' & -> & Hc).
  apply modifier_none, digit_first_modifier. exact Hc.
Qed.

Lemma counted_business tail : business_grammar (ds ++ tail) today = Ret None.
Proof.
  destruct (digits_first_char _ counted_ne counted_digits) as (c & ds' & -> & Hc).
  apply business_none, digit_first_business. exact Hc.
Qed.

Lemma counted_in_units tail : in_units_grammar (ds ++ tail) today = Ret None.
Proof.
  destruct (digits_first_char _ counted_ne counted_digits) as (c & ds' & -> & Hc).
  apply in_units_none, digit_first_in_units. exact Hc.
Qed.

Ltac settle_digits_first :=
  rewrite resolve_settled
    by (apply normalize_digits_first;
        [exact counted_ne|exact counted_digits|vm_compute; reflexivity]);
  fold today; unfold grammars;
  rewrite first_match_skip by apply counted_fixed;
  rewrite first_match_skip by apply counted_modifier.

Ltac settle_in :=
  rewrite resolve_settled
    by (apply normalize_in_digits;
        [exact counted_ne|exact counted_digits|vm_compute; reflexivity]);
  fold today; unfold grammars;
  rewrite first_match_skip by (apply fixed_phrases_none; vm_compute; reflexivity);
  rewrite first_match_skip by (apply modifier_none; vm_compute; reflexivity);
  rewrite first_match_skip by (apply from_now_none; vm_compute; reflexivity);
  rewrite first_match_skip
    by (apply business_none; rewrite business_re_shape,
          (in_digits_reduce _ _ _ counted_ne counted_digits);
        apply digits_group_none;
        [exact counted_digits|reflexivity|vm_compute; reflexivity|rest_starts_with_space]).

Ltac read_groups :=
  cbv beta iota zeta; cbn [group group_opt Nat.eqb]; rewrite Hint; cbn [bind];
  repeat (progress (eval_ground_text; cbv beta iota zeta)); reflexivity.

Ltac read_digit_group :=
  lazymatch goal with
  | |- context [re_match (Seq (Group 1 (plus Cdigit)) ?r) (ds ++ ?tail)] =>
      let v := eval vm_compute in (rmatch r tail [(1%nat, ds)] final) in
      lazymatch v with
      | Some ?x =>
          let Hk := fresh "Hk" in
          assert (Hk : rmatch r tail [(1%nat, ds)] final = Some x)
            by (vm_compute; reflexivity);
          rewrite (digits_group_then r ds tail x counted_ne counted_digits eq_refl Hk);
          clear Hk
      end
  end.

Ltac hit_from_now :=
  erewrite first_match_hit;
  [|unfold from_now_grammar; rewrite from_now_re_shape; read_digit_group; read_groups].

Ltac hit_in_units :=
  erewrite first_match_hit;
  [|unfold in_units_grammar; rewrite in_units_re_shape,
      (in_digits_reduce _ _ _ counted_ne counted_digits);
    read_digit_group; read_groups].

Ltac hit_ago :=
  rewrite first_match_skip
    by (apply from_now_none; rewrite from_now_re_shape; apply digits_group_none;
        [exact counted_digits|reflexivity|vm_compute; reflexivity|rest_starts_with_space]);
  rewrite first_match_skip by apply counted_business;
  rewrite first_match_skip by apply counted_in_units;
  erewrite first_match_hit;
  [|unfold ago_grammar; rewrite ago_re_shape; read_digit_group; read_groups].

Let Vtoday : valid_date (dt_date today) = true.
Proof. exact (valid_datetime_date _ Vref). Qed.

Lemma counted_days_land :
  lands (resolve (ds ++ " days from now") ref) ref n /\
  lands (resolve (ds ++ " day from now") ref) ref n /\
  lands (resolve ("in " ++ ds ++ " days") ref) ref n /\
  lands (resolve ("in " ++ ds ++ " day") ref) ref n /\
  lands (resolve (ds ++ " days ago") ref) ref (- n) /\
  lands (resolve (ds ++ " day ago") ref) ref (- n).
Proof.
  repeat split.
  - settle_digits_first. hit_from_now. apply lands_offset, plus_days_valid_ref, Vtoday.
  - settle_digits_first. hit_from_now. apply lands_offset, plus_days_valid_ref, Vtoday.
  - settle_in. hit_in_units. apply lands_offset, plus_days_valid_ref, Vtoday.
  - settle_in. hit_in_units. apply lands_offset, plus_days_valid_ref, Vtoday.
  - settle_digits_first. hit_ago. apply lands_offset, minus_days_valid_ref, Vtoday.
  - settle_digits_first. hit_ago. apply lands_offset, minus_days_valid_ref, Vtoday.
Qed.

Lemma counted_weeks_land :
  lands (resolve (ds ++ " weeks from now") ref) ref (7 * n) /\
  lands (resolve (ds ++ " week from now") ref) ref (7 * n) /\
  lands (resolve ("in " ++ ds ++ " weeks") ref) ref (7 * n) /\
  lands (resolve ("in " ++ ds ++ " week") ref) ref (7 * n) /\
  lands (resolve (ds ++ " weeks ago") ref) ref (- (7 * n)) /\
  lands (resolve (ds ++ " week ago") ref) ref (- (7 * n)).
Proof.
  repeat split.
  - settle_digits_first. hit_from_now. apply lands_offset, plus_weeks_valid_ref, Vtoday.
  - settle_digits_first. hit_from_now. apply lands_offset, plus_weeks_valid_ref, Vtoday.
  - settle_in. hit_in_units. apply lands_offset, plus_weeks_valid_ref, Vtoday.
  - settle_in. hit_in_units. apply lands_offset, plus_weeks_valid_ref, Vtoday.
  - settle_digits_first. hit_ago. apply lands_offset, minus_weeks_valid_ref, Vtoday.
  - settle_digits_first. hit_ago. apply lands_offset, minus_weeks_valid_ref, Vtoday.
Qed.


Lemma counted_months_follow :
  follows (resolve (ds ++ " months from now") ref) ref (_add_months today n) /\
  follows (resolve (ds ++ " month from now") ref) ref (_add_months today n) /\
  follows (resolve ("in " ++ ds ++ " months") ref) ref (_add_months today n) /\
  follows (resolve ("in " ++ ds ++ " month") ref) ref (_add_months today n) /\
  follows (resolve (ds ++ " months ago") ref) ref (_add_months today (- n)) /\
  follows (resolve (ds ++ " month ago") ref) ref (_add_months today (- n)).
Proof.
  repeat split.
  - settle_digits_first. hit_from_now. apply follows_parsed.
  - settle_digits_first. hit_from_now. apply follows_parsed.
  - settle_in. hit_in_units. apply follows_parsed.
  - settle_in. hit_in_units. apply follows_parsed.
  - settle_digits_first. hit_ago. apply follows_parsed.
  - settle_digits_first. hit_ago. apply follows_parsed.
Qed.

Lemma counted_years_follow :
  let later := replace_ymd today (dt_year today + n) (dt_month today) (dt_day today) in
  let earlier := replace_ymd today (dt_year today - n) (dt_month today) (dt_day today) in
  follows (resolve (ds ++ " years from now") ref) ref later /\
  follows (resolve (ds ++ " year from now") ref) ref later /\
  follows (resolve ("in " ++ ds ++ " years") ref) ref later /\
  follows (resolve ("in " ++ ds ++ " year") ref) ref later /\
  follows (resolve (ds ++ " years ago") ref) ref earlier /\
  follows (resolve (ds ++ " year ago") ref) ref earlier.
Proof.
  intros later earlier. repeat split.
  - settle_digits_first. hit_from_now. apply follows_parsed.
  - settle_digits_first. hit_from_now. apply follows_parsed.
  - settle_in. hit_in_units. apply follows_parsed.
  - settle_in. hit_in_units. apply follows_parsed.
  - settle_digits_first. hit_ago. apply follows_parsed.
  - settle_digits_first. hit_ago. apply follows_parsed.
Qed.

End Counted.

(** X8. For a decimal count [n], "<n> days from now", "in <n> days"
    and "<n> days ago" (with or without the plural s) resolve to the day
    [n] days after, resp. before, the reference day, and the same phrases
    with weeks to the day [7 * n] days away; [days_from_today] is that
    signed number of days, and [OverflowError] is raised when the day
    falls outside the date range. *)
Theorem counted_days_and_weeks ds n ref :
  int ds = Ret n -> valid_datetime ref = true ->
  (lands (resolve (ds ++ " days from now") ref) ref n /\
   lands (resolve (ds ++ " day from now") ref) ref n /\
   lands (resolve ("in " ++ ds ++ " days") ref) ref n /\
   lands (resolve ("in " ++ ds ++ " day") ref) ref n /\
   lands (resolve (ds ++ " days ago") ref) ref (- n) /\
   lands (resolve (ds ++ " day ago") ref) ref (- n)) /\
  (lands (resolve (ds ++ " weeks from now") ref) ref (7 * n) /\
   lands (resolve (ds ++ " week from now") ref) ref (7 * n) /\
   lands (resolve ("in " ++ ds ++ " weeks") ref) ref (7 * n) /\
   lands (resolve ("in " ++ ds ++ " week") ref) ref (7 * n) /\
   lands (resolve (ds ++ " weeks ago") ref) ref (- (7 * n)) /\
   lands (resolve (ds ++ " week ago") ref) ref (- (7 * n))).
Proof.
  intros Hint V. split.
  - exact (counted_days_land ds n ref Hint V).
  - exact (counted_weeks_land ds n ref Hint V).
Qed.

Lemma counted_days_and_weeks_witness :
  let ds := "10" in
  let n := 10 in
  let ref := mkDatetime (mkDate 2026 2 8) 9 0 0 0 in
  (lands (resolve (ds ++ " days from now") ref) ref n /\
   lands (resolve (ds ++ " day from now") ref) ref n /\
   lands (resolve ("in " ++ ds ++ " days") ref) ref n /\
   lands (resolve ("in " ++ ds ++ " day") ref) ref n /\
   lands (resolve (ds ++ " days ago") ref) ref (- n) /\
   lands (resolve (ds ++ " day ago") ref) ref (- n)) /\
  (lands (resolve (ds ++ " weeks from now") ref) ref (7 * n) /\
   lands (resolve (ds ++ " week from now") ref) ref (7 * n) /\
   lands (resolve ("in " ++ ds ++ " weeks") ref) ref (7 * n) /\
   lands (resolve ("in " ++ ds ++ " week") ref) ref (7 * n) /\
   lands (resolve (ds ++ " weeks ago") ref) ref (- (7 * n)) /\
   lands (resolve (ds ++ " week ago") ref) ref (- (7 * n))).
Proof.
  exact (counted_days_and_weeks "10" 10 (mkDatetime (mkDate 2026 2 8) 9 0 0 0)
           eq_refl eq_refl).
Defined.



(** X10. Round trip: when "in <n> days" resolves from a reference
    date to some day, "<n> days ago" resolved from that day gives back the
    reference day, with [days_from_today = - n]. *)
Theorem days_ago_undoes_in_days ds n ref later :
  int ds = Ret n -> valid_datetime ref = true -> valid_datetime later = true ->
  dt_date later = fromordinal (toordinal (dt_date ref) + n) ->
  toordinal (dt_date ref) + n <= MAXORDINAL ->
  (exists r, resolve ("in " ++ ds ++ " days") ref = Ret (Resolved r) /\
             r_date r = isoformat (dt_date later)) /\
  (exists r, resolve (ds ++ " days ago") later = Ret (Resolved r) /\
             r_date r = isoformat (dt_date ref) /\
             r_days_from_today r = - n).
Proof.
  intros Hint V V' Hlater Hmax.
  pose proof (toordinal_range _ (valid_datetime_date _ V)) as R.
  assert (Hn : 0 <= n).
  { apply int_inv in Hint. destruct Hint as (_ & _ & _ & Hint).
    assert (G : forall s acc v, 0 <= acc -> int_digits acc s = Some v -> 0 <= v).
    { induction s as [|c s IH]; cbn [int_digits]; intros acc v Ha H.
      - injection H as <-. exact Ha.
      - destruct (is_digit c) eqn:Dc; [|discriminate].
        apply (IH (10 * acc + digit_value c) v); [|exact H].
        unfold digit_value, is_digit, between in *.
        apply andb_prop in Dc. destruct Dc as [D1 _]. apply N.leb_le in D1. lia. }
    exact (G ds 0 n ltac:(lia) Hint). }
  destruct (counted_days_land ds n ref Hint V) as (_ & _ & Lin & _).
  destruct (counted_days_land ds n later Hint V') as (_ & _ & _ & _ & Lago & _).
  unfold lands in Lin, Lago. cbv zeta in Lin, Lago.
  assert (O' : toordinal (dt_date later) = toordinal (dt_date ref) + n).
  { rewrite Hlater. unfold fromordinal.
    destruct (ord2ymd_correct (toordinal (dt_date ref) + n) ltac:(lia)) as [_ E]. exact E. }
  rewrite O' in Lago.
  replace (toordinal (dt_date ref) + n + - n) with (toordinal (dt_date ref)) in Lago by lia.
  destruct (Z.leb_spec 1 (toordinal (dt_date ref) + n)); [|lia].
  destruct (Z.leb_spec (toordinal (dt_date ref) + n) MAXORDINAL); [|lia].
  destruct (Z.leb_spec 1 (toordinal (dt_date ref))); [|lia].
  destruct (Z.leb_spec (toordinal (dt_date ref)) MAXORDINAL); [|lia].
  cbn [andb] in Lin, Lago.
  destruct Lin as (r & Hr & Hd & _). destruct Lago as (r' & Hr' & Hd' & _ & Hk').
  split.
  - exists r. split; [exact Hr|]. rewrite Hd, Hlater. reflexivity.
  - exists r'. split; [exact Hr'|]. split; [|exact Hk'].
    rewrite Hd', fromordinal_toordinal by exact (valid_datetime_date _ V). reflexivity.
Qed.

Lemma days_ago_undoes_in_days_witness :
  (exists r, resolve ("in " ++ "10" ++ " days") (mkDatetime (mkDate 2026 2 8) 9 0 0 0)
             = Ret (Resolved r) /\
             r_date r = isoformat (dt_date (mkDatetime (mkDate 2026 2 18) 0 0 0 0))) /\
  (exists r, resolve ("10" ++ " days ago") (mkDatetime (mkDate 2026 2 18) 0 0 0 0)
             = Ret (Resolved r) /\
             r_date r = isoformat (dt_date (mkDatetime (mkDate 2026 2 8) 9 0 0 0)) /\
             r_days_from_today r = - 10).
Proof.
  apply (days_ago_undoes_in_days "10" 10 (mkDatetime (mkDate 2026 2 8) 9 0 0 0)
           (mkDatetime (mkDate 2026 2 18) 0 0 0 0)).
  - reflexivity.
  - reflexivity.
  - reflexivity.
  - vm_compute. reflexivity.
  - vm_compute. discriminate.
Defined.

(** X25. For a decimal count [n], "<n> months from now" and "in <n>
    months" resolve to the day [_add_months] gives for today and [n], and
    "<n> months ago" to the one it gives for [- n]; the phrases with years
    resolve to the same month and day [n] years later or earlier.  What
    the helper or [replace] raises (a year outside 1..9999, 29 February in
    a common year) leaves [resolve] as that exception; nothing is caught. *)
Theorem counted_months_and_years ds n ref :
  int ds = Ret n ->
  let today := replace_midnight ref in
  let later := replace_ymd today (dt_year today + n) (dt_month today) (dt_day today) in
  let earlier := replace_ymd today (dt_year today - n) (dt_month today) (dt_day today) in
  (follows (resolve (ds ++ " months from now") ref) ref (_add_months today n) /\
   follows (resolve (ds ++ " month from now") ref) ref (_add_months today n) /\
   follows (resolve ("in " ++ ds ++ " months") ref) ref (_add_months today n) /\
   follows (resolve ("in " ++ ds ++ " month") ref) ref (_add_months today n) /\
   follows (resolve (ds ++ " months ago") ref) ref (_add_months today (- n)) /\
   follows (resolve (ds ++ " month ago") ref) ref (_add_months today (- n))) /\
  (follows (resolve (ds ++ " years from now") ref) ref later /\
   follows (resolve (ds ++ " year from now") ref) ref later /\
   follows (resolve ("in " ++ ds ++ " years") ref) ref later /\
   follows (resolve ("in " ++ ds ++ " year") ref) ref later /\
   follows (resolve (ds ++ " years ago") ref) ref earlier /\
   follows (resolve (ds ++ " year ago") ref) ref earlier).
Proof.
  intros Hint today later earlier. split.
  - exact (counted_months_follow ds n ref Hint).
  - exact (counted_years_follow ds n ref Hint).
Qed.

Lemma counted_months_and_years_witness :
  let ds := "13" in
  let n := 13 in
  let ref := mkDatetime (mkDate 2026 1 31) 9 0 0 0 in
  let today := replace_midnight ref in
  let later := replace_ymd today (dt_year today + n) (dt_month today) (dt_day today) in
  let earlier := replace_ymd today (dt_year today - n) (dt_month today) (dt_day today) in
  (follows (resolve (ds ++ " months from now") ref) ref (_add_months today n) /\
   follows (resolve (ds ++ " month from now") ref) ref (_add_months today n) /\
   follows (resolve ("in " ++ ds ++ " months") ref) ref (_add_months today n) /\
   follows (resolve ("in " ++ ds ++ " month") ref) ref (_add_months today n) /\
   follows (resolve (ds ++ " months ago") ref) ref (_add_months today (- n)) /\
   follows (resolve (ds ++ " month ago") ref) ref (_add_months today (- n))) /\
  (follows (resolve (ds ++ " years from now") ref) ref later /\
   follows (resolve (ds ++ " year from now") ref) ref later /\
   follows (resolve ("in " ++ ds ++ " years") ref) ref later /\
   follows (resolve ("in " ++ ds ++ " year") ref) ref later /\
   follows (resolve (ds ++ " years ago") ref) ref earlier /\
   follows (resolve (ds ++ " year ago") ref) ref earlier).
Proof.
  exact (counted_months_and_years "13" 13 (mkDatetime (mkDate 2026 1 31) 9 0 0 0) eq_refl).
Defined.

(** *** ISO dates *)

(** The text ["%0wd" % v] is [w] digits that read back as [v]. *)
Definition padded_ok (w : nat) (v : Z) : bool :=
  let s := zero_padded w v in
  Nat.eqb (String.length s) w && all_digits s &&
  match int_digits 0 s with
  | Some v' => v' =? v
  | None => false
  end.

Lemma padded_year y :
  1 <= y <= 9999 -> padded_ok 4 y = true.
Proof.
  intros H.
  assert (C : forall_from (padded_ok 4) 1 (Z.to_nat 9999) = true) by (vm_compute; reflexivity).
  apply (forall_from_spec _ _ _ C). rewrite Z2Nat.id; lia.
Qed.

Lemma padded_two v :
  1 <= v <= 31 -> padded_ok 2 v = true.
Proof.
  intros H.
  assert (C : forall_from (padded_ok 2) 1 31 = true) by (vm_compute; reflexivity).
  apply (forall_from_spec _ _ _ C). lia.
Qed.

Lemma padded_ok_inv w v :
  (1 <= w <= 4)%nat -> padded_ok w v = true ->
  String.length (zero_padded w v) = w /\
  all_digits (zero_padded w v) = true /\
  int (zero_padded w v) = Ret v.
Proof.
  intros Hw H. unfold padded_ok in H. cbv zeta in H.
  rewrite !andb_true_iff in H. destruct H as ((L & D) & V).
  apply Nat.eqb_eq in L. split; [exact L|]. split; [exact D|].
  unfold int. destruct (zero_padded w v) as [|c s] eqn:E; [cbn in L; lia|].
  rewrite L. replace (w <=? INT_MAX_STR_DIGITS)%nat with true
    by (symmetry; apply Nat.leb_le; unfold INT_MAX_STR_DIGITS; lia).
  destruct (int_digits 0 (String c s)) as [v'|]; [|discriminate].
  apply Z.eqb_eq in V. subst v'. reflexivity.
Qed.

(** Digits and hyphens. *)
Definition plain_char (c : ascii) : bool := is_digit c || is_code 45 c.

Lemma plain_char_facts c :
  plain_char c = true ->
  is_space c = false /\ lower_char c = c.
Proof.
  destruct c as [[] [] [] [] [] [] [] []]; intros H; try discriminate H; split; reflexivity.
Qed.

Lemma string_forall_app f s t :
  string_forall f (s ++ t) = string_forall f s && string_forall f t.
Proof.
  induction s as [|c s IH]; cbn [append string_forall]; [reflexivity|].
  rewrite IH, andb_assoc. reflexivity.
Qed.

Lemma digits_plain s : all_digits s = true -> string_forall plain_char s = true.
Proof.
  induction s as [|c s IH]; cbn [all_digits string_forall]; [reflexivity|].
  intros H. apply andb_prop in H. destruct H as [Hc Hs].
  unfold plain_char at 1. rewrite Hc, (IH Hs). reflexivity.
Qed.

Lemma plain_lower s : string_forall plain_char s = true -> lower s = s.
Proof.
  unfold lower. induction s as [|c s IH]; cbn [string_forall map_string]; [reflexivity|].
  intros H. apply andb_prop in H. destruct H as [Hc Hs].
  destruct (plain_char_facts c Hc) as [_ ->]. rewrite (IH Hs). reflexivity.
Qed.

Lemma plain_rstrip s : string_forall plain_char s = true -> rstrip s = s.
Proof.
  induction s as [|c s IH]; cbn [string_forall rstrip]; [reflexivity|].
  intros H. apply andb_prop in H. destruct H as [Hc Hs].
  rewrite (IH Hs). destruct (plain_char_facts c Hc) as [-> _].
  destruct s; reflexivity.
Qed.

Lemma plain_strip s : string_forall plain_char s = true -> strip s = s.
Proof.
  intros H. unfold strip.
  assert (L : lstrip s = s).
  { destruct s as [|c s]; [reflexivity|]. cbn [string_forall] in H.
    apply andb_prop in H. destruct H as [Hc _].
    cbn [lstrip]. destruct (plain_char_facts c Hc) as [-> _]. reflexivity. }
  rewrite L. apply plain_rstrip. exact H.
Qed.

Lemma plain_no_time_suffix s :
  string_forall plain_char s = true -> re_search time_suffixes s = None.
Proof.
  induction s as [|c s IH]; cbn [string_forall]; [intros _; vm_compute; reflexivity|].
  intros H. apply andb_prop in H. destruct H as [Hc Hs].
  rewrite re_search_skip
    by (apply time_suffixes_needs_space; apply (plain_char_facts c Hc)).
  exact (IH Hs).
Qed.

Lemma normalize_plain s :
  string_forall plain_char s = true -> normalize s = (s, false).
Proof.
  intros H. unfold normalize.
  rewrite (plain_lower _ H), (plain_strip _ H), (plain_no_time_suffix _ H). reflexivity.
Qed.

(** A class repeated exactly [n] times over a run of [n] such characters. *)
Lemma rep_exact f s : forall rest k,
  string_forall f s = true ->
  rep true f (String.length s) (Some (String.length s)) (s ++ rest) k = k rest.
Proof.
  induction s as [|c s IH]; intros rest k H.
  - cbn [String.length append]. destruct rest as [|c rest]; cbn [rep allows_more andb Nat.eqb];
      reflexivity.
  - cbn [string_forall] in H. apply andb_prop in H. destruct H as [Hc Hs].
    cbn [String.length append rep allows_more option_map Nat.pred Nat.eqb].
    rewrite Hc. cbn [andb]. rewrite (IH rest k Hs).
    destruct (k rest); reflexivity.
Qed.

Lemma app_empty s : s ++ "" = s.
Proof. induction s as [|c s IH]; cbn [append]; congruence. Qed.

Lemma rep_exact_end f s k :
  string_forall f s = true ->
  rep true f (String.length s) (Some (String.length s)) s k = k "".
Proof.
  intros H. pose proof (rep_exact f s "" k H) as E. rewrite app_empty in E. exact E.
Qed.

Lemma consumed_all s : consumed s "" = s.
Proof. pose proof (consumed_app s "") as E. rewrite app_empty in E. exact E. Qed.

(** A greedy run whose every continuation fails, for any class. *)
Lemma rep_run_none f s : forall lo hi rest k,
  string_forall f s = true -> head_fails f rest ->
  k rest = None ->
  (forall c t, f c = true -> k (String c t) = None) ->
  rep true f lo hi (s ++ rest) k = None.
Proof.
  induction s as [|c s IH]; intros lo hi rest k Hs Hrest Hk Hrun.
  - cbn [append]. destruct rest as [|c rest]; cbn [rep].
    + rewrite Hk. destruct (Nat.eqb lo 0); reflexivity.
    + cbn in Hrest. rewrite Hrest, andb_false_r, Hk. destruct (Nat.eqb lo 0); reflexivity.
  - cbn [string_forall] in Hs. apply andb_prop in Hs. destruct Hs as [Hc Hs].
    cbn [append rep]. rewrite Hc, andb_true_r.
    rewrite (IH _ _ rest k Hs Hrest Hk Hrun).
    rewrite (Hrun c _ Hc).
    destruct (allows_more hi); destruct (Nat.eqb lo 0); reflexivity.
Qed.

Lemma digit_is_word c : is_digit c = true -> is_word c = true.
Proof. destruct c as [[] [] [] [] [] [] [] []]; intros H; try discriminate H; reflexivity. Qed.

Lemma word_not_space c : is_word c = true -> is_space c = false.
Proof. destruct c as [[] [] [] [] [] [] [] []]; intros H; try discriminate H; reflexivity. Qed.

Lemma digits_are_words s : all_digits s = true -> string_forall is_word s = true.
Proof.
  induction s as [|c s IH]; cbn [all_digits string_forall]; [reflexivity|].
  intros H. apply andb_prop in H. destruct H as [Hc Hs].
  rewrite (digit_is_word c Hc), (IH Hs). reflexivity.
Qed.

(** A pattern that opens with a captured greedy run never matches when
    what follows fails after every length of the run. *)
Lemma group_run_none c lo hi rest_re s tail :
  string_forall (in_cls c) s = true -> head_fails (in_cls c) tail ->
  rmatch rest_re tail [(1%nat, s)] final = None ->
  (forall a t caps, in_cls c a = true -> rmatch rest_re (String a t) caps final = None) ->
  re_match (Seq (Group 1 (Rep c lo hi true)) rest_re) (s ++ tail) = None.
Proof.
  intros Hs Ht Hk Hrun. unfold re_match. cbn [rmatch].
  apply rep_run_none; [exact Hs|exact Ht| |].
  - rewrite consumed_app. exact Hk.
  - intros a t Ha. apply Hrun. exact Ha.
Qed.

Definition month_day_rest : regex :=
  seq [ plus Cspace; Group 2 (times Cdigit 1 2); ordinal_suffix; optional_year 3; Eos ].

Definition day_month_rest : regex :=
  seq [ ordinal_suffix; plus Cspace; Opt (seq [Lit "of"; plus Cspace]);
        Group 2 (plus Cword); optional_year 3; Eos ].

Lemma month_day_re_shape :
  month_day_re = Seq (Group 1 (Rep Cword 1 None true)) month_day_rest.
Proof. reflexivity. Qed.

Lemma day_month_re_shape :
  day_month_re = Seq (Group 1 (Rep Cdigit 1 (Some 2%nat) true)) day_month_rest.
Proof. reflexivity. Qed.

Lemma day_month_rest_needs_space c t caps :
  is_space c = false -> is_code 115 c = false -> is_code 110 c = false ->
  is_code 114 c = false -> is_code 116 c = false ->
  rmatch day_month_rest (String c t) caps final = None.
Proof.
  intros Hsp H1 H2 H3 H4. unfold day_month_rest, ordinal_suffix.
  cbn [seq alt rmatch plus in_cls drop_prefix].
  destruct c as [b0 b1 b2 b3 b4 b5 b6 b7].
  destruct b0, b1, b2, b3, b4, b5, b6, b7; try discriminate;
    cbn; rewrite ?rep_stop by reflexivity; reflexivity.
Qed.

Lemma digit_not_suffix_letter c :
  is_digit c = true ->
  is_code 115 c = false /\ is_code 110 c = false /\
  is_code 114 c = false /\ is_code 116 c = false.
Proof.
  destruct c as [[] [] [] [] [] [] [] []]; intros H; try discriminate H;
    repeat split; reflexivity.
Qed.

(** *** Texts of the shape dddd-dd-dd *)

Section IsoText.

Variables (Y M D : string) (y m d : Z) (ref : datetime).
Hypothesis LY : String.length Y = 4%nat.
Hypothesis LM : String.length M = 2%nat.
Hypothesis LD : String.length D = 2%nat.
Hypothesis IY : int Y = Ret y.
Hypothesis IM : int M = Ret m.
Hypothesis ID : int D = Ret d.

Let text := Y ++ "-" ++ M ++ "-" ++ D.
Let tail := "-" ++ M ++ "-" ++ D.
Let today := replace_midnight ref.

Let DY : all_digits Y = true.
Proof. apply (int_inv _ _ IY). Qed.

Let DM : all_digits M = true.
Proof. apply (int_inv _ _ IM). Qed.

Let DD : all_digits D = true.
Proof. apply (int_inv _ _ ID). Qed.

Lemma iso_text_plain : string_forall plain_char text = true.
Proof.
  unfold text. rewrite !string_forall_app.
  rewrite (digits_plain Y DY), (digits_plain M DM), (digits_plain D DD). reflexivity.
Qed.

Lemma iso_year_first : exists c Y', Y = String c Y' /\ is_digit c = true.
Proof.
  pose proof DY as Dg. destruct Y as [|c Y']; [discriminate LY|].
  exists c, Y'. cbn [all_digits] in Dg. apply andb_prop in Dg. tauto.
Qed.

Lemma iso_re_reads :
  re_match iso_re text = Some ([(3%nat, D); (2%nat, M); (1%nat, Y)], "").
Proof.
  unfold re_match, iso_re, times. cbn [seq rmatch in_cls].
  unfold text.
  rewrite <- LY at 1 2. rewrite rep_exact by exact (all_digits_forall _ DY).
  rewrite consumed_app.
  change (drop_prefix "-" ("-" ++ M ++ "-" ++ D)) with (Some (M ++ "-" ++ D)).
  cbv beta iota.
  rewrite <- LM at 1 2. rewrite rep_exact by exact (all_digits_forall _ DM).
  rewrite consumed_app.
  change (drop_prefix "-" ("-" ++ D)) with (Some D).
  cbv beta iota.
  rewrite <- LD at 1 2. rewrite rep_exact_end by exact (all_digits_forall _ DD).
  cbn [at_end]. rewrite consumed_all. reflexivity.
Qed.

Ltac year_digit_first :=
  let c := fresh "c" in let Y' := fresh "Y'" in
  let E := fresh "E" in let Hc := fresh "Hc" in
  destruct iso_year_first as (c & Y' & E & Hc); unfold text; rewrite E;
  cbn [append].

Lemma iso_not_fixed : fixed_phrases text today = Ret None.
Proof. year_digit_first. apply digit_first_fixed. assumption. Qed.

Lemma iso_not_modifier : modifier_grammar text today = Ret None.
Proof. year_digit_first. apply modifier_none, digit_first_modifier. assumption. Qed.

Lemma iso_not_from_now : from_now_grammar text today = Ret None.
Proof.
  apply from_now_none. rewrite from_now_re_shape. unfold text.
  apply digits_group_none; [exact DY|reflexivity| |rest_starts_with_space].
  apply space_first_none. reflexivity.
Qed.

Lemma iso_not_business : business_grammar text today = Ret None.
Proof. year_digit_first. apply business_none, digit_first_business. assumption. Qed.

Lemma iso_not_in_units : in_units_grammar text today = Ret None.
Proof. year_digit_first. apply in_units_none, digit_first_in_units. assumption. Qed.

Lemma iso_not_ago : ago_grammar text today = Ret None.
Proof.
  apply ago_none. rewrite ago_re_shape. unfold text.
  apply digits_group_none; [exact DY|reflexivity| |rest_starts_with_space].
  apply space_first_none. reflexivity.
Qed.

Lemma iso_not_a_unit : a_unit_grammar text today = Ret None.
Proof. year_digit_first. apply a_unit_none, digit_first_a_unit. assumption. Qed.

Lemma iso_not_next_business_day : next_business_day_grammar text today = Ret None.
Proof. year_digit_first. apply digit_first_next_business_day. assumption. Qed.

Lemma iso_not_bare_weekday : bare_weekday_grammar text today = Ret None.
Proof. year_digit_first. apply digit_first_bare_weekday. assumption. Qed.

Lemma iso_not_month_day : month_day_grammar text today = Ret None.
Proof.
  unfold month_day_grammar. rewrite month_day_re_shape. unfold text.
  rewrite group_run_none; [reflexivity|exact (digits_are_words _ DY)|reflexivity| |].
  - apply space_first_none. reflexivity.
  - intros a t caps Ha. apply space_first_none, word_not_space. exact Ha.
Qed.

Lemma iso_not_day_month : day_month_grammar text today = Ret None.
Proof.
  unfold day_month_grammar. rewrite day_month_re_shape. unfold text.
  rewrite group_run_none; [reflexivity|exact (all_digits_forall _ DY)|reflexivity| |].
  - apply day_month_rest_needs_space; reflexivity.
  - intros a t caps Ha. destruct (digit_not_suffix_letter a Ha) as (H1 & H2 & H3 & H4).
    apply day_month_rest_needs_space; try assumption. apply digit_not_space. exact Ha.
Qed.

Lemma iso_read :
  iso_grammar text today =
  except_ValueError_pass (found_as "ISO date" (new_datetime y m d)).
Proof.
  unfold iso_grammar. rewrite iso_re_reads.
  cbn [group group_opt Nat.eqb]. rewrite IY, IM, ID. reflexivity.
Qed.

Lemma iso_chain :
  resolve text ref =
  (found <- iso_grammar text today ;;
   match found with
   | None => Ret (Error ("Could not parse: '" ++ text ++ "'"))
   | Some (p, desc) => Ret (Resolved (build_result text false today p desc))
   end).
Proof.
  rewrite resolve_settled by (apply normalize_plain, iso_text_plain).
  fold today. unfold grammars.
  rewrite first_match_skip by apply iso_not_fixed.
  rewrite first_match_skip by apply iso_not_modifier.
  rewrite first_match_skip by apply iso_not_from_now.
  rewrite first_match_skip by apply iso_not_business.
  rewrite first_match_skip by apply iso_not_in_units.
  rewrite first_match_skip by apply iso_not_ago.
  rewrite first_match_skip by apply iso_not_a_unit.
  rewrite first_match_skip by apply iso_not_next_business_day.
  rewrite first_match_skip by apply iso_not_bare_weekday.
  rewrite first_match_skip by apply iso_not_month_day.
  rewrite first_match_skip by apply iso_not_day_month.
  cbn [first_match]. destruct (iso_grammar text today) as [[[p desc]|]|e|]; reflexivity.
Qed.

Lemma iso_shaped :
  if valid_date (mkDate y m d)
  then exists r, resolve text ref = Ret (Resolved r) /\
                 r_date r = isoformat (mkDate y m d) /\
                 r_day_of_week r = day_name (mkDate y m d) /\
                 r_description r = "ISO date" /\
                 r_days_from_today r = days_between (mkDate y m d) (dt_date ref)
  else resolve text ref = Ret (Error ("Could not parse: '" ++ text ++ "'")).
Proof.
  rewrite iso_chain, iso_read.
  destruct (valid_date (mkDate y m d)) eqn:V.
  - rewrite (new_datetime_ret _ _ _ V). cbn [found_as bind except_ValueError_pass].
    eexists. split; [reflexivity|]. unfold build_result. cbn. repeat split.
  - assert (F : fits_c_int y && fits_c_int m && fits_c_int d = true).
    { rewrite (int_short_fits Y y IY), (int_short_fits M m IM), (int_short_fits D d ID)
        by (rewrite ?LY, ?LM, ?LD; lia).
      reflexivity. }
    rewrite (new_datetime_raise _ _ _ F V). reflexivity.
Qed.

End IsoText.

(** X13. Every text of the shape dddd-dd-dd resolves to the calendar date
    it writes when that is a date, whatever the reference day; when it is
    not a date (month 00 or 13, day 00, 30 February, year 0000) the
    [ValueError] of the constructor is caught and the result is the
    "Could not parse" error. *)
Theorem iso_text_is_its_own_date Y M D y m d ref :
  String.length Y = 4%nat -> String.length M = 2%nat -> String.length D = 2%nat ->
  int Y = Ret y -> int M = Ret m -> int D = Ret d ->
  let text := Y ++ "-" ++ M ++ "-" ++ D in
  (valid_date (mkDate y m d) = true ->
     exists r, resolve text ref = Ret (Resolved r) /\
               r_date r = isoformat (mkDate y m d) /\
               r_day_of_week r = day_name (mkDate y m d) /\
               r_description r = "ISO date" /\
               r_days_from_today r = days_between (mkDate y m d) (dt_date ref)) /\
  (valid_date (mkDate y m d) = false ->
     resolve text ref = Ret (Error ("Could not parse: '" ++ text ++ "'"))).
Proof.
  intros LY LM LD IY IM ID text.
  pose proof (iso_shaped Y M D y m d ref LY LM LD IY IM ID) as H.
  split; intros V; rewrite V in H; exact H.
Qed.

Lemma iso_text_is_its_own_date_witness :
  (exists r, resolve ("2026" ++ "-" ++ "03" ++ "-" ++ "15")
               (mkDatetime (mkDate 2026 2 8) 9 0 0 0) = Ret (Resolved r) /\
             r_date r = isoformat (mkDate 2026 3 15) /\
             r_day_of_week r = day_name (mkDate 2026 3 15) /\
             r_description r = "ISO date" /\
             r_days_from_today r
             = days_between (mkDate 2026 3 15) (dt_date (mkDatetime (mkDate 2026 2 8) 9 0 0 0))) /\
  resolve ("2026" ++ "-" ++ "02" ++ "-" ++ "30") (mkDatetime (mkDate 2026 2 8) 9 0 0 0)
  = Ret (Error ("Could not parse: '" ++ ("2026" ++ "-" ++ "02" ++ "-" ++ "30") ++ "'")).
Proof.
  split.
  - apply (iso_text_is_its_own_date "2026" "03" "15" 2026 3 15
             (mkDatetime (mkDate 2026 2 8) 9 0 0 0)); reflexivity.
  - apply (iso_text_is_its_own_date "2026" "02" "30" 2026 2 30
             (mkDatetime (mkDate 2026 2 8) 9 0 0 0)); reflexivity.
Defined.

(** The three fields of [isoformat] read back as the date. *)
Lemma isoformat_fields t :
  valid_date t = true ->
  (String.length (zero_padded 4 (year t)) = 4%nat /\
   int (zero_padded 4 (year t)) = Ret (year t)) /\
  (String.length (zero_padded 2 (month t)) = 2%nat /\
   int (zero_padded 2 (month t)) = Ret (month t)) /\
  (String.length (zero_padded 2 (day t)) = 2%nat /\
   int (zero_padded 2 (day t)) = Ret (day t)).
Proof.
  intros V. apply valid_date_unfold in V. destruct V as (Hy & Hm & Hd).
  pose proof (days_in_month_range (year t) (month t) Hm) as R.
  assert (W4 : (1 <= 4 <= 4)%nat) by lia.
  assert (W2 : (1 <= 2 <= 4)%nat) by lia.
  assert (Bm : 1 <= month t <= 31) by lia.
  assert (Bd : 1 <= day t <= 31) by lia.
  destruct (padded_ok_inv 4 (year t) W4 (padded_year (year t) Hy)) as (L1 & _ & I1).
  destruct (padded_ok_inv 2 (month t) W2 (padded_two (month t) Bm)) as (L2 & _ & I2).
  destruct (padded_ok_inv 2 (day t) W2 (padded_two (day t) Bd)) as (L3 & _ & I3).
  repeat split; assumption.
Qed.

Lemma resolve_isoformat t ref :
  valid_date t = true -> gives (resolve (isoformat t) ref) ref t.
Proof.
  intros V. destruct (isoformat_fields t V) as ((L1 & I1) & (L2 & I2) & (L3 & I3)).
  pose proof (iso_shaped _ _ _ _ _ _ ref L1 L2 L3 I1 I2 I3) as H.
  replace (mkDate (year t) (month t) (day t)) with t in H by (destruct t; reflexivity).
  rewrite V in H. destruct H as (r & H1 & H2 & H3 & _ & H5).
  exists r. repeat split; assumption.
Qed.

Lemma resolved_day expression ref r :
  resolve expression ref = Ret (Resolved r) -> valid_datetime ref = true ->
  exists t, valid_date t = true /\
            r_date r = isoformat t /\
            r_day_of_week r = day_name t /\
            r_days_from_today r = days_between t (dt_date ref).
Proof.
  intros H V. apply resolve_inv in H. cbv zeta in H.
  destruct H as [[_ H]|(p & desc & Hm & H)]; [discriminate|].
  injection H as ->.
  apply first_match_some_inv in Hm. apply Exists_exists in Hm.
  destruct Hm as (g & Hg & Hm).
  pose proof (grammars_valid g _ (replace_midnight ref) _ _ Hg (valid_datetime_date _ V) Hm) as Vp.
  exists (dt_date p). unfold build_result. cbn. repeat split. exact Vp.
Qed.

(** X14. The [date] of every result is itself an expression [resolve]
    understands: resolving it against the same reference date gives the
    same date, the same day of the week and the same [days_from_today]. *)
Theorem result_date_resolves_to_itself expression ref r :
  resolve expression ref = Ret (Resolved r) -> valid_datetime ref = true ->
  exists r', resolve (r_date r) ref = Ret (Resolved r') /\
             r_date r' = r_date r /\
             r_day_of_week r' = r_day_of_week r /\
             r_days_from_today r' = r_days_from_today r.
Proof.
  intros H V. destruct (resolved_day _ _ _ H V) as (t & Vt & E1 & E2 & E3).
  destruct (resolve_isoformat t ref Vt) as (r' & R & F1 & F2 & F3).
  exists r'. rewrite E1, E2, E3. repeat split; try assumption.
Qed.

Lemma result_date_resolves_to_itself_witness :
  let ref := mkDatetime (mkDate 2026 2 8) 9 0 0 0 in
  let r := build_result "tomorrow" false (mkDatetime (mkDate 2026 2 8) 0 0 0 0)
             (mkDatetime (mkDate 2026 2 9) 0 0 0 0) "tomorrow" in
  exists r', resolve (r_date r) ref = Ret (Resolved r') /\
             r_date r' = r_date r /\
             r_day_of_week r' = r_day_of_week r /\
             r_days_from_today r' = r_days_from_today r.
Proof.
  intros ref r.
  apply (result_date_resolves_to_itself "tomorrow" ref r); vm_compute; reflexivity.
Defined.

(** *** The end of the week, and a week from now *)

(** X15. "end of week", "end of this week" and "this weekend" all resolve
    to the Sunday of the reference day's week: 0 to 6 days ahead, the
    reference day itself on a Sunday. *)
Theorem end_of_week_is_the_coming_sunday ref :
  valid_datetime ref = true ->
  let o := toordinal (dt_date ref) in
  let w := date_weekday (dt_date ref) in
  0 <= 6 - w <= 6 /\
  (o + (6 - w) + 6) mod 7 = 6 /\
  lands (resolve "end of week" ref) ref (6 - w) /\
  lands (resolve "end of this week" ref) ref (6 - w) /\
  lands (resolve "this weekend" ref) ref (6 - w).
Proof.
  intros V o w.
  pose proof (valid_datetime_date _ V) as Vd.
  assert (Hw : 0 <= w < 7) by (unfold w, date_weekday; apply Z.mod_pos_bound; lia).
  split; [lia|]. split.
  { unfold w, date_weekday. fold o.
    replace (o + (6 - (o + 6) mod 7) + 6) with (6 + (o + 6 - (o + 6) mod 7)) by lia.
    rewrite (Z.mod_eq (o + 6) 7) by lia.
    replace (6 + (o + 6 - (o + 6 - 7 * ((o + 6) / 7)))) with (6 + ((o + 6) / 7) * 7) by lia.
    rewrite Z.mod_add by lia. reflexivity. }
  assert (P : forall b : bool,
             plus_days (replace_midnight ref)
               (if (6 - weekday (replace_midnight ref) =? 0) && b then 0
                else 6 - weekday (replace_midnight ref))
             = add_delta (replace_midnight ref) (6 - w)).
  { intros b. rewrite plus_days_valid_ref by exact Vd.
    change (weekday (replace_midnight ref)) with w.
    destruct (Z.eqb_spec (6 - w) 0) as [E|E]; destruct b; cbn [andb];
      rewrite ?E; reflexivity. }
  revert P. generalize (6 - w). intros a P.
  repeat split; run_chain; rewrite found_as_first; apply lands_offset; apply P.
Qed.

Lemma end_of_week_is_the_coming_sunday_witness :
  let ref := mkDatetime (mkDate 2026 2 5) 9 0 0 0 in
  let o := toordinal (dt_date ref) in
  let w := date_weekday (dt_date ref) in
  0 <= 6 - w <= 6 /\
  (o + (6 - w) + 6) mod 7 = 6 /\
  lands (resolve "end of week" ref) ref (6 - w) /\
  lands (resolve "end of this week" ref) ref (6 - w) /\
  lands (resolve "this weekend" ref) ref (6 - w).
Proof.
  exact (end_of_week_is_the_coming_sunday (mkDatetime (mkDate 2026 2 5) 9 0 0 0) eq_refl).
Defined.

(** X16. "a week from now" and "a week from today" resolve to the day
    seven days after the reference day, as "1 week from now" does. *)
Theorem a_week_from_now_is_seven_days ref :
  valid_datetime ref = true ->
  lands (resolve "a week from now" ref) ref 7 /\
  lands (resolve "a week from today" ref) ref 7 /\
  lands (resolve "1 week from now" ref) ref 7.
Proof.
  intros V. pose proof (valid_datetime_date _ V) as Vd.
  assert (P : plus_weeks (replace_midnight ref) 1 = add_delta (replace_midnight ref) 7)
    by (rewrite plus_weeks_valid_ref by exact Vd; reflexivity).
  repeat split; run_chain; rewrite ?found_as_first; apply lands_offset; exact P.
Qed.

Lemma a_week_from_now_is_seven_days_witness :
  let ref := mkDatetime (mkDate 2026 2 8) 9 0 0 0 in
  lands (resolve "a week from now" ref) ref 7 /\
  lands (resolve "a week from today" ref) ref 7 /\
  lands (resolve "1 week from now" ref) ref 7.
Proof.
  exact (a_week_from_now_is_seven_days (mkDatetime (mkDate 2026 2 8) 9 0 0 0) eq_refl).
Defined.

(** *** Adding months twice *)

(** The month arithmetic of [_add_months], with the month in 1..12. *)
Lemma add_months_unfold dt n :
  1 <= dt_month dt <= 12 ->
  let total := dt_month dt - 1 + n in
  let y := dt_year dt + total / 12 in
  let m := total mod 12 + 1 in
  1 <= m <= 12 /\
  _add_months dt n = replace_ymd dt y m (Z.min (dt_day dt) (days_in_month y m)).
Proof.
  intros Hm total y m.
  assert (Hr : 1 <= m <= 12) by (unfold m; pose proof (Z.mod_pos_bound total 12); lia).
  split; [exact Hr|].
  unfold _add_months. fold total. fold y. fold m.
  rewrite monthrange_days_in_month by exact Hr. reflexivity.
Qed.

Lemma months_carry total b :
  total / 12 + (total mod 12 + 1 - 1 + b) / 12 = (total + b) / 12 /\
  (total mod 12 + 1 - 1 + b) mod 12 = (total + b) mod 12.
Proof.
  replace (total mod 12 + 1 - 1 + b) with (total mod 12 + b) by lia.
  pose proof (Z.div_mod total 12 ltac:(lia)) as E.
  replace (total + b) with (total mod 12 + b + (total / 12) * 12) by lia.
  rewrite Z.div_add by lia. rewrite Z.mod_add by lia. lia.
Qed.

Lemma datetime_eta t :
  mkDatetime (mkDate (dt_year t) (dt_month t) (dt_day t))
    (hour t) (minute t) (second t) (microsecond t) = t.
Proof. destruct t as [[y m d] h mi s u]. reflexivity. Qed.

(** X17. On a day of the month that every month has (1..28),
    [_add_months] is additive and undoes itself: adding [a] months and then
    [b] months is adding [a + b] months, adding [- a] months afterwards
    gives the start back, and adding 0 months changes nothing. *)
Theorem add_months_composes dt a b t1 :
  valid_datetime dt = true -> dt_day dt <= 28 ->
  _add_months dt a = Ret t1 ->
  _add_months t1 b = _add_months dt (a + b) /\
  _add_months t1 (- a) = Ret dt /\
  _add_months dt 0 = Ret dt.
Proof.
  intros V H28 H1.
  pose proof (valid_datetime_date _ V) as Vd. pose proof Vd as Vd'.
  apply valid_date_unfold in Vd. fold (dt_year dt) (dt_month dt) (dt_day dt) in Vd.
  destruct Vd as (Vy & Vm & Vdd).
  assert (Day : forall y m, 1 <= m <= 12 -> Z.min (dt_day dt) (days_in_month y m) = dt_day dt).
  { intros y m Hm. pose proof (days_in_month_range y m Hm). lia. }
  assert (Zero : _add_months dt 0 = Ret dt).
  { destruct (add_months_unfold dt 0 Vm) as (Hm & E). cbv zeta in Hm, E.
    rewrite E, (Day _ _ Hm). rewrite Z.add_0_r.
    rewrite Z.div_small, Z.mod_small by lia.
    replace (dt_year dt + 0) with (dt_year dt) by lia.
    replace (dt_month dt - 1 + 1) with (dt_month dt) by lia.
    rewrite replace_ymd_ret by (destruct dt as [[y m d] h mi s u]; exact Vd').
    rewrite datetime_eta. reflexivity. }
  assert (Comp : forall c, _add_months t1 c = _add_months dt (a + c)).
  { intros c.
    destruct (add_months_unfold dt a Vm) as (Hm1 & E1). cbv zeta in Hm1, E1.
    rewrite E1, (Day _ _ Hm1) in H1. apply replace_ymd_inv in H1.
    destruct H1 as (D1 & _ & Hh & Hmi & Hs & Hu).
    assert (Y1 : dt_year t1 = dt_year dt + (dt_month dt - 1 + a) / 12)
      by (unfold dt_year; rewrite D1; reflexivity).
    assert (M1 : dt_month t1 = (dt_month dt - 1 + a) mod 12 + 1)
      by (unfold dt_month; rewrite D1; reflexivity).
    assert (Dd : dt_day t1 = dt_day dt) by (unfold dt_day at 1; rewrite D1; reflexivity).
    assert (Vm1 : 1 <= dt_month t1 <= 12) by (rewrite M1; exact Hm1).
    destruct (add_months_unfold t1 c Vm1) as (Hm2 & E2). cbv zeta in Hm2, E2.
    destruct (add_months_unfold dt (a + c) Vm) as (Hm3 & E3). cbv zeta in Hm3, E3.
    rewrite E2, E3. rewrite Dd, (Day _ _ Hm2), (Day _ _ Hm3).
    rewrite Y1, M1.
    destruct (months_carry (dt_month dt - 1 + a) c) as (Q & R).
    replace (dt_month dt - 1 + (a + c)) with (dt_month dt - 1 + a + c) by lia.
    rewrite R. rewrite <- Q.
    replace (dt_year dt + (dt_month dt - 1 + a) / 12 +
             ((dt_month dt - 1 + a) mod 12 + 1 - 1 + c) / 12)
      with (dt_year dt + ((dt_month dt - 1 + a) / 12 +
             ((dt_month dt - 1 + a) mod 12 + 1 - 1 + c) / 12)) by lia.
    unfold replace_ymd. rewrite Hh, Hmi, Hs, Hu. reflexivity. }
  split; [apply Comp|]. split; [|exact Zero].
  rewrite Comp. replace (a + - a) with 0 by lia. exact Zero.
Qed.

Lemma add_months_composes_witness :
  let dt := mkDatetime (mkDate 2026 11 15) 9 30 0 0 in
  let t1 := mkDatetime (mkDate 2027 2 15) 9 30 0 0 in
  _add_months t1 (-14) = _add_months dt (3 + -14) /\
  _add_months t1 (- 3) = Ret dt /\
  _add_months dt 0 = Ret dt.
Proof.
  exact (add_months_composes (mkDatetime (mkDate 2026 11 15) 9 30 0 0) 3 (-14)
           (mkDatetime (mkDate 2027 2 15) 9 30 0 0) eq_refl ltac:(cbv; discriminate) eq_refl).
Defined.

(** *** The ways to write a day of a month *)

Definition ordinal_suffixes : list string := [""; "st"; "nd"; "rd"; "th"].

(** "<month> <day>", "<day> <month>" and "<day> of <month>", each with
    or without an ordinal suffix on the day. *)
Definition written_forms (name ds : string) : list string :=
  flat_map (fun suf => [ name ++ " " ++ ds ++ suf;
                         ds ++ suf ++ " " ++ name;
                         ds ++ suf ++ " of " ++ name ]) ordinal_suffixes.

(** What [resolve] needs of a written form [e]: the normalizer keeps it,
    no time keyword is in it, no earlier grammar takes it, one of the two
    patterns reads the month and the day from it, and the ISO pattern does
    not match. *)
Definition form_probe (name ds e : string) : bool :=
  (let '(e', suffix) := normalize e in (e' == e) && negb suffix) &&
  negb (existsb (fun kw => contains kw (lower e)) time_keywords) &&
  passes_to_month_day e &&
  match re_match month_day_re e with
  | Some ([(2%nat, g2); (1%nat, g1)], rest) =>
      (g1 == name) && (g2 == ds) && no_match_at day_month_re e
  | Some _ => false
  | None =>
      match re_match day_month_re e with
      | Some ([(2%nat, g2); (1%nat, g1)], rest) => (g1 == ds) && (g2 == name)
      | _ => false
      end
  end &&
  no_match_at iso_re e.

Definition forms_probe (name ds : string) : bool :=
  forallb (form_probe name ds) (written_forms name ds).

(** The texts of one or two digits that read as a day 1..31. *)
Definition is_month_day (ds : string) : bool :=
  match int_digits 0 ds with
  | Some n => (1 <=? n) && (n <=? 31)
  | None => false
  end.

Definition month_day_texts : list string := filter is_month_day day_texts.

Lemma month_day_text_in ds n :
  int ds = Ret n -> (String.length ds <= 2)%nat -> 1 <= n <= 31 ->
  In ds month_day_texts.
Proof.
  intros H L R. apply filter_In. split; [exact (day_text_in _ _ H L)|].
  apply int_inv in H. destruct H as (_ & _ & _ & H).
  unfold is_month_day. rewrite H. apply andb_true_intro. split; apply Z.leb_le; lia.
Qed.

Lemma forms_probe_all :
  forallb (fun p => forms_probe (fst p) (snd p))
    (list_prod (map fst MONTH_NAMES) month_day_texts) = true.
Proof. vm_compute. reflexivity. Qed.

(** What a caller reads off the result for a month and a day. *)
Definition month_day_answer (name : string) (month day : Z) (ref : datetime)
    : outcome (option answer) :=
  found <- month_day_action name month day None (replace_midnight ref) ;;
  match found with
  | None => Ret None
  | Some (p, desc) =>
      Ret (Some (mkAnswer (isoformat (dt_date p)) (day_name (dt_date p)) desc
                   (days_between (dt_date p) (dt_date ref)) None))
  end.

Lemma written_form_answer name month ds day ref e :
  lookup name MONTH_NAMES = Some month ->
  int ds = Ret day -> (String.length ds <= 2)%nat -> 1 <= day <= 31 ->
  In e (written_forms name ds) ->
  answer_of (resolve e ref) = month_day_answer name month day ref.
Proof.
  intros Hname Hint Hlen Hday He.
  pose proof forms_probe_all as P. rewrite forallb_forall in P.
  specialize (P (name, ds) ltac:(apply in_prod;
                  [exact (lookup_in _ _ _ Hname)
                  |exact (month_day_text_in _ _ Hint Hlen Hday)])).
  cbn [fst snd] in P. unfold forms_probe in P. rewrite forallb_forall in P.
  specialize (P e He). unfold form_probe in P.
  rewrite !andb_true_iff in P. destruct P as ((((Pn & Pk) & Pp) & Pm) & Pi).
  apply negb_true_iff in Pk.
  unfold resolve.
  destruct (normalize e) as [e' suffix].
  apply andb_prop in Pn. destruct Pn as [Pe Ps].
  apply String.eqb_eq in Pe. apply negb_true_iff in Ps. subst e' suffix.
  rewrite (passes_to_month_day_spec _ _ Pp).
  assert (F : first_match [month_day_grammar; day_month_grammar; iso_grammar] e
                (replace_midnight ref)
              = month_day_action name month day None (replace_midnight ref)).
  { cbn [first_match]. unfold month_day_grammar at 1.
    destruct (re_match month_day_re e) as [[m rest]|].
    - destruct m as [|[[|[|[|?]]] g2] [|[[|[|?]] g1] [|? ?]]]; try discriminate.
      rewrite !andb_true_iff in Pm. destruct Pm as ((G1 & G2) & Pd).
      apply String.eqb_eq in G1, G2. subst g1 g2.
      change (group [(2%nat, ds); (1%nat, name)] 1) with name.
      change (group [(2%nat, ds); (1%nat, name)] 2) with ds.
      change (group_opt [(2%nat, ds); (1%nat, name)] 3) with (@None string).
      rewrite Hname, Hint. cbn [bind].
      unfold day_month_grammar, iso_grammar.
      rewrite (no_match_at_none _ _ Pd), (no_match_at_none _ _ Pi).
      destruct (month_day_action name month day None (replace_midnight ref))
        as [[[p desc]|]| |]; reflexivity.
    - unfold no_match at 1. cbn [bind]. unfold day_month_grammar at 1.
      destruct (re_match day_month_re e) as [[m rest]|]; [|discriminate].
      destruct m as [|[[|[|[|?]]] g2] [|[[|[|?]] g1] [|? ?]]]; try discriminate.
      apply andb_prop in Pm. destruct Pm as (G1 & G2).
      apply String.eqb_eq in G1, G2. subst g1 g2.
      change (group [(2%nat, name); (1%nat, ds)] 1) with ds.
      change (group [(2%nat, name); (1%nat, ds)] 2) with name.
      change (group_opt [(2%nat, name); (1%nat, ds)] 3) with (@None string).
      rewrite Hname, Hint. cbn [bind].
      unfold iso_grammar. rewrite (no_match_at_none _ _ Pi).
      destruct (month_day_action name month day None (replace_midnight ref))
        as [[[p desc]|]| |]; reflexivity. }
  rewrite F. unfold month_day_answer.
  destruct (month_day_action name month day None (replace_midnight ref))
    as [[[p desc]|]| |]; cbn [bind answer_of]; try reflexivity.
  unfold build_result. cbn [r_date r_day_of_week r_description r_days_from_today r_warning].
  rewrite Pk. reflexivity.
Qed.

(** X18. A day of a month can be written "<month> <day>", "<day>
    <month>" or "<day> of <month>", with or without st, nd, rd or th after
    the day (any of the four after any day): for every key of
    [MONTH_NAMES] and every day 1..31 written in one or two digits all
    fifteen forms resolve alike, to the same date, weekday, description
    and day count, or the same error (30 February) or exception. *)
Theorem written_forms_resolve_alike name month ds day ref e1 e2 :
  lookup name MONTH_NAMES = Some month ->
  int ds = Ret day -> (String.length ds <= 2)%nat -> 1 <= day <= 31 ->
  In e1 (written_forms name ds) -> In e2 (written_forms name ds) ->
  answer_of (resolve e1 ref) = answer_of (resolve e2 ref).
Proof.
  intros Hname Hint Hlen Hday H1 H2.
  rewrite (written_form_answer name month ds day ref e1 Hname Hint Hlen Hday H1).
  rewrite (written_form_answer name month ds day ref e2 Hname Hint Hlen Hday H2).
  reflexivity.
Qed.

Lemma written_forms_resolve_alike_witness :
  answer_of (resolve "march 15" (mkDatetime (mkDate 2026 2 8) 9 0 0 0))
  = answer_of (resolve "15th of march" (mkDatetime (mkDate 2026 2 8) 9 0 0 0)).
Proof.
  apply (written_forms_resolve_alike "march" 3 "15" 15
           (mkDatetime (mkDate 2026 2 8) 9 0 0 0) "march 15" "15th of march").
  - reflexivity.
  - reflexivity.
  - cbn. lia.
  - lia.
  - cbn. tauto.
  - cbn. tauto.
Defined.

(** *** The order of dates *)

Lemma toordinal_lt_year a b :
  valid_date a = true -> valid_date b = true ->
  year a < year b -> toordinal a < toordinal b.
Proof.
  rewrite !valid_date_unfold. intros (Hy1 & Hm1 & Hd1) (Hy2 & Hm2 & Hd2) L.
  pose proof (yday_bound _ _ _ Hm1 Hd1) as B1.
  pose proof (yday_bound _ _ _ Hm2 Hd2) as B2.
  pose proof (dby_mono (year a + 1) (year b) ltac:(lia)) as M. rewrite dby_step in M.
  unfold toordinal, ymd2ord. lia.
Qed.

Lemma toordinal_lt_month a b :
  valid_date a = true -> valid_date b = true ->
  year a = year b -> month a < month b -> toordinal a < toordinal b.
Proof.
  rewrite !valid_date_unfold. intros (Hy1 & Hm1 & Hd1) (Hy2 & Hm2 & Hd2) E L.
  pose proof (dbm_mono (year b) (month a) (month b) ltac:(lia) ltac:(lia)) as M.
  unfold toordinal, ymd2ord. rewrite E in *. lia.
Qed.

(** [a < b] on dates is the order of their ordinals. *)
Lemma date_ltb_ordinal a b :
  valid_date a = true -> valid_date b = true ->
  date_ltb a b = (toordinal a <? toordinal b).
Proof.
  intros Va Vb. unfold date_ltb.
  destruct (Z.ltb_spec (year a) (year b)) as [Ly|Ly]; cbn [orb].
  { symmetry. apply Z.ltb_lt. apply toordinal_lt_year; assumption. }
  destruct (Z.eqb_spec (year a) (year b)) as [Ey|Ny]; cbn [andb].
  2:{ symmetry. apply Z.ltb_ge.
      pose proof (toordinal_lt_year b a Vb Va ltac:(lia)). lia. }
  destruct (Z.ltb_spec (month a) (month b)) as [Lm|Lm]; cbn [orb].
  { symmetry. apply Z.ltb_lt. apply toordinal_lt_month; assumption. }
  destruct (Z.eqb_spec (month a) (month b)) as [Em|Nm]; cbn [andb].
  2:{ symmetry. apply Z.ltb_ge.
      pose proof (toordinal_lt_month b a Vb Va ltac:(lia) ltac:(lia)). lia. }
  unfold toordinal, ymd2ord. rewrite Ey, Em.
  destruct (Z.ltb_spec (day a) (day b)); symmetry; [apply Z.ltb_lt|apply Z.ltb_ge]; lia.
Qed.

Lemma date_min_ordinal a b :
  valid_date a = true -> valid_date b = true ->
  valid_date (date_min a b) = true /\
  toordinal (date_min a b) = Z.min (toordinal a) (toordinal b).
Proof.
  intros Va Vb. unfold date_min. rewrite (date_ltb_ordinal b a Vb Va).
  destruct (Z.ltb_spec (toordinal b) (toordinal a)); split; try assumption; lia.
Qed.

Lemma date_max_ordinal a b :
  valid_date a = true -> valid_date b = true ->
  valid_date (date_max a b) = true /\
  toordinal (date_max a b) = Z.max (toordinal a) (toordinal b).
Proof.
  intros Va Vb. unfold date_max. rewrite (date_ltb_ordinal a b Va Vb).
  destruct (Z.ltb_spec (toordinal a) (toordinal b)); split; try assumption; lia.
Qed.

(** *** Counting the business days of a span *)

(** The Monday-to-Friday days among the ordinals [a], ..., [b - 1]. *)
Definition weekdays_between (a b : Z) : Z := business_count (a - 1) (Z.to_nat (b - a)).

Lemma weekdays_between_empty a b : b <= a -> weekdays_between a b = 0.
Proof. intros H. unfold weekdays_between. replace (Z.to_nat (b - a)) with 0%nat by lia. reflexivity. Qed.

Lemma weekdays_between_first a b :
  a < b -> weekdays_between a b = b2z (business_ordinal a) + weekdays_between (a + 1) b.
Proof.
  intros H. unfold weekdays_between.
  replace (Z.to_nat (b - a)) with (S (Z.to_nat (b - (a + 1)))) by lia.
  rewrite business_count_shift.
  replace (a - 1 + 1) with a by lia. replace (a + 1 - 1) with a by lia. reflexivity.
Qed.

Lemma weekdays_between_last a b :
  a < b -> weekdays_between a b = weekdays_between a (b - 1) + b2z (business_ordinal (b - 1)).
Proof.
  intros H. unfold weekdays_between.
  replace (Z.to_nat (b - a)) with (S (Z.to_nat (b - 1 - a))) by lia.
  cbn [business_count]. do 2 f_equal. f_equal. lia.
Qed.

Lemma weekdays_between_bounds a b : 0 <= weekdays_between a b <= Z.max 0 (b - a).
Proof.
  unfold weekdays_between. generalize (a - 1). intros o.
  replace (Z.max 0 (b - a)) with (Z.of_nat (Z.to_nat (b - a))) by lia.
  induction (Z.to_nat (b - a)) as [|j IH]; [cbn; lia|].
  pose proof (business_count_step o j). lia.
Qed.

Lemma weekdays_between_split a b c :
  a <= b <= c -> weekdays_between a c = weekdays_between a b + weekdays_between b c.
Proof.
  intros H. replace c with (b + Z.of_nat (Z.to_nat (c - b))) by lia.
  induction (Z.to_nat (c - b)) as [|j IH].
  - rewrite Z.add_0_r. rewrite (weekdays_between_empty b b) by lia. lia.
  - rewrite (weekdays_between_last a) by lia. rewrite (weekdays_between_last b) by lia.
    replace (b + Z.of_nat (S j) - 1) with (b + Z.of_nat j) by lia. lia.
Qed.

Lemma weekdays_of_a_week a : weekdays_between a (a + 7) = 5.
Proof.
  unfold weekdays_between. replace (Z.to_nat (a + 7 - a)) with 7%nat by lia.
  cbn [business_count]. rewrite !business_ordinal_offset.
  pose proof (Z.mod_pos_bound (a - 1 + 6) 7 ltac:(lia)) as R.
  assert ((a - 1 + 6) mod 7 = 0 \/ (a - 1 + 6) mod 7 = 1 \/ (a - 1 + 6) mod 7 = 2 \/
          (a - 1 + 6) mod 7 = 3 \/ (a - 1 + 6) mod 7 = 4 \/ (a - 1 + 6) mod 7 = 5 \/
          (a - 1 + 6) mod 7 = 6) as C by lia.
  destruct C as [->|[->|[->|[->|[->|[->| ->]]]]]]; reflexivity.
Qed.

Lemma weekdays_of_weeks (k : nat) : forall a,
  weekdays_between a (a + 7 * Z.of_nat k) = 5 * Z.of_nat k.
Proof.
  induction k as [|k IH]; intros a.
  - rewrite weekdays_between_empty by lia. lia.
  - rewrite (weekdays_between_split a (a + 7)) by lia.
    rewrite weekdays_of_a_week.
    replace (a + 7 * Z.of_nat (S k)) with (a + 7 + 7 * Z.of_nat k) by lia.
    rewrite IH. lia.
Qed.

Lemma date_plus_one d :
  valid_date d = true -> toordinal d < MAXORDINAL ->
  exists d', date_plus_days d 1 = Ret d' /\ valid_date d' = true /\
             toordinal d' = toordinal d + 1.
Proof.
  intros V H. pose proof (toordinal_range d V) as R.
  unfold date_plus_days. rewrite timedelta_days_small by lia. cbn [bind].
  unfold date_add_delta. cbv zeta.
  destruct (Z.ltb_spec 0 (toordinal d + 1)); [|lia].
  destruct (Z.leb_spec (toordinal d + 1) MAXORDINAL); [|lia]. cbn [andb].
  exists (fromordinal (toordinal d + 1)). split; [reflexivity|].
  unfold fromordinal. apply ord2ymd_correct. lia.
Qed.

(** The loop returns the count of the span, and never runs out of steps
    when it may take one step a day. *)
Lemma count_business_days_spec fuel : forall d end_of_span bdays,
  valid_date d = true -> valid_date end_of_span = true ->
  toordinal end_of_span - toordinal d <= Z.of_nat fuel ->
  count_business_days fuel d end_of_span bdays =
  Ret (bdays + weekdays_between (toordinal d) (toordinal end_of_span)).
Proof.
  induction fuel as [|fuel IH]; intros d e bdays Vd Ve Hf.
  - cbn [count_business_days]. rewrite (date_ltb_ordinal d e Vd Ve).
    destruct (Z.ltb_spec (toordinal d) (toordinal e)); [lia|].
    rewrite weekdays_between_empty by lia. rewrite Z.add_0_r. reflexivity.
  - cbn [count_business_days]. rewrite (date_ltb_ordinal d e Vd Ve).
    destruct (Z.ltb_spec (toordinal d) (toordinal e)) as [L|L].
    + pose proof (toordinal_range e Ve) as Re.
      destruct (date_plus_one d Vd ltac:(lia)) as (d' & -> & Vd' & Od').
      cbn [bind]. rewrite (IH d' e _ Vd' Ve ltac:(lia)). rewrite Od'.
      rewrite (weekdays_between_first (toordinal d)) by lia.
      change (date_weekday d <? 5) with (business_ordinal (toordinal d)).
      destruct (business_ordinal (toordinal d)); cbn [b2z]; f_equal; lia.
    + rewrite weekdays_between_empty by lia. rewrite Z.add_0_r. reflexivity.
Qed.

(** *** [relative_description] *)

(** The business days [relative_description] reports for a date of
    ordinal [target] seen from the day of ordinal [today]. *)
Definition signed_weekdays (today target : Z) : Z :=
  if 0 <=? target - today then weekdays_between today target
  else - weekdays_between target today.

Lemma relative_description_run fromisoformat now date_str parsed :
  fromisoformat date_str = Ret parsed ->
  valid_date (dt_date parsed) = true -> valid_date (dt_date now) = true ->
  relative_description fromisoformat now date_str =
  Ret (Described
         {| d_date := isoformat (dt_date parsed);
            d_day_of_week := day_name (dt_date parsed);
            d_days_from_today := days_between (dt_date parsed) (dt_date now);
            d_business_days :=
              signed_weekdays (toordinal (dt_date now)) (toordinal (dt_date parsed));
            d_human_readable :=
              human_readable (days_between (dt_date parsed) (dt_date now)) |}).
Proof.
  intros Hf Vp Vn. unfold relative_description. rewrite Hf. cbv zeta.
  destruct (date_min_ordinal _ _ Vn Vp) as (Vmin & Omin).
  destruct (date_max_ordinal _ _ Vn Vp) as (Vmax & Omax).
  rewrite (count_business_days_spec _ _ _ 0 Vmin Vmax)
    by (rewrite Omin, Omax; unfold days_between; lia).
  cbn [bind]. rewrite Omin, Omax. unfold signed_weekdays, days_between.
  do 3 f_equal.
  destruct (Z.leb_spec 0 (toordinal (dt_date parsed) - toordinal (dt_date now))).
  - rewrite Z.min_l, Z.max_r by lia. reflexivity.
  - rewrite Z.min_r, Z.max_l by lia. reflexivity.
Qed.

(** X19. For a date string the parser accepts, [relative_description]
    always returns a description: its loop ends without leaving the date
    range.  [days_from_today] is the signed distance in days, and
    [business_days] counts the Monday-to-Friday days from the earlier of
    the two dates up to, not including, the later one, negated for a date
    in the past; so it has the sign of [days_from_today] and is never
    larger in size. *)
Theorem relative_description_counts_weekdays fromisoformat now date_str parsed :
  fromisoformat date_str = Ret parsed ->
  valid_date (dt_date parsed) = true -> valid_date (dt_date now) = true ->
  let today := toordinal (dt_date now) in
  let target := toordinal (dt_date parsed) in
  exists d,
    relative_description fromisoformat now date_str = Ret (Described d) /\
    d_days_from_today d = target - today /\
    (today <= target -> d_business_days d = weekdays_between today target) /\
    (target < today -> d_business_days d = - weekdays_between target today) /\
    Z.abs (d_business_days d) <= Z.abs (d_days_from_today d) /\
    0 <= d_business_days d * d_days_from_today d.
Proof.
  intros Hf Vp Vn today target.
  rewrite (relative_description_run _ _ _ _ Hf Vp Vn). eexists. split; [reflexivity|].
  cbn [d_days_from_today d_business_days]. fold today target.
  unfold days_between. fold today target. unfold signed_weekdays.
  pose proof (weekdays_between_bounds today target) as B1.
  pose proof (weekdays_between_bounds target today) as B2.
  split; [reflexivity|].
  destruct (Z.leb_spec 0 (target - today)).
  - repeat split; try lia. nia.
  - repeat split; try lia. nia.
Qed.

Lemma relative_description_counts_weekdays_witness :
  let parser := fun _ : string => Ret (mkDatetime (mkDate 2026 2 20) 0 0 0 0) in
  let now := mkDatetime (mkDate 2026 2 8) 9 0 0 0 in
  let today := toordinal (dt_date now) in
  let target := toordinal (mkDate 2026 2 20) in
  exists d,
    relative_description parser now "2026-02-20" = Ret (Described d) /\
    d_days_from_today d = target - today /\
    (today <= target -> d_business_days d = weekdays_between today target) /\
    (target < today -> d_business_days d = - weekdays_between target today) /\
    Z.abs (d_business_days d) <= Z.abs (d_days_from_today d) /\
    0 <= d_business_days d * d_days_from_today d.
Proof.
  exact (relative_description_counts_weekdays
           (fun _ : string => Ret (mkDatetime (mkDate 2026 2 20) 0 0 0 0))
           (mkDatetime (mkDate 2026 2 8) 9 0 0 0) "2026-02-20"
           (mkDatetime (mkDate 2026 2 20) 0 0 0 0) eq_refl eq_refl eq_refl).
Defined.

(** X20. A date a whole number of weeks away is five business days away
    per week, whatever the weekday of today: [days_from_today = 7 * k]
    gives [business_days = 5 * k], for [k] of either sign. *)
Theorem whole_weeks_have_five_business_days fromisoformat now date_str parsed k :
  fromisoformat date_str = Ret parsed ->
  valid_date (dt_date parsed) = true -> valid_date (dt_date now) = true ->
  days_between (dt_date parsed) (dt_date now) = 7 * k ->
  exists d,
    relative_description fromisoformat now date_str = Ret (Described d) /\
    d_days_from_today d = 7 * k /\
    d_business_days d = 5 * k.
Proof.
  intros Hf Vp Vn Hk.
  rewrite (relative_description_run _ _ _ _ Hf Vp Vn). eexists. split; [reflexivity|].
  cbn [d_days_from_today d_business_days]. split; [exact Hk|].
  unfold days_between in Hk. unfold signed_weekdays.
  set (today := toordinal (dt_date now)) in *.
  set (target := toordinal (dt_date parsed)) in *.
  destruct (Z.leb_spec 0 (target - today)).
  - replace target with (today + 7 * Z.of_nat (Z.to_nat k)) by lia.
    rewrite weekdays_of_weeks. lia.
  - replace today with (target + 7 * Z.of_nat (Z.to_nat (- k))) by lia.
    rewrite weekdays_of_weeks. lia.
Qed.

Lemma whole_weeks_have_five_business_days_witness :
  exists d,
    relative_description (fun _ : string => Ret (mkDatetime (mkDate 2026 1 18) 0 0 0 0))
      (mkDatetime (mkDate 2026 2 8) 9 0 0 0) "2026-01-18" = Ret (Described d) /\
    d_days_from_today d = 7 * -3 /\
    d_business_days d = 5 * -3.
Proof.
  apply (whole_weeks_have_five_business_days
           (fun _ : string => Ret (mkDatetime (mkDate 2026 1 18) 0 0 0 0))
           (mkDatetime (mkDate 2026 2 8) 9 0 0 0) "2026-01-18"
           (mkDatetime (mkDate 2026 1 18) 0 0 0 0) (-3)); reflexivity.
Defined.

(** X21. Looking back negates: when a date [b] described from the day
    [a] is [n] days and [w] business days away, [a] described from [b] is
    [- n] days and [- w] business days away. *)
Theorem relative_description_is_antisymmetric fromisoformat a b text_a text_b :
  fromisoformat text_a = Ret a -> fromisoformat text_b = Ret b ->
  valid_date (dt_date a) = true -> valid_date (dt_date b) = true ->
  exists forward backward,
    relative_description fromisoformat a text_b = Ret (Described forward) /\
    relative_description fromisoformat b text_a = Ret (Described backward) /\
    d_days_from_today backward = - d_days_from_today forward /\
    d_business_days backward = - d_business_days forward.
Proof.
  intros Ha Hb Va Vb.
  rewrite (relative_description_run _ _ _ _ Hb Vb Va).
  rewrite (relative_description_run _ _ _ _ Ha Va Vb).
  eexists. eexists. split; [reflexivity|]. split; [reflexivity|].
  cbn [d_days_from_today d_business_days]. unfold days_between, signed_weekdays.
  set (x := toordinal (dt_date a)). set (y := toordinal (dt_date b)).
  split; [lia|].
  destruct (Z.leb_spec 0 (x - y)); destruct (Z.leb_spec 0 (y - x)); try lia.
  replace y with x by lia. rewrite weekdays_between_empty by lia. reflexivity.
Qed.

Lemma relative_description_is_antisymmetric_witness :
  let parser := fun s : string =>
    if s == "2026-02-08" then Ret (mkDatetime (mkDate 2026 2 8) 0 0 0 0)
    else Ret (mkDatetime (mkDate 2026 2 20) 0 0 0 0) in
  exists forward backward,
    relative_description parser (mkDatetime (mkDate 2026 2 8) 0 0 0 0) "2026-02-20"
    = Ret (Described forward) /\
    relative_description parser (mkDatetime (mkDate 2026 2 20) 0 0 0 0) "2026-02-08"
    = Ret (Described backward) /\
    d_days_from_today backward = - d_days_from_today forward /\
    d_business_days backward = - d_business_days forward.
Proof.
  intros parser.
  apply (relative_description_is_antisymmetric parser
           (mkDatetime (mkDate 2026 2 8) 0 0 0 0) (mkDatetime (mkDate 2026 2 20) 0 0 0 0)
           "2026-02-08" "2026-02-20"); reflexivity.
Defined.

(** *** The helpers on a date that [resolve] returned *)

Lemma append_same_length a : forall b x y,
  String.length a = String.length b -> a ++ x = b ++ y -> a = b /\ x = y.
Proof.
  induction a as [|c a IH]; intros [|c' b] x y L E; try discriminate L.
  - split; [reflexivity|exact E].
  - cbn [append] in E. injection E as -> E. injection L as L.
    destruct (IH b x y L E) as [-> ->]. split; reflexivity.
Qed.

Lemma ret_inj {A : Type} (a b : A) : @Ret A a = Ret b -> a = b.
Proof. intros [= ->]. reflexivity. Qed.

(** [isoformat] writes different dates differently. *)
Lemma isoformat_inj a b :
  valid_date a = true -> valid_date b = true -> isoformat a = isoformat b -> a = b.
Proof.
  intros Va Vb E.
  destruct (isoformat_fields a Va) as ((L1 & I1) & (L2 & I2) & (L3 & I3)).
  destruct (isoformat_fields b Vb) as ((K1 & J1) & (K2 & J2) & (K3 & J3)).
  unfold isoformat in E.
  apply append_same_length in E; [|congruence]. destruct E as [EY E].
  cbn [append] in E. injection E as E.
  apply append_same_length in E; [|congruence]. destruct E as [EM E].
  cbn [append] in E. injection E as ED.
  rewrite EY in I1. rewrite EM in I2. rewrite ED in I3.
  rewrite J1 in I1. rewrite J2 in I2. rewrite J3 in I3.
  apply ret_inj in I1, I2, I3.
  destruct a as [y m d], b as [y' m' d']. cbn [year month day] in *. congruence.
Qed.

(** What a parser that reads [text] right returns. *)
Definition reads_back (fromisoformat : string -> outcome datetime) (text : string)
    (p : datetime) : Prop :=
  fromisoformat text = Ret p /\ valid_date (dt_date p) = true /\
  isoformat (dt_date p) = text.

Lemma read_back_day fromisoformat expression ref r p :
  resolve expression ref = Ret (Resolved r) -> valid_datetime ref = true ->
  reads_back fromisoformat (r_date r) p ->
  r_day_of_week r = day_name (dt_date p) /\
  r_days_from_today r = days_between (dt_date p) (dt_date ref).
Proof.
  intros H V (_ & Vp & E).
  destruct (resolved_day _ _ _ H V) as (t & Vt & E1 & E2 & E3).
  assert (dt_date p = t) as -> by (apply isoformat_inj; congruence).
  split; assumption.
Qed.

Lemma weekend_names t :
  (5 <=? weekday t) = true <->
  day_name (dt_date t) = "Saturday" \/ day_name (dt_date t) = "Sunday".
Proof.
  pose proof (weekday_range t) as R. unfold day_name.
  change (date_weekday (dt_date t)) with (weekday t).
  assert (weekday t = 0 \/ weekday t = 1 \/ weekday t = 2 \/ weekday t = 3 \/
          weekday t = 4 \/ weekday t = 5 \/ weekday t = 6) as C by lia.
  destruct C as [->|[->|[->|[->|[->|[->| ->]]]]]]; cbn;
    split; intros H; try discriminate H; try tauto;
    destruct H as [H|H]; discriminate H.
Qed.

(** X22. [get_weekday] agrees with [resolve]: on the [date] of a result,
    read back by the parser, it reports the same date and the same day of
    the week; of its two flags exactly one is set, and [is_weekend] is set
    exactly when that day is a Saturday or a Sunday. *)
Theorem get_weekday_agrees_with_resolve fromisoformat expression ref r p :
  resolve expression ref = Ret (Resolved r) -> valid_datetime ref = true ->
  reads_back fromisoformat (r_date r) p ->
  exists info,
    get_weekday fromisoformat (r_date r) = Ret (Weekday info) /\
    w_date info = r_date r /\
    w_day_of_week info = r_day_of_week r /\
    0 <= w_day_number info <= 6 /\
    w_is_weekend info = negb (w_is_weekday info) /\
    (w_is_weekend info = true <->
     r_day_of_week r = "Saturday" \/ r_day_of_week r = "Sunday").
Proof.
  intros H V R. destruct (read_back_day _ _ _ _ _ H V R) as (Ed & _).
  destruct R as (Hf & Vp & E).
  unfold get_weekday. rewrite Hf. eexists. split; [reflexivity|].
  cbn [w_date w_day_of_week w_day_number w_is_weekend w_is_weekday].
  pose proof (weekday_range p) as W.
  split; [exact E|]. split; [symmetry; exact Ed|]. split; [lia|]. split.
  - destruct (Z.leb_spec 5 (weekday p)); destruct (Z.ltb_spec (weekday p) 5);
      try reflexivity; lia.
  - rewrite Ed. apply weekend_names.
Qed.

Lemma get_weekday_agrees_with_resolve_witness :
  let parser := fun _ : string => Ret (mkDatetime (mkDate 2026 2 14) 0 0 0 0) in
  let r := build_result "next saturday" false (mkDatetime (mkDate 2026 2 8) 0 0 0 0)
             (mkDatetime (mkDate 2026 2 14) 0 0 0 0) "next saturday" in
  exists info,
    get_weekday parser (r_date r) = Ret (Weekday info) /\
    w_date info = r_date r /\
    w_day_of_week info = r_day_of_week r /\
    0 <= w_day_number info <= 6 /\
    w_is_weekend info = negb (w_is_weekday info) /\
    (w_is_weekend info = true <->
     r_day_of_week r = "Saturday" \/ r_day_of_week r = "Sunday").
Proof.
  intros parser r.
  apply (get_weekday_agrees_with_resolve parser "next saturday"
           (mkDatetime (mkDate 2026 2 8) 9 0 0 0) r (mkDatetime (mkDate 2026 2 14) 0 0 0 0)).
  - vm_compute. reflexivity.
  - reflexivity.
  - repeat split; vm_compute; reflexivity.
Defined.

(** X23. [relative_description] agrees with [resolve]: on the [date] of
    a result, with the clock at the reference date, it reports the same
    date, the same day of the week and the same [days_from_today]. *)
Theorem relative_description_agrees_with_resolve fromisoformat expression ref r p :
  resolve expression ref = Ret (Resolved r) -> valid_datetime ref = true ->
  reads_back fromisoformat (r_date r) p ->
  exists d,
    relative_description fromisoformat ref (r_date r) = Ret (Described d) /\
    d_date d = r_date r /\
    d_day_of_week d = r_day_of_week r /\
    d_days_from_today d = r_days_from_today r.
Proof.
  intros H V R. destruct (read_back_day _ _ _ _ _ H V R) as (Ed & En).
  destruct R as (Hf & Vp & E).
  rewrite (relative_description_run _ _ _ _ Hf Vp (valid_datetime_date _ V)).
  eexists. split; [reflexivity|].
  cbn [d_date d_day_of_week d_days_from_today]. repeat split; congruence.
Qed.

Lemma relative_description_agrees_with_resolve_witness :
  let parser := fun _ : string => Ret (mkDatetime (mkDate 2026 2 14) 0 0 0 0) in
  let ref := mkDatetime (mkDate 2026 2 8) 9 0 0 0 in
  let r := build_result "next saturday" false (mkDatetime (mkDate 2026 2 8) 0 0 0 0)
             (mkDatetime (mkDate 2026 2 14) 0 0 0 0) "next saturday" in
  exists d,
    relative_description parser ref (r_date r) = Ret (Described d) /\
    d_date d = r_date r /\
    d_day_of_week d = r_day_of_week r /\
    d_days_from_today d = r_days_from_today r.
Proof.
  intros parser ref r.
  apply (relative_description_agrees_with_resolve parser "next saturday" ref r
           (mkDatetime (mkDate 2026 2 14) 0 0 0 0)).
  - vm_compute. reflexivity.
  - reflexivity.
  - repeat split; vm_compute; reflexivity.
Defined.

(** X24. The two counts of business days differ at the weekend.  When
    "in <n> business days" ([n >= 1]) resolves to a date, the
    [business_days] that [relative_description] reports for that date is
    [n] when today is a Monday-to-Friday day and [n - 1] when today is a
    Saturday or a Sunday: [resolve] counts the days after today up to the
    target, [relative_description] the days from today up to the day
    before the target. *)
Theorem business_days_counted_from_today fromisoformat ds n ref r p :
  int ds = Ret n -> 1 <= n -> valid_datetime ref = true ->
  resolve ("in " ++ ds ++ " business days") ref = Ret (Resolved r) ->
  reads_back fromisoformat (r_date r) p ->
  exists d,
    relative_description fromisoformat ref (r_date r) = Ret (Described d) /\
    d_days_from_today d = r_days_from_today r /\
    d_business_days d = if date_weekday (dt_date ref) <? 5 then n else n - 1.
Proof.
  intros Hint Hn V H R.
  destruct (read_back_day _ _ _ _ _ H V R) as (_ & En).
  destruct R as (Hf & Vp & E).
  pose proof (valid_datetime_date _ V) as Vd.
  rewrite (relative_description_run _ _ _ _ Hf Vp Vd).
  eexists. split; [reflexivity|].
  cbn [d_days_from_today d_business_days]. split; [congruence|].
  rewrite (resolve_business_days _ _ ref Hint) in H.
  pose proof (business_loop_spec (business_fuel n) n (replace_midnight ref) 0 Vd ltac:(lia))
    as S.
  cbv zeta in S. change (toordinal (dt_date (replace_midnight ref)))
    with (toordinal (dt_date ref)) in S.
  destruct (business_loop (business_fuel n) n (replace_midnight ref) 0) as [q| |];
    cbn [bind] in H; try discriminate H.
  injection H as <-.
  destruct S as (j & Hq & Hmax & Hc & _ & Hb). destruct (Hb ltac:(lia)) as [Hj Hbus].
  unfold build_result in E. cbn [r_date] in E.
  pose proof (toordinal_range _ Vd) as Ro.
  set (o := toordinal (dt_date ref)) in *.
  destruct (ord2ymd_correct (o + Z.of_nat j) ltac:(lia)) as [Vq Oq].
  assert (Ep : dt_date p = fromordinal (o + Z.of_nat j)).
  { apply isoformat_inj; [exact Vp|exact Vq|]. rewrite E, Hq. reflexivity. }
  rewrite Ep. unfold fromordinal. rewrite Oq.
  unfold signed_weekdays. destruct (Z.leb_spec 0 (o + Z.of_nat j - o)); [|lia].
  unfold weekdays_between. replace (Z.to_nat (o + Z.of_nat j - o)) with j by lia.
  destruct j as [|j]; [lia|].
  rewrite business_count_shift. replace (o - 1 + 1) with o by lia.
  cbn [business_count] in Hc. rewrite Hbus in Hc. cbn [b2z] in Hc.
  change (date_weekday (dt_date ref) <? 5) with (business_ordinal o).
  destruct (business_ordinal o); cbn [b2z]; lia.
Qed.

Lemma business_days_counted_from_today_witness :
  let parser := fun _ : string => Ret (mkDatetime (mkDate 2026 2 9) 0 0 0 0) in
  let ref := mkDatetime (mkDate 2026 2 7) 9 0 0 0 in
  let r := build_result ("in " ++ "1" ++ " business days") false
             (mkDatetime (mkDate 2026 2 7) 0 0 0 0)
             (mkDatetime (mkDate 2026 2 9) 0 0 0 0) "in 1 business day(s)" in
  exists d,
    relative_description parser ref (r_date r) = Ret (Described d) /\
    d_days_from_today d = r_days_from_today r /\
    d_business_days d = if date_weekday (dt_date ref) <? 5 then 1 else 1 - 1.
Proof.
  intros parser ref r.
  apply (business_days_counted_from_today parser "1" 1 ref r
           (mkDatetime (mkDate 2026 2 9) 0 0 0 0)).
  - reflexivity.
  - lia.
  - reflexivity.
  - vm_compute. reflexivity.
  - repeat split; vm_compute; reflexivity.
Defined.

(** *** A time of day after a one-word expression *)

Definition no_space (s : string) : bool := string_forall (fun c => negb (is_space c)) s.

(** A lowercase expression of one word: "today", "friday", "eom",
    "2026-03-15". *)
Definition one_word (e : string) : bool :=
  negb (e == "") && no_space e && (lower e == e).

(** A lowercase text that is a time suffix from its first to its last
    character: " morning", " in the evening", " at 3pm", " at 10:30 am". *)
Definition time_of_day (s : string) : bool :=
  (lower s == s) && (rstrip s == s) &&
  match re_match time_suffixes s with
  | Some (_, EmptyString) => true
  | _ => false
  end.

Lemma no_space_search e s :
  no_space e = true -> re_search time_suffixes (e ++ s) = re_search time_suffixes s.
Proof.
  unfold no_space. induction e as [|c e IH]; cbn [string_forall append]; [reflexivity|].
  intros H. apply andb_prop in H. destruct H as [Hc He]. apply negb_true_iff in Hc.
  rewrite re_search_skip by (apply time_suffixes_needs_space; exact Hc).
  exact (IH He).
Qed.

Lemma no_space_sub e s :
  no_space e = true ->
  sub_empty time_suffixes 0 (e ++ s) = e ++ sub_empty time_suffixes 0 s.
Proof.
  unfold no_space. induction e as [|c e IH]; cbn [string_forall append]; [reflexivity|].
  intros H. apply andb_prop in H. destruct H as [Hc He]. apply negb_true_iff in Hc.
  cbn [sub_empty]. rewrite (time_suffixes_needs_space c _ Hc). rewrite (IH He). reflexivity.
Qed.

Lemma sub_empty_drops r s : forall n,
  (String.length s <= n)%nat -> sub_empty r n s = EmptyString.
Proof.
  induction s as [|c s IH]; intros n H.
  - destruct n; reflexivity.
  - destruct n as [|n]; [cbn in H; lia|]. cbn [sub_empty]. apply IH. cbn in H. lia.
Qed.

Lemma sub_empty_whole r s caps :
  s <> EmptyString -> re_match r s = Some (caps, EmptyString) ->
  sub_empty r 0 s = EmptyString.
Proof.
  intros Hne H. destruct s as [|c s]; [contradiction|].
  cbn [sub_empty]. rewrite H. cbn [String.length Nat.sub].
  apply sub_empty_drops. lia.
Qed.

Lemma no_space_rstrip e : no_space e = true -> rstrip e = e.
Proof.
  unfold no_space. induction e as [|c e IH]; cbn [string_forall rstrip]; [reflexivity|].
  intros H. apply andb_prop in H. destruct H as [Hc He]. apply negb_true_iff in Hc.
  rewrite (IH He), Hc. destruct e; reflexivity.
Qed.

Lemma no_space_lstrip e s :
  e <> EmptyString -> no_space e = true -> lstrip (e ++ s) = e ++ s.
Proof.
  intros Hne H. destruct e as [|c e]; [contradiction|].
  unfold no_space in H. cbn [string_forall] in H.
  apply andb_prop in H. destruct H as [Hc _]. apply negb_true_iff in Hc.
  cbn [append lstrip]. rewrite Hc. reflexivity.
Qed.

Lemma one_word_inv e :
  one_word e = true -> e <> EmptyString /\ no_space e = true /\ lower e = e.
Proof.
  unfold one_word. rewrite !andb_true_iff, negb_true_iff.
  intros ((Hne & Hs) & Hl). apply String.eqb_neq in Hne. apply String.eqb_eq in Hl. tauto.
Qed.

Lemma time_of_day_inv s :
  time_of_day s = true ->
  s <> EmptyString /\ lower s = s /\ rstrip s = s /\
  exists caps, re_match time_suffixes s = Some (caps, EmptyString).
Proof.
  unfold time_of_day. rewrite !andb_true_iff. intros ((Hl & Hr) & Hm).
  apply String.eqb_eq in Hl, Hr.
  destruct (re_match time_suffixes s) as [[caps [|? ?]]|] eqn:E; try discriminate.
  split; [|split; [exact Hl|split; [exact Hr|exists caps; reflexivity]]].
  intros ->. vm_compute in E. discriminate.
Qed.

Lemma normalize_one_word e : one_word e = true -> normalize e = (e, false).
Proof.
  intros H. destruct (one_word_inv e H) as (Hne & Hs & Hl).
  unfold normalize. rewrite Hl. unfold strip.
  pose proof (no_space_lstrip e "" Hne Hs) as L. rewrite app_empty in L.
  rewrite L, (no_space_rstrip e Hs).
  pose proof (no_space_search e "" Hs) as S. rewrite app_empty in S. rewrite S.
  reflexivity.
Qed.

Lemma normalize_time_of_day e s :
  one_word e = true -> time_of_day s = true -> normalize (e ++ s) = (e, true).
Proof.
  intros H T. destruct (one_word_inv e H) as (Hne & Hs & Hl).
  destruct (time_of_day_inv s T) as (Sne & Sl & Sr & caps & Sm).
  unfold normalize.
  assert (L : lower (e ++ s) = e ++ s).
  { unfold lower. rewrite map_string_app. fold (lower e) (lower s). congruence. }
  rewrite L.
  assert (P : strip (e ++ s) = e ++ s).
  { unfold strip. rewrite (no_space_lstrip e s Hne Hs).
    rewrite rstrip_app by congruence. congruence. }
  rewrite P, (no_space_search e s Hs).
  assert (F : re_search time_suffixes s = Some (caps, EmptyString)).
  { destruct s; cbn [re_search]; rewrite Sm; reflexivity. }
  rewrite F. unfold re_sub_empty. rewrite (no_space_sub e s Hs).
  rewrite (sub_empty_whole _ s caps Sne Sm), app_empty.
  unfold strip.
  pose proof (no_space_lstrip e "" Hne Hs) as L0. rewrite app_empty in L0.
  rewrite L0, (no_space_rstrip e Hs). reflexivity.
Qed.

(** The answer [a] with the warning of an ignored time. *)
Definition warned (a : outcome (option answer)) : outcome (option answer) :=
  r <- a ;;
  Ret (option_map (fun x => mkAnswer (a_date x) (a_day_of_week x) (a_description x)
                              (a_days_from_today x) (Some time_warning)) r).

(** X26. A time of day after a one-word expression is cut off and
    ignored: "tomorrow at 3pm", "friday morning" or "2026-03-15 in the
    evening" resolve as the word alone does, to the same date, weekday,
    description and day count, the same error or exception, and a
    resolved result carries the warning that a time was ignored. *)
Theorem time_of_day_is_ignored e s ref :
  one_word e = true -> time_of_day s = true ->
  answer_of (resolve (e ++ s) ref) = warned (answer_of (resolve e ref)).
Proof.
  intros H T. unfold resolve.
  rewrite (normalize_time_of_day e s H T), (normalize_one_word e H).
  destruct (first_match grammars e (replace_midnight ref)) as [[[p d]|]| |];
    cbn [bind answer_of warned option_map]; reflexivity.
Qed.

Lemma time_of_day_is_ignored_witness :
  answer_of (resolve ("tomorrow" ++ " at 3pm") (mkDatetime (mkDate 2026 2 8) 9 0 0 0))
  = warned (answer_of (resolve "tomorrow" (mkDatetime (mkDate 2026 2 8) 9 0 0 0))).
Proof.
  apply (time_of_day_is_ignored "tomorrow" " at 3pm" (mkDatetime (mkDate 2026 2 8) 9 0 0 0)).
  - vm_compute. reflexivity.
  - vm_compute. reflexivity.
Defined.
